(** * c-ray: the public API layer (src/lib/api/c-ray.c)

    A shallow embedding of the functions of [c-ray.c] that sit between an
    embedding application and the renderer core, and the properties the
    design document states about them.

    Conventions of the embedding.
    - A handle ([struct cr_renderer *], [struct cr_scene *]) is either
      [NULL] or [PTR]; the object a non-null handle points to is passed
      explicitly and returned explicitly (state passing).
    - A C function of return type [T] becomes a function into
      [outcome (T * state)], a [void] function into [outcome state].
      [UB] stands for undefined behaviour of the C program (an access
      outside an array), [Abort] for a failed [ASSERT], [Spin] for a
      busy-wait loop that has not left its loop when the recorded
      observations of the other threads end.
    - [size_t] and [uint64_t] are 64 bits wide; a value of such a type is
      a [Z] in [0, 2^64), and the wrap-around of the arithmetic is written
      out with [to_size_t].
    - A [float] is the [Z] of its 32 bit pattern, a [double] the [Z] of its
      64 bit pattern: [memcmp] is then equality.  No floating point
      arithmetic is interpreted; the functions of the math library are
      parameters.
    - A dynamic array ([T_arr]: [items], [count]) is a [list]; [count] is
      its length. *)

From Stdlib Require Import ZArith Bool Lia.
From stdpp Require Import base option list strings.

Open Scope Z_scope.

(** ** Outcomes *)

Inductive outcome (A : Type) : Type :=
| Ok (a : A)
| UB
| Abort
| Spin.

Arguments Ok {A} a.
Arguments UB {A}.
Arguments Abort {A}.
Arguments Spin {A}.

Definition obind {A B : Type} (m : outcome A) (k : A -> outcome B) : outcome B :=
  match m with
  | Ok a => k a
  | UB => UB
  | Abort => Abort
  | Spin => Spin
  end.

Notation "'let*' x ':=' m 'in' k" := (obind m (fun x => k))
  (at level 10, x pattern, m at level 100, k at level 200).

Inductive handle : Set := NULL | PTR.

(** ** Machine integers *)

Definition SIZE_WIDTH : Z := 64.
Definition SIZE_MAX : Z := 2 ^ SIZE_WIDTH - 1.

(** The conversion [(size_t)x] of a signed 64 bit value, and the result of
    unsigned arithmetic. *)
Definition to_size_t (x : Z) : Z := x mod 2 ^ SIZE_WIDTH.

Definition INT64_MIN : Z := - 2 ^ 63.
Definition INT64_MAX : Z := 2 ^ 63 - 1.
Definition is_int64 (x : Z) : Prop := INT64_MIN <= x <= INT64_MAX.
Definition is_uint64 (x : Z) : Prop := 0 <= x <= SIZE_MAX.

(** ** Dynamic arrays *)

Definition count {A : Type} (items : list A) : Z := Z.of_nat (length items).

(** [items[idx]]: defined only inside the array. *)
Definition item_at {A : Type} (items : list A) (idx : Z) : option A :=
  if idx <? 0 then None else items !! Z.to_nat idx.

(** [items[idx] = v], at an index that [item_at] accepts. *)
Definition item_set {A : Type} (items : list A) (idx : Z) (v : A) : list A :=
  <[Z.to_nat idx := v]> items.

(** The guard every indexed operation of the API uses:
    [(size_t)idx > arr.count - 1], with [count - 1] computed in [size_t]. *)
Definition past_last {A : Type} (idx : Z) (items : list A) : bool :=
  to_size_t idx >? to_size_t (count items - 1).

(** Modelled from the spec: the [T_arr_add] functions generated by the
    dynamic array macro (common/dyn_array.h is not among the sources); the
    sequences of the scene are ordered and an element is named by its index,
    so adding puts the element last and returns its index. *)
Definition arr_add {A : Type} (items : list A) (v : A) : Z * list A :=
  (count items, items ++ [v]).

(** ** Geometry *)

Definition float : Set := Z.
Definition double : Set := Z.

Record vector : Set := { vx : float; vy : float; vz : float }.
Record coord : Set := { cu : float; cv : float }.

(** [struct cr_vertex_buf_param]: each pointer is [None] when [NULL]; the
    count travels separately, as in the source. *)
Record cr_vertex_buf_param : Set := {
  vertices_p : option (list vector);
  vertex_count : Z;
  normals_p : option (list vector);
  normal_count : Z;
  tex_coords_p : option (list coord);
  tex_coord_count : Z
}.

Record vertex_buffer : Set := {
  vertices : list vector;
  normals : list vector;
  texture_coords : list coord
}.

(** [struct cr_face]; the source reads it as a [struct poly] through a
    pointer cast, so the two share this record. *)
Record cr_face : Set := {
  vertex_idx : list Z;
  normal_idx : list Z;
  texture_idx : list Z;
  mat_idx : Z;
  has_normals : bool
}.
Definition poly : Set := cr_face.

Record row4 : Set := { c0 : float; c1 : float; c2 : float; c3 : float }.
Record matrix4x4 : Set := { r0 : row4; r1 : row4; r2 : row4; r3 : row4 }.
(** The argument [float row_major[4][4]]. *)
Definition float4x4 : Set := matrix4x4.

Record transform : Set := { A : matrix4x4; Ainv : matrix4x4 }.

Global Instance row4_eq_dec : EqDecision row4.
Proof. solve_decision. Defined.
Global Instance matrix4x4_eq_dec : EqDecision matrix4x4.
Proof. solve_decision. Defined.

Record sphere : Set := { radius : float }.

Inductive cr_object_type : Set := cr_object_mesh | cr_object_sphere.

Definition cr_object_type_of_Z (z : Z) : option cr_object_type :=
  match z with
  | 0 => Some cr_object_mesh
  | 1 => Some cr_object_sphere
  | _ => None
  end.

(** Modelled from the spec: [struct instance] (datatypes/instance.h is not
    among the sources): a reference to one object by index and kind, a
    composite transform and a material-set binding index. *)
Record instance : Set := {
  object_idx : Z;
  object_kind : cr_object_type;
  composite : transform;
  bbuf_idx : Z
}.

(** ** Camera *)

Record euler_angles : Set := { roll : float; pitch : float; yaw : float }.

Record camera : Set := {
  FOV : float;
  focus_distance : float;
  fstops : float;
  cam_width : Z;
  cam_height : Z;
  look_at : vector;
  forward : vector;
  right : vector;
  up : vector;
  is_blender : bool;
  position : vector;
  orientation : euler_angles;
  time : float
}.

Inductive cr_camera_param : Set :=
| cr_camera_fov
| cr_camera_focus_distance
| cr_camera_fstops
| cr_camera_pose_x
| cr_camera_pose_y
| cr_camera_pose_z
| cr_camera_pose_roll
| cr_camera_pose_pitch
| cr_camera_pose_yaw
| cr_camera_time
| cr_camera_res_x
| cr_camera_res_y
| cr_camera_blender_coord.

Definition cr_camera_param_of_Z (z : Z) : option cr_camera_param :=
  match z with
  | 0 => Some cr_camera_fov
  | 1 => Some cr_camera_focus_distance
  | 2 => Some cr_camera_fstops
  | 3 => Some cr_camera_pose_x
  | 4 => Some cr_camera_pose_y
  | 5 => Some cr_camera_pose_z
  | 6 => Some cr_camera_pose_roll
  | 7 => Some cr_camera_pose_pitch
  | 8 => Some cr_camera_pose_yaw
  | 9 => Some cr_camera_time
  | 10 => Some cr_camera_res_x
  | 11 => Some cr_camera_res_y
  | 12 => Some cr_camera_blender_coord
  | _ => None
  end.

(** ** Renderer preferences and run state *)

Inductive cr_renderer_param : Set :=
| cr_renderer_threads
| cr_renderer_samples
| cr_renderer_bounces
| cr_renderer_tile_width
| cr_renderer_tile_height
| cr_renderer_tile_order
| cr_renderer_override_width
| cr_renderer_override_height
| cr_renderer_override_cam
| cr_renderer_is_iterative
| cr_renderer_asset_path
| cr_renderer_node_list
| cr_renderer_blender_mode.

Inductive render_order : Set :=
| ro_normal | ro_random | ro_top_to_bottom | ro_from_middle | ro_to_middle.

(** Modelled from the spec: [enum render_state] (renderer/renderer.h is not
    among the sources); the source names [r_rendering] and [r_exiting]. *)
Inductive render_state : Set :=
| r_idle | r_rendering | r_paused | r_exiting | r_finished.

Global Instance render_state_eq_dec : EqDecision render_state.
Proof. solve_decision. Defined.

Inductive cr_tile_state : Set :=
| cr_tile_ready_to_render | cr_tile_rendering | cr_tile_finished.

Record cr_tile : Set := {
  tile_w : Z;
  tile_h : Z;
  start_x : Z;
  start_y : Z;
  end_x : Z;
  end_y : Z;
  tile_state : cr_tile_state;
  network_renderer : bool;
  tile_index : Z;
  total_samples : Z;
  completed_samples : Z
}.
Definition render_tile : Set := cr_tile.

(** [struct tile_set]: the tile array and the completion counter; its
    [tile_mutex] carries no data and shows up as events of the trace. *)
Record tile_set : Set := {
  tiles : list render_tile;
  finished : Z
}.

(** [struct texture], as far as the API looks into it (it is handed out as
    a [struct cr_bitmap]): the size and the pixel store. *)
Record texture : Set := {
  tex_width : Z;
  tex_height : Z;
  tex_channels : Z;
  tex_data : list float
}.

Record worker : Set := {
  paused : bool;
  in_pause_loop : bool;
  totalSamples : Z
}.

(** A callback slot: the function pointer and the user pointer, as
    addresses ([None] for [NULL]). *)
Record callback : Set := {
  fn : option Z;
  user_data : option Z
}.

Record prefs_t : Set := {
  threads : Z;
  sampleCount : Z;
  bounces : Z;
  tileWidth : Z;
  tileHeight : Z;
  tileOrder : render_order;
  override_width : Z;
  override_height : Z;
  selected_camera : Z;
  iterative : bool;
  blender_mode : bool;
  node_list : option string
}.

(** ** Field updates of the closed records *)

Definition set_vx (p : vector) (v : float) : vector :=
  {| vx := v; vy := vy p; vz := vz p |}.
Definition set_vy (p : vector) (v : float) : vector :=
  {| vx := vx p; vy := v; vz := vz p |}.
Definition set_vz (p : vector) (v : float) : vector :=
  {| vx := vx p; vy := vy p; vz := v |}.

Definition set_roll (o : euler_angles) (v : float) : euler_angles :=
  {| roll := v; pitch := pitch o; yaw := yaw o |}.
Definition set_pitch (o : euler_angles) (v : float) : euler_angles :=
  {| roll := roll o; pitch := v; yaw := yaw o |}.
Definition set_yaw (o : euler_angles) (v : float) : euler_angles :=
  {| roll := roll o; pitch := pitch o; yaw := v |}.

Definition set_FOV (c : camera) (v : float) : camera :=
  {| FOV := v; focus_distance := focus_distance c; fstops := fstops c;
     cam_width := cam_width c; cam_height := cam_height c;
     look_at := look_at c; forward := forward c; right := right c;
     up := up c; is_blender := is_blender c; position := position c;
     orientation := orientation c; time := time c |}.
Definition set_focus_distance (c : camera) (v : float) : camera :=
  {| FOV := FOV c; focus_distance := v; fstops := fstops c;
     cam_width := cam_width c; cam_height := cam_height c;
     look_at := look_at c; forward := forward c; right := right c;
     up := up c; is_blender := is_blender c; position := position c;
     orientation := orientation c; time := time c |}.
Definition set_fstops (c : camera) (v : float) : camera :=
  {| FOV := FOV c; focus_distance := focus_distance c; fstops := v;
     cam_width := cam_width c; cam_height := cam_height c;
     look_at := look_at c; forward := forward c; right := right c;
     up := up c; is_blender := is_blender c; position := position c;
     orientation := orientation c; time := time c |}.
Definition set_cam_width (c : camera) (v : Z) : camera :=
  {| FOV := FOV c; focus_distance := focus_distance c; fstops := fstops c;
     cam_width := v; cam_height := cam_height c; look_at := look_at c;
     forward := forward c; right := right c; up := up c;
     is_blender := is_blender c; position := position c;
     orientation := orientation c; time := time c |}.
Definition set_cam_height (c : camera) (v : Z) : camera :=
  {| FOV := FOV c; focus_distance := focus_distance c; fstops := fstops c;
     cam_width := cam_width c; cam_height := v; look_at := look_at c;
     forward := forward c; right := right c; up := up c;
     is_blender := is_blender c; position := position c;
     orientation := orientation c; time := time c |}.
Definition set_look_at (c : camera) (v : vector) : camera :=
  {| FOV := FOV c; focus_distance := focus_distance c; fstops := fstops c;
     cam_width := cam_width c; cam_height := cam_height c; look_at := v;
     forward := forward c; right := right c; up := up c;
     is_blender := is_blender c; position := position c;
     orientation := orientation c; time := time c |}.
Definition set_forward (c : camera) (v : vector) : camera :=
  {| FOV := FOV c; focus_distance := focus_distance c; fstops := fstops c;
     cam_width := cam_width c; cam_height := cam_height c;
     look_at := look_at c; forward := v; right := right c; up := up c;
     is_blender := is_blender c; position := position c;
     orientation := orientation c; time := time c |}.
Definition set_right (c : camera) (v : vector) : camera :=
  {| FOV := FOV c; focus_distance := focus_distance c; fstops := fstops c;
     cam_width := cam_width c; cam_height := cam_height c;
     look_at := look_at c; forward := forward c; right := v; up := up c;
     is_blender := is_blender c; position := position c;
     orientation := orientation c; time := time c |}.
Definition set_up (c : camera) (v : vector) : camera :=
  {| FOV := FOV c; focus_distance := focus_distance c; fstops := fstops c;
     cam_width := cam_width c; cam_height := cam_height c;
     look_at := look_at c; forward := forward c; right := right c; up := v;
     is_blender := is_blender c; position := position c;
     orientation := orientation c; time := time c |}.
Definition set_is_blender (c : camera) (v : bool) : camera :=
  {| FOV := FOV c; focus_distance := focus_distance c; fstops := fstops c;
     cam_width := cam_width c; cam_height := cam_height c;
     look_at := look_at c; forward := forward c; right := right c;
     up := up c; is_blender := v; position := position c;
     orientation := orientation c; time := time c |}.
Definition set_position (c : camera) (v : vector) : camera :=
  {| FOV := FOV c; focus_distance := focus_distance c; fstops := fstops c;
     cam_width := cam_width c; cam_height := cam_height c;
     look_at := look_at c; forward := forward c; right := right c;
     up := up c; is_blender := is_blender c; position := v;
     orientation := orientation c; time := time c |}.
Definition set_orientation (c : camera) (v : euler_angles) : camera :=
  {| FOV := FOV c; focus_distance := focus_distance c; fstops := fstops c;
     cam_width := cam_width c; cam_height := cam_height c;
     look_at := look_at c; forward := forward c; right := right c;
     up := up c; is_blender := is_blender c; position := position c;
     orientation := v; time := time c |}.
Definition set_time (c : camera) (v : float) : camera :=
  {| FOV := FOV c; focus_distance := focus_distance c; fstops := fstops c;
     cam_width := cam_width c; cam_height := cam_height c;
     look_at := look_at c; forward := forward c; right := right c;
     up := up c; is_blender := is_blender c; position := position c;
     orientation := orientation c; time := v |}.

Definition set_threads (p : prefs_t) (v : Z) : prefs_t :=
  {| threads := v; sampleCount := sampleCount p; bounces := bounces p;
     tileWidth := tileWidth p; tileHeight := tileHeight p;
     tileOrder := tileOrder p; override_width := override_width p;
     override_height := override_height p;
     selected_camera := selected_camera p; iterative := iterative p;
     blender_mode := blender_mode p; node_list := node_list p |}.
Definition set_sampleCount (p : prefs_t) (v : Z) : prefs_t :=
  {| threads := threads p; sampleCount := v; bounces := bounces p;
     tileWidth := tileWidth p; tileHeight := tileHeight p;
     tileOrder := tileOrder p; override_width := override_width p;
     override_height := override_height p;
     selected_camera := selected_camera p; iterative := iterative p;
     blender_mode := blender_mode p; node_list := node_list p |}.
Definition set_bounces (p : prefs_t) (v : Z) : prefs_t :=
  {| threads := threads p; sampleCount := sampleCount p; bounces := v;
     tileWidth := tileWidth p; tileHeight := tileHeight p;
     tileOrder := tileOrder p; override_width := override_width p;
     override_height := override_height p;
     selected_camera := selected_camera p; iterative := iterative p;
     blender_mode := blender_mode p; node_list := node_list p |}.
Definition set_tileWidth (p : prefs_t) (v : Z) : prefs_t :=
  {| threads := threads p; sampleCount := sampleCount p;
     bounces := bounces p; tileWidth := v; tileHeight := tileHeight p;
     tileOrder := tileOrder p; override_width := override_width p;
     override_height := override_height p;
     selected_camera := selected_camera p; iterative := iterative p;
     blender_mode := blender_mode p; node_list := node_list p |}.
Definition set_tileHeight (p : prefs_t) (v : Z) : prefs_t :=
  {| threads := threads p; sampleCount := sampleCount p;
     bounces := bounces p; tileWidth := tileWidth p; tileHeight := v;
     tileOrder := tileOrder p; override_width := override_width p;
     override_height := override_height p;
     selected_camera := selected_camera p; iterative := iterative p;
     blender_mode := blender_mode p; node_list := node_list p |}.
Definition set_tileOrder (p : prefs_t) (v : render_order) : prefs_t :=
  {| threads := threads p; sampleCount := sampleCount p;
     bounces := bounces p; tileWidth := tileWidth p;
     tileHeight := tileHeight p; tileOrder := v;
     override_width := override_width p;
     override_height := override_height p;
     selected_camera := selected_camera p; iterative := iterative p;
     blender_mode := blender_mode p; node_list := node_list p |}.
Definition set_override_width (p : prefs_t) (v : Z) : prefs_t :=
  {| threads := threads p; sampleCount := sampleCount p;
     bounces := bounces p; tileWidth := tileWidth p;
     tileHeight := tileHeight p; tileOrder := tileOrder p;
     override_width := v; override_height := override_height p;
     selected_camera := selected_camera p; iterative := iterative p;
     blender_mode := blender_mode p; node_list := node_list p |}.
Definition set_override_height (p : prefs_t) (v : Z) : prefs_t :=
  {| threads := threads p; sampleCount := sampleCount p;
     bounces := bounces p; tileWidth := tileWidth p;
     tileHeight := tileHeight p; tileOrder := tileOrder p;
     override_width := override_width p; override_height := v;
     selected_camera := selected_camera p; iterative := iterative p;
     blender_mode := blender_mode p; node_list := node_list p |}.
Definition set_selected_camera (p : prefs_t) (v : Z) : prefs_t :=
  {| threads := threads p; sampleCount := sampleCount p;
     bounces := bounces p; tileWidth := tileWidth p;
     tileHeight := tileHeight p; tileOrder := tileOrder p;
     override_width := override_width p;
     override_height := override_height p; selected_camera := v;
     iterative := iterative p; blender_mode := blender_mode p;
     node_list := node_list p |}.
Definition set_iterative (p : prefs_t) (v : bool) : prefs_t :=
  {| threads := threads p; sampleCount := sampleCount p;
     bounces := bounces p; tileWidth := tileWidth p;
     tileHeight := tileHeight p; tileOrder := tileOrder p;
     override_width := override_width p;
     override_height := override_height p;
     selected_camera := selected_camera p; iterative := v;
     blender_mode := blender_mode p; node_list := node_list p |}.
Definition set_blender_mode (p : prefs_t) (v : bool) : prefs_t :=
  {| threads := threads p; sampleCount := sampleCount p;
     bounces := bounces p; tileWidth := tileWidth p;
     tileHeight := tileHeight p; tileOrder := tileOrder p;
     override_width := override_width p;
     override_height := override_height p;
     selected_camera := selected_camera p; iterative := iterative p;
     blender_mode := v; node_list := node_list p |}.
Definition set_node_list (p : prefs_t) (v : option string) : prefs_t :=
  {| threads := threads p; sampleCount := sampleCount p;
     bounces := bounces p; tileWidth := tileWidth p;
     tileHeight := tileHeight p; tileOrder := tileOrder p;
     override_width := override_width p;
     override_height := override_height p;
     selected_camera := selected_camera p; iterative := iterative p;
     blender_mode := blender_mode p; node_list := v |}.

Inductive precision : Set := char_p | float_p.

(** ** Scene and renderer

    The types the sources keep opaque are parameters: [struct bvh]
    (accelerators/bvh.h), [struct cr_shader_node] (node.h),
    [struct bsdfNode], the node storage of a scene and the handle of a
    network client. *)

Section Renderer.

Context {bvh shader_node bsdf_node node_storage render_client : Type}.

Record mesh : Type := {
  name : option string;
  vbuf : vertex_buffer;
  polygons : list poly;
  mesh_bvh : option bvh
}.

Record bsdf_buffer : Type := {
  descriptions : list (option shader_node);
  bsdfs : list (option bsdf_node)
}.

(** The argument of a queued BVH build; its [scene] pointer is the scene
    the queue belongs to. *)
Record bvh_build_task_arg : Type := {
  bt_mesh : mesh;
  bt_mesh_idx : Z
}.

(** [struct world].  [bg_worker] is the queue of the background thread
    pool: the builds enqueued and not yet run.  [bvh_lock] carries no
    data.  [topLevel] is modelled from the spec (datatypes/scene.h is not
    among the sources): the one top-level BVH of the scene. *)
Record world : Type := {
  meshes : list mesh;
  spheres : list sphere;
  instances : list instance;
  cameras : list camera;
  shader_buffers : list bsdf_buffer;
  top_level_dirty : bool;
  topLevel : option bvh;
  background : option bsdf_node;
  bg_desc : option shader_node;
  asset_path : option string;
  use_blender_coordinates : bool;
  storage : node_storage;
  bg_worker : list bvh_build_task_arg
}.

Record state_t : Type := {
  s : render_state;
  callbacks : list callback;
  workers : list worker;
  result_buf : option texture;
  current_set : option tile_set;
  finishedPasses : Z;
  clients : list render_client
}.

Record renderer : Type := {
  prefs : prefs_t;
  state : state_t;
  scene : world
}.

(** *** Field updates *)

Definition set_vbuf (m : mesh) (v : vertex_buffer) : mesh :=
  {| name := name m; vbuf := v; polygons := polygons m; mesh_bvh := mesh_bvh m |}.
Definition set_polygons (m : mesh) (v : list poly) : mesh :=
  {| name := name m; vbuf := vbuf m; polygons := v; mesh_bvh := mesh_bvh m |}.
Definition set_mesh_bvh (m : mesh) (v : option bvh) : mesh :=
  {| name := name m; vbuf := vbuf m; polygons := polygons m; mesh_bvh := v |}.

Definition set_composite (i : instance) (v : transform) : instance :=
  {| object_idx := object_idx i; object_kind := object_kind i;
     composite := v; bbuf_idx := bbuf_idx i |}.
Definition set_bbuf_idx (i : instance) (v : Z) : instance :=
  {| object_idx := object_idx i; object_kind := object_kind i;
     composite := composite i; bbuf_idx := v |}.

Definition set_meshes (w : world) (v : list mesh) : world :=
  {| meshes := v; spheres := spheres w; instances := instances w;
     cameras := cameras w; shader_buffers := shader_buffers w;
     top_level_dirty := top_level_dirty w; topLevel := topLevel w;
     background := background w; bg_desc := bg_desc w;
     asset_path := asset_path w;
     use_blender_coordinates := use_blender_coordinates w;
     storage := storage w; bg_worker := bg_worker w |}.
Definition set_spheres (w : world) (v : list sphere) : world :=
  {| meshes := meshes w; spheres := v; instances := instances w;
     cameras := cameras w; shader_buffers := shader_buffers w;
     top_level_dirty := top_level_dirty w; topLevel := topLevel w;
     background := background w; bg_desc := bg_desc w;
     asset_path := asset_path w;
     use_blender_coordinates := use_blender_coordinates w;
     storage := storage w; bg_worker := bg_worker w |}.
Definition set_instances (w : world) (v : list instance) : world :=
  {| meshes := meshes w; spheres := spheres w; instances := v;
     cameras := cameras w; shader_buffers := shader_buffers w;
     top_level_dirty := top_level_dirty w; topLevel := topLevel w;
     background := background w; bg_desc := bg_desc w;
     asset_path := asset_path w;
     use_blender_coordinates := use_blender_coordinates w;
     storage := storage w; bg_worker := bg_worker w |}.
Definition set_cameras (w : world) (v : list camera) : world :=
  {| meshes := meshes w; spheres := spheres w; instances := instances w;
     cameras := v; shader_buffers := shader_buffers w;
     top_level_dirty := top_level_dirty w; topLevel := topLevel w;
     background := background w; bg_desc := bg_desc w;
     asset_path := asset_path w;
     use_blender_coordinates := use_blender_coordinates w;
     storage := storage w; bg_worker := bg_worker w |}.
Definition set_shader_buffers (w : world) (v : list bsdf_buffer) : world :=
  {| meshes := meshes w; spheres := spheres w; instances := instances w;
     cameras := cameras w; shader_buffers := v;
     top_level_dirty := top_level_dirty w; topLevel := topLevel w;
     background := background w; bg_desc := bg_desc w;
     asset_path := asset_path w;
     use_blender_coordinates := use_blender_coordinates w;
     storage := storage w; bg_worker := bg_worker w |}.
Definition set_top_level_dirty (w : world) (v : bool) : world :=
  {| meshes := meshes w; spheres := spheres w; instances := instances w;
     cameras := cameras w; shader_buffers := shader_buffers w;
     top_level_dirty := v; topLevel := topLevel w;
     background := background w; bg_desc := bg_desc w;
     asset_path := asset_path w;
     use_blender_coordinates := use_blender_coordinates w;
     storage := storage w; bg_worker := bg_worker w |}.
Definition set_background (w : world) (v : option bsdf_node) : world :=
  {| meshes := meshes w; spheres := spheres w; instances := instances w;
     cameras := cameras w; shader_buffers := shader_buffers w;
     top_level_dirty := top_level_dirty w; topLevel := topLevel w;
     background := v; bg_desc := bg_desc w;
     asset_path := asset_path w;
     use_blender_coordinates := use_blender_coordinates w;
     storage := storage w; bg_worker := bg_worker w |}.
Definition set_bg_desc (w : world) (v : option shader_node) : world :=
  {| meshes := meshes w; spheres := spheres w; instances := instances w;
     cameras := cameras w; shader_buffers := shader_buffers w;
     top_level_dirty := top_level_dirty w; topLevel := topLevel w;
     background := background w; bg_desc := v;
     asset_path := asset_path w;
     use_blender_coordinates := use_blender_coordinates w;
     storage := storage w; bg_worker := bg_worker w |}.
Definition set_asset_path (w : world) (v : option string) : world :=
  {| meshes := meshes w; spheres := spheres w; instances := instances w;
     cameras := cameras w; shader_buffers := shader_buffers w;
     top_level_dirty := top_level_dirty w; topLevel := topLevel w;
     background := background w; bg_desc := bg_desc w;
     asset_path := v;
     use_blender_coordinates := use_blender_coordinates w;
     storage := storage w; bg_worker := bg_worker w |}.
Definition set_use_blender_coordinates (w : world) (v : bool) : world :=
  {| meshes := meshes w; spheres := spheres w; instances := instances w;
     cameras := cameras w; shader_buffers := shader_buffers w;
     top_level_dirty := top_level_dirty w; topLevel := topLevel w;
     background := background w; bg_desc := bg_desc w;
     asset_path := asset_path w;
     use_blender_coordinates := v;
     storage := storage w; bg_worker := bg_worker w |}.
Definition set_bg_worker (w : world) (v : list bvh_build_task_arg) : world :=
  {| meshes := meshes w; spheres := spheres w; instances := instances w;
     cameras := cameras w; shader_buffers := shader_buffers w;
     top_level_dirty := top_level_dirty w; topLevel := topLevel w;
     background := background w; bg_desc := bg_desc w;
     asset_path := asset_path w;
     use_blender_coordinates := use_blender_coordinates w;
     storage := storage w; bg_worker := v |}.

Definition set_storage (w : world) (v : node_storage) : world :=
  {| meshes := meshes w; spheres := spheres w; instances := instances w;
     cameras := cameras w; shader_buffers := shader_buffers w;
     top_level_dirty := top_level_dirty w; topLevel := topLevel w;
     background := background w; bg_desc := bg_desc w;
     asset_path := asset_path w;
     use_blender_coordinates := use_blender_coordinates w;
     storage := v; bg_worker := bg_worker w |}.

Definition set_paused (w : worker) (v : bool) : worker :=
  {| paused := v; in_pause_loop := in_pause_loop w; totalSamples := totalSamples w |}.
Definition set_in_pause_loop (w : worker) (v : bool) : worker :=
  {| paused := paused w; in_pause_loop := v; totalSamples := totalSamples w |}.
Definition set_totalSamples (w : worker) (v : Z) : worker :=
  {| paused := paused w; in_pause_loop := in_pause_loop w; totalSamples := v |}.

Definition set_tiles (t : tile_set) (v : list render_tile) : tile_set :=
  {| tiles := v; finished := finished t |}.
Definition set_finished (t : tile_set) (v : Z) : tile_set :=
  {| tiles := tiles t; finished := v |}.

Definition set_s (st : state_t) (v : render_state) : state_t :=
  {| s := v; callbacks := callbacks st; workers := workers st;
     result_buf := result_buf st; current_set := current_set st;
     finishedPasses := finishedPasses st; clients := clients st |}.
Definition set_callbacks (st : state_t) (v : list callback) : state_t :=
  {| s := s st; callbacks := v; workers := workers st;
     result_buf := result_buf st; current_set := current_set st;
     finishedPasses := finishedPasses st; clients := clients st |}.
Definition set_workers (st : state_t) (v : list worker) : state_t :=
  {| s := s st; callbacks := callbacks st; workers := v;
     result_buf := result_buf st; current_set := current_set st;
     finishedPasses := finishedPasses st; clients := clients st |}.
Definition set_result_buf (st : state_t) (v : option texture) : state_t :=
  {| s := s st; callbacks := callbacks st; workers := workers st;
     result_buf := v; current_set := current_set st;
     finishedPasses := finishedPasses st; clients := clients st |}.
Definition set_current_set (st : state_t) (v : option tile_set) : state_t :=
  {| s := s st; callbacks := callbacks st; workers := workers st;
     result_buf := result_buf st; current_set := v;
     finishedPasses := finishedPasses st; clients := clients st |}.
Definition set_finishedPasses (st : state_t) (v : Z) : state_t :=
  {| s := s st; callbacks := callbacks st; workers := workers st;
     result_buf := result_buf st; current_set := current_set st;
     finishedPasses := v; clients := clients st |}.
Definition set_clients (st : state_t) (v : list render_client) : state_t :=
  {| s := s st; callbacks := callbacks st; workers := workers st;
     result_buf := result_buf st; current_set := current_set st;
     finishedPasses := finishedPasses st; clients := v |}.

Definition set_prefs (r : renderer) (v : prefs_t) : renderer :=
  {| prefs := v; state := state r; scene := scene r |}.
Definition set_state (r : renderer) (v : state_t) : renderer :=
  {| prefs := prefs r; state := v; scene := scene r |}.
Definition set_scene (r : renderer) (v : world) : renderer :=
  {| prefs := prefs r; state := state r; scene := v |}.


(** ** The collaborators of the API layer

    Functions that [c-ray.c] calls and that live in other translation
    units.  They are parameters of the development; nothing is assumed
    about them. *)

(** common/cr_string.h *)
Variable stringEquals : option string -> option string -> bool.
Variable stringCopy : option string -> option string.

(** The node builder: it may intern nodes in the storage of the scene. *)
Variable build_bsdf_node : world -> option shader_node -> option bsdf_node * node_storage.
Variable newBackground : node_storage -> bool -> option bsdf_node * node_storage.
(** [shader_deepcopy] is defined in [c-ray.c] over the node unions of
    node.h, which is not among the sources; its model over the tags the
    sources use is [shader_deepcopy] of section [Nodes] below.  It reads
    the description it is given, and is undefined on a description it
    reads outside of: the scene operations take it as a parameter that can
    fail, and fail with it. *)
Variable shader_deepcopy : option shader_node -> outcome (option shader_node).

(** accelerators/bvh.h: [None] is the [NULL] of a failed build. *)
Variable build_mesh_bvh : mesh -> option bvh.

(** datatypes/instance.h *)
Variable new_mesh_instance : list mesh -> Z -> instance.
Variable new_sphere_instance : list sphere -> Z -> instance.

(** The math library. *)
Variable mat_mul : matrix4x4 -> matrix4x4 -> matrix4x4.
Variable mat_invert : matrix4x4 -> matrix4x4.
Variable vec_normalize : vector -> vector.

(** Conversions between [double], [float] and [int]. *)
Variable double_to_float : double -> float.
Variable double_to_int : double -> Z.
Variable float_to_double : float -> double.
Variable int_to_double : Z -> double.

(** datatypes/camera.h *)
Variable cam_update_pose : camera -> camera.
Variable cam_recompute_optics : camera -> camera.

(** common/texture.h, renderer/renderer.h, datatypes/scene.h *)
Variable tex_new : precision -> Z -> Z -> Z -> texture.
Variable tex_clear : texture -> texture.
Variable tile_quantize : Z -> Z -> Z -> Z -> render_order -> list render_tile.
Variable update_toplevel_bvh : world -> world.
Variable clients_sync : renderer -> list render_client.
Variable renderer_render : renderer -> renderer.
Variable renderer_start_interactive : renderer -> renderer.

(** common/fileio.h and the JSON loader: the bytes of a file, the
    directory part of a path, and the parse of a scene description (the
    composition of [cJSON_ParseWithLength] and [parse_json]). *)
Variable file_load : string -> list Z.
Variable get_file_path : string -> option string.
Variable parse_json : renderer -> list Z -> Z * renderer.

(** ** Renderer *)

Definition cr_cb_on_interactive_pass_finished : Z := 4.

(** [enum cr_renderer_callback] has no negative enumerator, and gcc and
    clang give such an enum an unsigned type: in [t > ...] a negative [t]
    is a number above every enumerator, and is refused with them. *)
Definition cr_renderer_set_callback (ext : handle) (t : Z)
    (callback_fn : option Z) (user_data : option Z) (r : renderer)
    : outcome (bool * renderer) :=
  match ext with
  | NULL => Ok (false, r)
  | PTR =>
    if (t <? 0) || (t >? cr_cb_on_interactive_pass_finished) then Ok (false, r)
    else
      match item_at (callbacks (state r)) t with
      | None => UB
      | Some _ =>
        let slot := {| fn := callback_fn; user_data := user_data |} in
        Ok (true, set_state r
                    (set_callbacks (state r) (item_set (callbacks (state r)) t slot)))
      end
  end.

Definition cr_renderer_set_num_pref (ext : handle) (p : cr_renderer_param)
    (num : Z) (r : renderer) : outcome (bool * renderer) :=
  match ext with
  | NULL => Ok (false, r)
  | PTR =>
    match p with
    | cr_renderer_threads =>
      Ok (true, set_prefs r (set_threads (prefs r) num))
    | cr_renderer_samples =>
      Ok (true, set_prefs r (set_sampleCount (prefs r) num))
    | cr_renderer_bounces =>
      if num >? 512 then Ok (false, r)
      else Ok (true, set_prefs r (set_bounces (prefs r) num))
    | cr_renderer_tile_width =>
      Ok (true, set_prefs r (set_tileWidth (prefs r) num))
    | cr_renderer_tile_height =>
      Ok (true, set_prefs r (set_tileHeight (prefs r) num))
    | cr_renderer_override_width =>
      Ok (true, set_prefs r (set_override_width (prefs r) num))
    | cr_renderer_override_height =>
      Ok (true, set_prefs r (set_override_height (prefs r) num))
    | cr_renderer_override_cam =>
      if count (cameras (scene r)) =? 0 then Ok (false, r)
      else if num >=? count (cameras (scene r)) then Ok (false, r)
      else Ok (true, set_prefs r (set_selected_camera (prefs r) num))
    | cr_renderer_is_iterative =>
      Ok (true, set_prefs r (set_iterative (prefs r) true))
    | cr_renderer_blender_mode =>
      Ok (true, set_prefs r (set_blender_mode (prefs r) (negb (num =? 0))))
    | _ => Ok (false, r)
    end
  end.

Definition tile_order_of (str : option string) : render_order :=
  if stringEquals str (Some "random"%string) then ro_random
  else if stringEquals str (Some "topToBottom"%string) then ro_top_to_bottom
  else if stringEquals str (Some "fromMiddle"%string) then ro_from_middle
  else if stringEquals str (Some "toMiddle"%string) then ro_to_middle
  else ro_normal.

Definition cr_renderer_set_str_pref (ext : handle) (p : cr_renderer_param)
    (str : option string) (r : renderer) : outcome (bool * renderer) :=
  match ext with
  | NULL => Ok (false, r)
  | PTR =>
    match p with
    | cr_renderer_tile_order =>
      Ok (true, set_prefs r (set_tileOrder (prefs r) (tile_order_of str)))
    | cr_renderer_asset_path =>
      Ok (true, set_scene r (set_asset_path (scene r) (stringCopy str)))
    | cr_renderer_node_list =>
      Ok (true, set_prefs r (set_node_list (prefs r) (stringCopy str)))
    | _ => Ok (false, r)
    end
  end.

(** The loop of [cr_renderer_stop]: one [timer_sleep_ms], then the test
    [r->prefs.iterative && r->state.s == r_exiting].  The run state is
    written by the render thread; [seen] lists what the successive tests
    read from it. *)
Fixpoint stop_wait (seen : list render_state) (r : renderer) : outcome renderer :=
  if iterative (prefs r) then
    match seen with
    | [] => Spin
    | st :: seen' =>
      let r' := set_state r (set_s (state r) st) in
      if decide (st = r_exiting) then stop_wait seen' r' else Ok r'
    end
  else Ok r.

Definition cr_renderer_stop (ext : handle) (seen : list render_state)
    (r : renderer) : outcome renderer :=
  match ext with
  | NULL => Ok r
  | PTR => stop_wait seen (set_state r (set_s (state r) r_exiting))
  end.

(** [for (size_t i = 0; i < n; ++i) ws.items[i] = f(ws.items[i]);] with
    [i] the current index and [n] the iterations left. *)
Fixpoint for_workers (f : worker -> worker) (n : nat) (i : Z)
    (ws : list worker) : outcome (list worker) :=
  match n with
  | O => Ok ws
  | S n' =>
    match item_at ws i with
    | None => UB
    | Some w => for_workers f n' (i + 1) (item_set ws i (f w))
    end
  end.

Definition flip_paused (w : worker) : worker := set_paused w (negb (paused w)).

Definition cr_renderer_toggle_pause (ext : handle) (r : renderer)
    : outcome renderer :=
  match ext with
  | NULL => Ok r
  | PTR =>
    let* ws := for_workers flip_paused (Z.to_nat (threads (prefs r))) 0
                 (workers (state r)) in
    Ok (set_state r (set_workers (state r) ws))
  end.

Definition cr_renderer_get_str_pref (ext : handle) (p : cr_renderer_param)
    (r : renderer) : outcome (option string * renderer) :=
  match ext with
  | NULL => Ok (None, r)
  | PTR =>
    match p with
    | cr_renderer_asset_path => Ok (asset_path (scene r), r)
    | _ => Ok (None, r)
    end
  end.

Definition cr_renderer_get_num_pref (ext : handle) (p : cr_renderer_param)
    (r : renderer) : outcome (Z * renderer) :=
  match ext with
  | NULL => Ok (0, r)
  | PTR =>
    match p with
    | cr_renderer_threads => Ok (threads (prefs r), r)
    | cr_renderer_samples => Ok (sampleCount (prefs r), r)
    | cr_renderer_bounces => Ok (bounces (prefs r), r)
    | cr_renderer_tile_width => Ok (tileWidth (prefs r), r)
    | cr_renderer_tile_height => Ok (tileHeight (prefs r), r)
    | cr_renderer_override_width => Ok (override_width (prefs r), r)
    | cr_renderer_override_height => Ok (override_height (prefs r), r)
    | _ => Ok (0, r)
    end
  end.

(** ** Scene *)

Definition cr_scene_set_background (s_ext : handle) (desc : option shader_node)
    (w : world) : outcome (bool * world) :=
  match s_ext with
  | NULL => Ok (false, w)
  | PTR =>
    let '(bg, st) :=
      match desc with
      | Some _ => build_bsdf_node w desc
      | None => newBackground (storage w) (use_blender_coordinates w)
      end in
    let w1 := set_background (set_storage w st) bg in
    let* copy :=
      match desc with
      | Some _ => shader_deepcopy desc
      | None => Ok None
      end in
    Ok (true, set_bg_desc w1 copy)
  end.

(** The scene handle returned is the address of [r->scene]: non-null. *)
Definition cr_renderer_scene_get (ext : handle) (r : renderer)
    : outcome (handle * renderer) :=
  match ext with
  | NULL => Ok (NULL, r)
  | PTR =>
    if blender_mode (prefs r)
    then Ok (PTR, set_scene r (set_use_blender_coordinates (scene r) true))
    else Ok (PTR, r)
  end.

Record cr_scene_totals : Set := {
  total_meshes : Z;
  total_spheres : Z;
  total_instances : Z;
  total_cameras : Z
}.

Definition cr_get_scene_totals (s_ext : handle) (w : world)
    : outcome (cr_scene_totals * world) :=
  match s_ext with
  | NULL =>
    Ok ({| total_meshes := 0; total_spheres := 0;
           total_instances := 0; total_cameras := 0 |}, w)
  | PTR =>
    Ok ({| total_meshes := count (meshes w);
           total_spheres := count (spheres w);
           total_instances := count (instances w);
           total_cameras := count (cameras w) |}, w)
  end.

Definition cr_scene_add_sphere (s_ext : handle) (rad : float) (w : world)
    : outcome (Z * world) :=
  match s_ext with
  | NULL => Ok (-1, w)
  | PTR =>
    let '(idx, sph) := arr_add (spheres w) {| radius := rad |} in
    Ok (idx, set_spheres w sph)
  end.

(** The task the background pool runs for a finalized mesh.  It works on
    the copy of the mesh in its argument and touches the scene only to
    swap the BVH in. *)
Definition bvh_build_task (bt : bvh_build_task_arg) (w : world) : outcome world :=
  match build_mesh_bvh (bt_mesh bt) with
  | None => Ok w
  | Some b =>
    match item_at (meshes w) (bt_mesh_idx bt) with
    | None => UB
    | Some m =>
      Ok (set_meshes w
            (item_set (meshes w) (bt_mesh_idx bt) (set_mesh_bvh m (Some b))))
    end
  end.

(** The scene a build task points to is the scene of the renderer
    ([cr_renderer_scene_get] hands out [r->scene]): what the task does to
    it, it does to the renderer. *)
Definition background_build (bt : bvh_build_task_arg) (r : renderer)
    : outcome renderer :=
  let* w := bvh_build_task bt (scene r) in
  Ok (set_scene r w).

(** [for (size_t i = 0; i < n; ++i) T_arr_add(&dst, src[i]);] with [i] the
    current index and [n] the iterations left; reading [src] outside the
    array the caller passed is undefined. *)
Fixpoint add_each {T : Type} (src : list T) (n : nat) (i : Z) (dst : list T)
    : outcome (list T) :=
  match n with
  | O => Ok dst
  | S n' =>
    match item_at src i with
    | None => UB
    | Some v => add_each src n' (i + 1) (snd (arr_add dst v))
    end
  end.

(** [if (p && n) for (...) T_arr_add(&new.field, p[i]);] into an empty
    array. *)
Definition fill_from {T : Type} (p : option (list T)) (n : Z) : outcome (list T) :=
  match p with
  | Some src => if n =? 0 then Ok [] else add_each src (Z.to_nat n) 0 []
  | None => Ok []
  end.

Definition cr_mesh_bind_vertex_buf (s_ext : handle) (mesh_i : Z)
    (buf : cr_vertex_buf_param) (w : world) : outcome world :=
  match s_ext with
  | NULL => Ok w
  | PTR =>
    if past_last mesh_i (meshes w) then Ok w
    else
      match item_at (meshes w) mesh_i with
      | None => UB
      | Some m =>
        let* vs := fill_from (vertices_p buf) (vertex_count buf) in
        let* ns := fill_from (normals_p buf) (normal_count buf) in
        let* ts := fill_from (tex_coords_p buf) (tex_coord_count buf) in
        let new := {| vertices := vs; normals := ns; texture_coords := ts |} in
        Ok (set_meshes w (item_set (meshes w) mesh_i (set_vbuf m new)))
      end
  end.

Definition cr_mesh_bind_faces (s_ext : handle) (mesh_i : Z)
    (faces : option (list cr_face)) (face_count : Z) (w : world)
    : outcome world :=
  match s_ext, faces with
  | NULL, _ => Ok w
  | PTR, None => Ok w
  | PTR, Some fs =>
    if past_last mesh_i (meshes w) then Ok w
    else
      match item_at (meshes w) mesh_i with
      | None => UB
      | Some m =>
        let* ps := add_each fs (Z.to_nat face_count) 0 (polygons m) in
        Ok (set_meshes w (item_set (meshes w) mesh_i (set_polygons m ps)))
      end
  end.

Definition cr_mesh_finalize (s_ext : handle) (mesh_i : Z) (w : world)
    : outcome world :=
  match s_ext with
  | NULL => Ok w
  | PTR =>
    if past_last mesh_i (meshes w) then Ok w
    else
      match item_at (meshes w) mesh_i with
      | None => UB
      | Some m =>
        let arg := {| bt_mesh := m; bt_mesh_idx := to_size_t mesh_i |} in
        Ok (set_bg_worker w (bg_worker w ++ [arg]))
      end
  end.

Definition empty_vertex_buffer : vertex_buffer :=
  {| vertices := []; normals := []; texture_coords := [] |}.

Definition cr_scene_mesh_new (s_ext : handle) (nm : option string) (w : world)
    : outcome (Z * world) :=
  match s_ext with
  | NULL => Ok (-1, w)
  | PTR =>
    let new := {| name := match nm with Some _ => stringCopy nm | None => None end;
                  vbuf := empty_vertex_buffer; polygons := [];
                  mesh_bvh := None |} in
    let '(idx, ms) := arr_add (meshes w) new in
    Ok (idx, set_meshes w ms)
  end.

Fixpoint find_mesh (ms : list mesh) (i : Z) (nm : option string) : Z :=
  match ms with
  | [] => -1
  | m :: ms' => if stringEquals (name m) nm then i else find_mesh ms' (i + 1) nm
  end.

Definition cr_scene_get_mesh (s_ext : handle) (nm : option string) (w : world)
    : outcome (Z * world) :=
  match s_ext, nm with
  | NULL, _ => Ok (-1, w)
  | PTR, None => Ok (-1, w)
  | PTR, Some _ => Ok (find_mesh (meshes w) 0 nm, w)
  end.

(** ** Instances *)

Definition cr_instance_new (s_ext : handle) (object : Z) (type : Z) (w : world)
    : outcome (Z * world) :=
  match s_ext with
  | NULL => Ok (-1, w)
  | PTR =>
    match cr_object_type_of_Z type with
    | None => Ok (-1, w)
    | Some kind =>
      let new :=
        match kind with
        | cr_object_mesh => new_mesh_instance (meshes w) object
        | cr_object_sphere => new_sphere_instance (spheres w) object
        end in
      let w1 := set_top_level_dirty w true in
      let '(idx, insts) := arr_add (instances w1) new in
      Ok (idx, set_instances w1 insts)
    end
  end.

Definition mtx_convert (row_major : float4x4) : matrix4x4 :=
  {| r0 := {| c0 := c0 (r0 row_major); c1 := c1 (r0 row_major);
              c2 := c2 (r0 row_major); c3 := c3 (r0 row_major) |};
     r1 := {| c0 := c0 (r1 row_major); c1 := c1 (r1 row_major);
              c2 := c2 (r1 row_major); c3 := c3 (r1 row_major) |};
     r2 := {| c0 := c0 (r2 row_major); c1 := c1 (r2 row_major);
              c2 := c2 (r2 row_major); c3 := c3 (r2 row_major) |};
     r3 := {| c0 := c0 (r3 row_major); c1 := c1 (r3 row_major);
              c2 := c2 (r3 row_major); c3 := c3 (r3 row_major) |} |}.

(** [memcmp(&i->composite, &mtx, sizeof(mtx)) == 0]: the first
    [sizeof(mtx)] bytes of the composite are its forward matrix [A]. *)
Definition same_forward (i : instance) (mtx : matrix4x4) : bool :=
  bool_decide (A (composite i) = mtx).

Definition cr_instance_set_transform (s_ext : handle) (instance_i : Z)
    (row_major : float4x4) (w : world) : outcome world :=
  match s_ext with
  | NULL => Ok w
  | PTR =>
    if past_last instance_i (instances w) then Ok w
    else
      match item_at (instances w) instance_i with
      | None => UB
      | Some i =>
        let mtx := mtx_convert row_major in
        if same_forward i mtx then Ok w
        else
          let i' := set_composite i {| A := mtx; Ainv := mat_invert mtx |} in
          let w1 := set_instances w (item_set (instances w) instance_i i') in
          Ok (set_top_level_dirty w1 true)
      end
  end.

Definition cr_instance_transform (s_ext : handle) (instance_i : Z)
    (row_major : float4x4) (w : world) : outcome world :=
  match s_ext with
  | NULL => Ok w
  | PTR =>
    if past_last instance_i (instances w) then Ok w
    else
      match item_at (instances w) instance_i with
      | None => UB
      | Some i =>
        let mtx := mtx_convert row_major in
        let a := mat_mul (A (composite i)) mtx in
        let i' := set_composite i {| A := a; Ainv := mat_invert a |} in
        let w1 := set_instances w (item_set (instances w) instance_i i') in
        Ok (set_top_level_dirty w1 true)
      end
  end.

Definition cr_instance_bind_material_set (s_ext : handle) (instance_i : Z)
    (set : Z) (w : world) : outcome (bool * world) :=
  match s_ext with
  | NULL => Ok (false, w)
  | PTR =>
    if past_last instance_i (instances w) then Ok (false, w)
    else if past_last set (shader_buffers w) then Ok (false, w)
    else
      match item_at (instances w) instance_i with
      | None => UB
      | Some i =>
        Ok (true, set_instances w
                    (item_set (instances w) instance_i (set_bbuf_idx i set)))
      end
  end.

(** [ASSERT(r); renderer_destroy(r);]: after the call the renderer is
    gone, so no state is returned. *)
Definition cr_destroy_renderer (ext : handle) (r : renderer) : outcome unit :=
  match ext with
  | NULL => Abort
  | PTR => Ok tt
  end.

(** ** Camera *)

(** Bit patterns of the [float] and [double] literals of the source. *)
Definition f_0 : float := 0.
Definition f_1 : float := 0x3F800000.
Definition f_minus_1 : float := 0xBF800000.
Definition f_80 : float := 0x42A00000.
Definition d_0 : double := 0.
Definition d_1 : double := 0x3FF0000000000000.

Definition vec (a b c : float) : vector := {| vx := a; vy := b; vz := c |}.

Definition default_camera : camera :=
  {| FOV := f_80; focus_distance := f_0; fstops := f_0;
     cam_width := 800; cam_height := 600;
     look_at := vec f_0 f_0 f_1; forward := vec f_0 f_0 f_1;
     right := vec f_1 f_0 f_0; up := vec f_0 f_1 f_0;
     is_blender := false;
     position := vec f_0 f_0 f_0;
     orientation := {| roll := f_0; pitch := f_0; yaw := f_0 |};
     time := f_0 |}.

Definition cr_camera_new (ext : handle) (w : world) : outcome (Z * world) :=
  match ext with
  | NULL => Ok (-1, w)
  | PTR =>
    let '(idx, cs) := arr_add (cameras w) default_camera in
    Ok (idx, set_cameras w cs)
  end.

(** The assignment a [case] of [cr_camera_set_num_pref] makes. *)
Definition camera_assign (cam : camera) (p : cr_camera_param) (num : double)
    : camera :=
  match p with
  | cr_camera_fov => set_FOV cam (double_to_float num)
  | cr_camera_focus_distance => set_focus_distance cam (double_to_float num)
  | cr_camera_fstops => set_fstops cam (double_to_float num)
  | cr_camera_pose_x =>
    set_position cam (set_vx (position cam) (double_to_float num))
  | cr_camera_pose_y =>
    set_position cam (set_vy (position cam) (double_to_float num))
  | cr_camera_pose_z =>
    set_position cam (set_vz (position cam) (double_to_float num))
  | cr_camera_pose_roll =>
    set_orientation cam (set_roll (orientation cam) (double_to_float num))
  | cr_camera_pose_pitch =>
    set_orientation cam (set_pitch (orientation cam) (double_to_float num))
  | cr_camera_pose_yaw =>
    set_orientation cam (set_yaw (orientation cam) (double_to_float num))
  | cr_camera_time => set_time cam (double_to_float num)
  | cr_camera_res_x => set_cam_width cam (double_to_int num)
  | cr_camera_res_y => set_cam_height cam (double_to_int num)
  | cr_camera_blender_coord =>
    let c1 := set_look_at cam (vec f_0 f_0 f_minus_1) in
    let c2 := set_forward c1 (vec_normalize (look_at c1)) in
    let c3 := set_right c2 (vec f_1 f_0 f_0) in
    let c4 := set_up c3 (vec f_0 f_minus_1 f_0) in
    set_is_blender c4 true
  end.

Definition cr_camera_set_num_pref (ext : handle) (c : Z) (p : Z) (num : double)
    (w : world) : outcome (bool * world) :=
  if c <? 0 then Ok (false, w)
  else
    match ext with
    | NULL => Ok (false, w)
    | PTR =>
      if past_last c (cameras w) then Ok (false, w)
      else
        match item_at (cameras w) c with
        | None => UB
        | Some cam =>
          match cr_camera_param_of_Z p with
          | Some param =>
            Ok (true, set_cameras w
                        (item_set (cameras w) c (camera_assign cam param num)))
          | None =>
            Ok (false, set_cameras w
                         (item_set (cameras w) c (cam_update_pose cam)))
          end
        end
    end.

Definition camera_read (cam : camera) (p : cr_camera_param) : double :=
  match p with
  | cr_camera_fov => float_to_double (FOV cam)
  | cr_camera_focus_distance => float_to_double (focus_distance cam)
  | cr_camera_fstops => float_to_double (fstops cam)
  | cr_camera_pose_x => float_to_double (vx (position cam))
  | cr_camera_pose_y => float_to_double (vy (position cam))
  | cr_camera_pose_z => float_to_double (vz (position cam))
  | cr_camera_pose_roll => float_to_double (roll (orientation cam))
  | cr_camera_pose_pitch => float_to_double (pitch (orientation cam))
  | cr_camera_pose_yaw => float_to_double (yaw (orientation cam))
  | cr_camera_time => float_to_double (time cam)
  | cr_camera_res_x => int_to_double (cam_width cam)
  | cr_camera_res_y => int_to_double (cam_height cam)
  | cr_camera_blender_coord => if is_blender cam then d_1 else d_0
  end.

Definition cr_camera_get_num_pref (ext : handle) (c : Z) (p : Z) (w : world)
    : outcome (double * world) :=
  if c <? 0 then Ok (d_0, w)
  else
    match ext with
    | NULL => Ok (d_0, w)
    | PTR =>
      if past_last c (cameras w) then Ok (d_0, w)
      else
        match item_at (cameras w) c with
        | None => UB
        | Some cam =>
          match cr_camera_param_of_Z p with
          | Some param => Ok (camera_read cam param, w)
          | None => Ok (d_0, w)
          end
        end
    end.

Definition cr_camera_update (ext : handle) (c : Z) (w : world)
    : outcome (bool * world) :=
  if c <? 0 then Ok (false, w)
  else
    match ext with
    | NULL => Ok (false, w)
    | PTR =>
      if past_last c (cameras w) then Ok (false, w)
      else
        match item_at (cameras w) c with
        | None => UB
        | Some cam =>
          let cam' := cam_recompute_optics (cam_update_pose cam) in
          Ok (true, set_cameras w (item_set (cameras w) c cam'))
        end
    end.

Definition cr_camera_remove (ext : handle) (c : Z) (w : world)
    : outcome (bool * world) :=
  Ok (false, w).

(** ** Materials *)

Definition set_descriptions (b : bsdf_buffer) (v : list (option shader_node))
    : bsdf_buffer :=
  {| descriptions := v; bsdfs := bsdfs b |}.
Definition set_bsdfs (b : bsdf_buffer) (v : list (option bsdf_node))
    : bsdf_buffer :=
  {| descriptions := descriptions b; bsdfs := v |}.

Definition cr_scene_new_material_set (s_ext : handle) (w : world)
    : outcome (Z * world) :=
  match s_ext with
  | NULL => Ok (-1, w)
  | PTR =>
    let '(idx, bs) :=
      arr_add (shader_buffers w) {| descriptions := []; bsdfs := [] |} in
    Ok (idx, set_shader_buffers w bs)
  end.

Definition cr_material_set_add (s_ext : handle) (set : Z)
    (desc : option shader_node) (w : world) : outcome (Z * world) :=
  match s_ext with
  | NULL => Ok (-1, w)
  | PTR =>
    if past_last set (shader_buffers w) then Ok (-1, w)
    else
      match item_at (shader_buffers w) set with
      | None => UB
      | Some buf =>
        let '(node, st) := build_bsdf_node w desc in
        let* copy := shader_deepcopy desc in
        let buf1 :=
          set_descriptions buf
            (snd (arr_add (descriptions buf) copy)) in
        let '(idx, nodes) := arr_add (bsdfs buf1) node in
        let buf2 := set_bsdfs buf1 nodes in
        Ok (idx, set_shader_buffers (set_storage w st)
                   (item_set (shader_buffers w) set buf2))
      end
  end.

Definition cr_material_update (s_ext : handle) (set : Z) (mat : Z)
    (desc : option shader_node) (w : world) : outcome world :=
  match s_ext with
  | NULL => Ok w
  | PTR =>
    if past_last set (shader_buffers w) then Ok w
    else
      match item_at (shader_buffers w) set with
      | None => UB
      | Some buf =>
        if past_last mat (descriptions buf) then Ok w
        else
          let '(node, st) := build_bsdf_node w desc in
          match item_at (bsdfs buf) mat, item_at (descriptions buf) mat with
          | Some _, Some _ =>
            let buf1 := set_bsdfs buf (item_set (bsdfs buf) mat node) in
            let* copy := shader_deepcopy desc in
            let buf2 :=
              set_descriptions buf1
                (item_set (descriptions buf1) mat copy) in
            Ok (set_shader_buffers (set_storage w st)
                  (item_set (shader_buffers w) set buf2))
          | _, _ => UB
          end
      end
  end.

(** ** Rendering *)

(** [thread_pool_wait] blocks the caller until the pool's thread has run
    what was queued; it writes nothing itself, and the builds it waits for
    are [bvh_build_task]s of the pool's thread. *)

Definition cr_renderer_render (ext : handle) (r : renderer) : outcome renderer :=
  match ext with
  | NULL => Ok r
  | PTR =>
    let r1 :=
      match node_list (prefs r) with
      | Some _ => set_state r (set_clients (state r) (clients_sync r))
      | None => r
      end in
    if (count (clients (state r1)) =? 0) && (threads (prefs r1) =? 0)
    then Ok r1
    else Ok (renderer_render r1)
  end.

Definition cr_renderer_start_interactive (ext : handle) (r : renderer)
    : outcome renderer :=
  match ext with
  | NULL => Ok r
  | PTR =>
    let r1 := set_prefs r (set_iterative (prefs r) true) in
    if threads (prefs r1) =? 0 then Ok r1
    else Ok (renderer_start_interactive r1)
  end.

Definition cr_renderer_get_result (ext : handle) (r : renderer)
    : outcome (option texture * renderer) :=
  match ext with
  | NULL => Ok (None, r)
  | PTR => Ok (result_buf (state r), r)
  end.

Definition cr_load_json (r_ext : handle) (file_path : option string)
    (r : renderer) : outcome (bool * renderer) :=
  match r_ext, file_path with
  | NULL, _ => Ok (false, r)
  | PTR, None => Ok (false, r)
  | PTR, Some path =>
    let input_bytes := file_load path in
    if count input_bytes =? 0 then Ok (false, r)
    else
      let* set :=
        cr_renderer_set_str_pref r_ext cr_renderer_asset_path
          (get_file_path path) r in
      let '(ret, r2) := parse_json (snd set) input_bytes in
      if ret <? 0 then Ok (false, r2) else Ok (true, r2)
  end.

(** [dump_renderer_state] only prints. *)
Definition cr_debug_dump_state (r_ext : handle) (r : renderer)
    : outcome renderer :=
  match r_ext with
  | NULL => Ok r
  | PTR => Ok r
  end.

(** ** Interactive restart

    [cr_renderer_restart_interactive] runs on the controlling thread while
    the render threads run.  What it does to the memory it shares with
    them is recorded as a trace of events, in program order.  What it
    reads from the two cells the other threads write, the
    [in_pause_loop] flag of a worker and the run state, is supplied from
    outside: one [observation] for each test of the inner [while]. *)

Inductive event : Set :=
| ev_cam_recompute_optics
| ev_log_resize
| ev_toggle_pause
| ev_read_in_pause_loop (i : Z) (v : bool)
| ev_sleep
| ev_read_state (st : render_state)
| ev_tex_destroy
| ev_tex_new (w h : Z)
| ev_tile_quantize
| ev_mutex_lock
| ev_tiles_free
| ev_tiles_install
| ev_reset_finished
| ev_mutex_release
| ev_set_finishedPasses
| ev_tex_clear
| ev_reset_samples
| ev_update_toplevel_bvh
| ev_thread_pool_wait.

(** One test of [while (!r->state.workers.items[i].in_pause_loop)]: the
    flag as read by the test and, for the case the body runs, the run state
    as read after the sleep. *)
Record observation : Set := {
  seen_in_pause_loop : bool;
  seen_state : render_state
}.

Definition run (T : Type) : Type := (outcome T * list event)%type.

Definition rbind {T U : Type} (m : run T) (k : T -> run U) : run U :=
  match m with
  | (Ok a, t) => let '(o, t') := k a in (o, t ++ t')
  | (UB, t) => (UB, t)
  | (Abort, t) => (Abort, t)
  | (Spin, t) => (Spin, t)
  end.

Notation "'run*' x ':=' m 'in' k" := (rbind m (fun x => k))
  (at level 10, x pattern, m at level 100, k at level 200).

Definition say (e : event) : run unit := (Ok tt, [e]).
Definition quietly {T : Type} (o : outcome T) : run T := (o, []).

(** The two loops that wait for the workers:
    [for (i = 0; i < workers.count; ++i) while (!workers.items[i].in_pause_loop) { ... }];
    [i] is the worker waited for.  The result is [true] when the [for] loop
    ran to its end and [false] when the body bailed out because the
    renderer stopped. *)
Fixpoint await_pause (obs : list observation) (i : Z) (r : renderer)
    : run (bool * renderer) :=
  if i <? count (workers (state r)) then
    match obs with
    | [] => (Spin, [])
    | o :: obs' =>
      match item_at (workers (state r)) i with
      | None => (UB, [])
      | Some wk =>
        let wk' := set_in_pause_loop wk (seen_in_pause_loop o) in
        let r1 := set_state r
                    (set_workers (state r) (item_set (workers (state r)) i wk')) in
        run* _ := say (ev_read_in_pause_loop i (seen_in_pause_loop o)) in
        if seen_in_pause_loop o then await_pause obs' (i + 1) r1
        else
          run* _ := say ev_sleep in
          let r2 := set_state r1 (set_s (state r1) (seen_state o)) in
          run* _ := say (ev_read_state (seen_state o)) in
          if decide (seen_state o = r_rendering) then await_pause obs' i r2
          else (Ok (false, r2), [])
      end
    end
  else (Ok (true, r), []).

Definition toggle_pause_in_restart (r : renderer) : run renderer :=
  run* _ := say ev_toggle_pause in
  quietly (cr_renderer_toggle_pause PTR r).

(** [r->state.result_buf->width != (size_t)cam->width || ...height...] *)
Definition resolution_differs (buf : texture) (cam : camera) : bool :=
  negb (tex_width buf =? to_size_t (cam_width cam))
  || negb (tex_height buf =? to_size_t (cam_height cam)).

(** The body of the [if]: [false] in the result stands for the [return]
    of the bail-out. *)
Definition resize_result_buf (obs : list observation) (r : renderer)
    (cam : camera) : run (bool * renderer) :=
  let cam1 := cam_recompute_optics cam in
  let r1 := set_scene r
              (set_cameras (scene r)
                 (item_set (cameras (scene r)) (selected_camera (prefs r)) cam1)) in
  run* _ := say ev_cam_recompute_optics in
  run* _ := say ev_log_resize in
  run* r2 := toggle_pause_in_restart r1 in
  run* waited := await_pause obs 0 r2 in
  let r3 := snd waited in
  if fst waited then
    run* _ := say ev_tex_destroy in
    let r4 := set_state r3
                (set_result_buf (state r3)
                   (Some (tex_new float_p (cam_width cam1) (cam_height cam1) 4))) in
    run* _ := say (ev_tex_new (cam_width cam1) (cam_height cam1)) in
    let new := tile_quantize (cam_width cam1) (cam_height cam1)
                 (tileWidth (prefs r4)) (tileHeight (prefs r4))
                 (tileOrder (prefs r4)) in
    run* _ := say ev_tile_quantize in
    run* _ := say ev_mutex_lock in
    match current_set (state r4) with
    | None => (UB, [])
    | Some set =>
      run* _ := say ev_tiles_free in
      let set1 := set_tiles set new in
      run* _ := say ev_tiles_install in
      let set2 := set_finished set1 0 in
      let r5 := set_state r4 (set_current_set (state r4) (Some set2)) in
      run* _ := say ev_reset_finished in
      run* _ := say ev_mutex_release in
      run* r6 := toggle_pause_in_restart r5 in
      (Ok (true, r6), [])
    end
  else
    run* r4 := toggle_pause_in_restart r3 in
    (Ok (false, r4), []).

Definition reset_samples (w : worker) : worker := set_totalSamples w 0.

(** The statements after the [if]. *)
Definition restart_pass (r : renderer) : run renderer :=
  let r1 := set_state r (set_finishedPasses (state r) 1) in
  run* _ := say ev_set_finishedPasses in
  match current_set (state r1), result_buf (state r1) with
  | Some set, Some buf =>
    run* _ := say ev_mutex_lock in
    let r2 := set_state r1 (set_result_buf (state r1) (Some (tex_clear buf))) in
    run* _ := say ev_tex_clear in
    let r3 := set_state r2
                (set_current_set (state r2) (Some (set_finished set 0))) in
    run* _ := say ev_reset_finished in
    run* ws := quietly (for_workers reset_samples
                          (Z.to_nat (threads (prefs r3))) 0
                          (workers (state r3))) in
    let r4 := set_state r3 (set_workers (state r3) ws) in
    run* _ := say ev_reset_samples in
    let r5 := set_scene r4 (update_toplevel_bvh (scene r4)) in
    run* _ := say ev_update_toplevel_bvh in
    run* _ := say ev_thread_pool_wait in
    run* _ := say ev_mutex_release in
    (Ok r5, [])
  | _, _ => (UB, [])
  end.

Definition cr_renderer_restart_interactive (ext : handle)
    (obs : list observation) (r : renderer) : run renderer :=
  match ext with
  | NULL => (Ok r, [])
  | PTR =>
    if negb (iterative (prefs r)) then (Ok r, [])
    else if count (workers (state r)) =? 0 then (Ok r, [])
    else
      match result_buf (state r), current_set (state r) with
      | None, _ => (Ok r, [])
      | Some _, None => (Ok r, [])
      | Some buf, Some _ =>
        match item_at (cameras (scene r)) (selected_camera (prefs r)) with
        | None => (UB, [])
        | Some cam =>
          if resolution_differs buf cam then
            run* resized := resize_result_buf obs r cam in
            if fst resized then restart_pass (snd resized)
            else (Ok (snd resized), [])
          else restart_pass r
        end
      end
  end.

(** * Properties *)

(** ** The index guard *)

Ltac unfold_limits :=
  unfold is_int64, is_uint64, INT64_MAX, INT64_MIN, SIZE_MAX, SIZE_WIDTH in *;
  change (2 ^ 64) with 18446744073709551616 in *;
  change (2 ^ 63) with 9223372036854775808 in *.

Lemma to_size_t_small (x : Z) : 0 <= x <= SIZE_MAX -> to_size_t x = x.
Proof.
  unfold to_size_t. unfold_limits. intros H.
  apply Z.mod_small. lia.
Qed.

Lemma to_size_t_range (x : Z) : 0 <= to_size_t x <= SIZE_MAX.
Proof.
  unfold to_size_t. unfold_limits.
  pose proof (Z.mod_pos_bound x 18446744073709551616). lia.
Qed.

Lemma to_size_t_negative (x : Z) :
  INT64_MIN <= x < 0 -> to_size_t x = x + 2 ^ 64.
Proof.
  unfold to_size_t. unfold_limits. intros H.
  symmetry. apply (Z.mod_unique_pos x _ (-1)); lia.
Qed.

(** On an empty array [count - 1] wraps to [SIZE_MAX] and the guard lets
    every index through. *)
Lemma past_last_empty {T : Type} (idx : Z) : past_last idx (@nil T) = false.
Proof.
  unfold past_last, count. simpl length.
  pose proof (to_size_t_range idx) as Hi.
  assert (to_size_t (Z.of_nat 0 - 1) = SIZE_MAX) as -> by reflexivity.
  rewrite Z.gtb_ltb. apply Z.ltb_ge. lia.
Qed.

Lemma item_at_Some {T : Type} (items : list T) (idx : Z) (x : T) :
  item_at items idx = Some x -> 0 <= idx < count items.
Proof.
  unfold item_at, count. destruct (Z.ltb_spec idx 0); [discriminate |].
  intros Hl. apply lookup_lt_Some in Hl. lia.
Qed.

Lemma item_at_None {T : Type} (items : list T) (idx : Z) :
  item_at items idx = None -> idx < 0 \/ count items <= idx.
Proof.
  unfold item_at, count. destruct (Z.ltb_spec idx 0); [lia |].
  intros Hl. apply lookup_ge_None in Hl. lia.
Qed.

(** An index inside the array passes the guard. *)
Lemma past_last_inside {T : Type} (items : list T) (idx : Z) (x : T) :
  count items <= SIZE_MAX ->
  item_at items idx = Some x -> past_last idx items = false.
Proof.
  intros Hc Hx. apply item_at_Some in Hx.
  unfold past_last. rewrite !to_size_t_small by lia.
  rewrite Z.gtb_ltb. apply Z.ltb_ge. lia.
Qed.

(** On an array that is not empty the guard stops every index outside it. *)
Lemma past_last_outside {T : Type} (items : list T) (idx : Z) :
  0 < count items <= INT64_MAX -> is_int64 idx ->
  item_at items idx = None -> past_last idx items = true.
Proof.
  intros Hc Hi Hx.
  apply item_at_None in Hx. unfold past_last.
  rewrite (to_size_t_small (count items - 1)) by (unfold_limits; lia).
  rewrite Z.gtb_ltb. apply Z.ltb_lt.
  destruct Hx as [Hneg | Hbig].
  - rewrite to_size_t_negative by (unfold_limits; lia). unfold_limits. lia.
  - rewrite to_size_t_small by (unfold_limits; lia). lia.
Qed.

Lemma item_at_nat {T : Type} (items : list T) (k : nat) :
  item_at items (Z.of_nat k) = items !! k.
Proof.
  unfold item_at. destruct (Z.ltb_spec (Z.of_nat k) 0); [lia |].
  by rewrite Nat2Z.id.
Qed.

Lemma item_set_nat {T : Type} (items : list T) (k : nat) (v : T) :
  item_set items (Z.of_nat k) v = <[k := v]> items.
Proof. unfold item_set. by rewrite Nat2Z.id. Qed.

(** ** Loops over the workers *)

(** The closed form of [for_workers]: [f] on the first [n] workers. *)
Definition on_first (f : worker -> worker) (n : nat) (ws : list worker)
    : list worker :=
  (f <$> take n ws) ++ drop n ws.

Lemma for_workers_from (f : worker -> worker) (n k : nat) (ws : list worker) :
  (k + n <= length ws)%nat ->
  for_workers f n (Z.of_nat k) ws
  = Ok (take k ws ++ (f <$> take n (drop k ws)) ++ drop (k + n) ws).
Proof.
  revert k ws. induction n as [| n IH]; intros k ws Hlen; simpl.
  - rewrite Nat.add_0_r. by rewrite take_drop.
  - rewrite item_at_nat.
    destruct (ws !! k) as [w |] eqn:Hw;
      [| apply lookup_ge_None in Hw; lia].
    rewrite item_set_nat.
    replace (Z.of_nat k + 1) with (Z.of_nat (S k)) by lia.
    rewrite IH by (rewrite length_insert; lia).
    f_equal.
    rewrite (drop_S ws w k Hw). simpl.
    rewrite (take_S_r _ k (f w))
      by (apply list_lookup_insert_eq; apply lookup_lt_Some in Hw; lia).
    rewrite take_insert_ge by lia.
    rewrite !drop_insert_lt by lia.
    rewrite <- app_assoc. simpl.
    by replace (S (k + n))%nat with (k + S n)%nat by lia.
Qed.

Lemma for_workers_ok (f : worker -> worker) (n : nat) (ws : list worker) :
  (n <= length ws)%nat -> for_workers f n 0 ws = Ok (on_first f n ws).
Proof.
  intros Hlen. change 0 with (Z.of_nat 0).
  rewrite for_workers_from by lia. reflexivity.
Qed.

Lemma for_workers_short (f : worker -> worker) (n k : nat) (ws : list worker) :
  (length ws < k + n)%nat -> (0 < n)%nat ->
  for_workers f n (Z.of_nat k) ws = UB.
Proof.
  revert k ws. induction n as [| n IH]; intros k ws Hlen Hn; [lia |].
  simpl. rewrite item_at_nat.
  destruct (ws !! k) as [w |] eqn:Hw; [| reflexivity].
  apply lookup_lt_Some in Hw.
  rewrite item_set_nat.
  replace (Z.of_nat k + 1) with (Z.of_nat (S k)) by lia.
  apply IH; [rewrite length_insert |]; lia.
Qed.

Lemma on_first_length (f : worker -> worker) (n : nat) (ws : list worker) :
  length (on_first f n ws) = length ws.
Proof.
  unfold on_first. rewrite length_app, length_fmap, length_take, length_drop. lia.
Qed.

Lemma on_first_lookup (f : worker -> worker) (n : nat) (ws : list worker) (i : nat) :
  on_first f n ws !! i
  = if decide (i < n)%nat then f <$> ws !! i else ws !! i.
Proof.
  unfold on_first. destruct (decide (i < n)%nat) as [Hlt | Hge].
  - destruct (decide (i < length ws)%nat) as [Hin | Hout].
    + rewrite lookup_app_l by (rewrite length_fmap, length_take; lia).
      by rewrite list_lookup_fmap, lookup_take_lt.
    + rewrite (lookup_ge_None_2 ws i) by lia. simpl.
      apply lookup_ge_None_2.
      rewrite length_app, length_fmap, length_take, length_drop. lia.
  - destruct (decide (n <= length ws)%nat) as [Hn | Hn].
    + rewrite lookup_app_r by (rewrite length_fmap, length_take; lia).
      rewrite length_fmap, length_take, lookup_drop. f_equal. lia.
    + rewrite take_ge, drop_ge by lia. rewrite app_nil_r.
      rewrite (lookup_ge_None_2 ws i) by lia.
      apply lookup_ge_None_2. rewrite length_fmap. lia.
Qed.

Lemma on_first_twice (f : worker -> worker) (n : nat) (ws : list worker) :
  (forall w, f (f w) = w) -> on_first f n (on_first f n ws) = ws.
Proof.
  intros Hf. apply list_eq. intros i.
  rewrite !on_first_lookup. destruct (decide (i < n)%nat); [| done].
  destruct (ws !! i) as [w |]; simpl; [by rewrite Hf | done].
Qed.

Lemma flip_paused_twice (w : worker) : flip_paused (flip_paused w) = w.
Proof. destruct w as [p a t]. unfold flip_paused. simpl. by rewrite negb_involutive. Qed.

(** ** Preferences *)

(** C8: setting the bounce preference to a value above 512 (513, say)
    returns [false] and leaves the renderer, the bounce preference
    included, as it was; a value up to 512 is accepted, stored, and read
    back by [cr_renderer_get_num_pref]. *)
Theorem bounces_hard_cap (r : renderer) (num : Z) :
  (512 < num ->
     cr_renderer_set_num_pref PTR cr_renderer_bounces num r = Ok (false, r))
  /\ (num <= 512 ->
        exists r',
          cr_renderer_set_num_pref PTR cr_renderer_bounces num r = Ok (true, r')
          /\ bounces (prefs r') = num
          /\ cr_renderer_get_num_pref PTR cr_renderer_bounces r' = Ok (num, r')).
Proof.
  split; intros Hnum; simpl.
  - destruct (Z.gtb_spec num 512) as [_ | Hle]; [reflexivity | lia].
  - destruct (Z.gtb_spec num 512) as [Hgt | _]; [lia |].
    eexists. split; [reflexivity |]. split; reflexivity.
Qed.

Example bounces_513_rejected (r : renderer) :
  cr_renderer_set_num_pref PTR cr_renderer_bounces 513 r = Ok (false, r).
Proof. reflexivity. Qed.

(** ** Pause *)

Lemma toggle_pause_ok (r : renderer) :
  threads (prefs r) <= count (workers (state r)) ->
  cr_renderer_toggle_pause PTR r
  = Ok (set_state r
          (set_workers (state r)
             (on_first flip_paused (Z.to_nat (threads (prefs r)))
                (workers (state r))))).
Proof.
  intros Hle. unfold cr_renderer_toggle_pause, count in *.
  rewrite for_workers_ok by lia. reflexivity.
Qed.

(** Without a worker for every local thread the loop leaves the array. *)
Lemma toggle_pause_too_few_workers (r : renderer) :
  count (workers (state r)) < threads (prefs r) ->
  cr_renderer_toggle_pause PTR r = UB.
Proof.
  intros Hlt. unfold cr_renderer_toggle_pause, count in *.
  change 0 with (Z.of_nat 0).
  rewrite for_workers_short by lia. reflexivity.
Qed.

(** C9, as the code has it: on a renderer that has a worker for each of
    its local threads, two calls of [cr_renderer_toggle_pause] in a row
    give the renderer back as it was, every worker's [paused] and
    [in_pause_loop] flag included.  One call changes nothing but the
    [paused] flag of the workers of the local threads (those below
    [prefs.threads]); the workers after them, the network workers, keep
    all their fields. *)
Theorem toggle_pause_twice (r : renderer) :
  threads (prefs r) <= count (workers (state r)) ->
  exists r1,
    cr_renderer_toggle_pause PTR r = Ok r1
    /\ cr_renderer_toggle_pause PTR r1 = Ok r
    /\ prefs r1 = prefs r
    /\ scene r1 = scene r
    /\ state r1 = set_workers (state r) (workers (state r1))
    /\ length (workers (state r1)) = length (workers (state r))
    /\ forall (i : nat) (w : worker),
         workers (state r) !! i = Some w ->
         exists w1,
           workers (state r1) !! i = Some w1
           /\ in_pause_loop w1 = in_pause_loop w
           /\ totalSamples w1 = totalSamples w
           /\ paused w1 = if decide (Z.of_nat i < threads (prefs r))
                          then negb (paused w) else paused w.
Proof.
  intros Hle. eexists. split; [apply toggle_pause_ok, Hle |].
  split; [| split; [reflexivity | split; [reflexivity | split; [reflexivity |]]]].
  - rewrite toggle_pause_ok
      by (simpl; unfold count in *; rewrite on_first_length; exact Hle).
    simpl. rewrite on_first_twice by apply flip_paused_twice.
    destruct r as [p [] w]; reflexivity.
  - simpl. split; [apply on_first_length |].
    intros i w Hw. rewrite on_first_lookup, Hw.
    destruct (decide (i < Z.to_nat (threads (prefs r)))%nat) as [Hlt | Hge];
      simpl; eexists; (split; [reflexivity |]); simpl;
      (split; [reflexivity |]); (split; [reflexivity |]);
      destruct (decide (Z.of_nat i < threads (prefs r))); try reflexivity; lia.
Qed.

(** ** BVH builds *)

(** C5: when [build_mesh_bvh] fails the build task returns without a swap:
    it ends normally and the scene, the one thing it shares with the other
    threads, is the scene it was given, so every mesh keeps the BVH
    pointer it had, [NULL] included; a renderer on that scene is left as it
    is, run state included, and goes on rendering. *)
Theorem bvh_build_failure_keeps_scene (bt : bvh_build_task_arg) (w : world) :
  build_mesh_bvh (bt_mesh bt) = None ->
  (exists w',
     bvh_build_task bt w = Ok w'
     /\ w' = w
     /\ forall idx, mesh_bvh <$> item_at (meshes w') idx
                    = mesh_bvh <$> item_at (meshes w) idx)
  /\ forall r : renderer, scene r = w -> background_build bt r = Ok r.
Proof.
  intros Hfail. split.
  - exists w. unfold bvh_build_task. rewrite Hfail.
    repeat split; reflexivity.
  - intros r <-. unfold background_build, bvh_build_task. rewrite Hfail.
    destruct r; reflexivity.
Qed.

(** The other branch, for contrast: a build that succeeds swaps the BVH
    of its mesh in and leaves the rest of the mesh and of the scene. *)
Lemma bvh_build_success_swaps (bt : bvh_build_task_arg) (w : world)
    (b : bvh) (m : mesh) :
  build_mesh_bvh (bt_mesh bt) = Some b ->
  item_at (meshes w) (bt_mesh_idx bt) = Some m ->
  bvh_build_task bt w
  = Ok (set_meshes w
          (item_set (meshes w) (bt_mesh_idx bt) (set_mesh_bvh m (Some b)))).
Proof.
  intros Hb Hm. unfold bvh_build_task. by rewrite Hb, Hm.
Qed.

(** ** Instance transforms *)

Lemma mtx_convert_id (m : float4x4) : mtx_convert m = m.
Proof. destruct m as [[] [] [] []]. reflexivity. Qed.

(** What one call of [cr_instance_transform] does to a valid instance. *)
Lemma instance_transform_ok (w : world) (idx : Z) (i : instance) (m : float4x4) :
  count (instances w) <= SIZE_MAX ->
  item_at (instances w) idx = Some i ->
  cr_instance_transform PTR idx m w
  = Ok (set_top_level_dirty
          (set_instances w
             (item_set (instances w) idx
                (set_composite i
                   {| A := mat_mul (A (composite i)) m;
                      Ainv := mat_invert (mat_mul (A (composite i)) m) |})))
          true).
Proof.
  intros Hc Hi. unfold cr_instance_transform.
  rewrite (past_last_inside _ _ _ Hc Hi), Hi, mtx_convert_id. reflexivity.
Qed.

Lemma item_at_item_set {T : Type} (items : list T) (idx : Z) (x v : T) :
  item_at items idx = Some x -> item_at (item_set items idx v) idx = Some v.
Proof.
  intros Hx. pose proof (item_at_Some _ _ _ Hx) as Hr.
  unfold item_at, item_set, count in *.
  destruct (Z.ltb_spec idx 0); [lia |].
  apply list_lookup_insert_eq. lia.
Qed.

Lemma count_item_set {T : Type} (items : list T) (idx : Z) (v : T) :
  count (item_set items idx v) = count items.
Proof. unfold count, item_set. by rewrite length_insert. Qed.

(** C6: [cr_instance_transform] with [a] and then with [b] on a valid
    instance leaves its forward matrix at (initial * a) * b and its inverse
    at the inverse of that matrix, recomputed by each call; and each of the
    two calls sets the top-level dirty flag: it is set after the first
    call, and set after the second also when it was cleared in between. *)
Theorem instance_transform_twice (w : world) (idx : Z) (i : instance)
    (a b : float4x4) :
  count (instances w) <= SIZE_MAX ->
  item_at (instances w) idx = Some i ->
  exists w1 w2 i1 i2,
    cr_instance_transform PTR idx a w = Ok w1
    /\ cr_instance_transform PTR idx b w1 = Ok w2
    /\ item_at (instances w1) idx = Some i1
    /\ A (composite i1) = mat_mul (A (composite i)) a
    /\ Ainv (composite i1) = mat_invert (A (composite i1))
    /\ item_at (instances w2) idx = Some i2
    /\ A (composite i2) = mat_mul (mat_mul (A (composite i)) a) b
    /\ Ainv (composite i2) = mat_invert (A (composite i2))
    /\ top_level_dirty w1 = true
    /\ top_level_dirty w2 = true
    /\ (exists w2',
          cr_instance_transform PTR idx b (set_top_level_dirty w1 false) = Ok w2'
          /\ top_level_dirty w2' = true).
Proof.
  intros Hc Hi.
  pose proof (item_at_item_set (instances w) idx i
                (set_composite i
                   {| A := mat_mul (A (composite i)) a;
                      Ainv := mat_invert (mat_mul (A (composite i)) a) |}) Hi)
    as Hi1.
  eexists _, _, _, _.
  split; [apply (instance_transform_ok w idx i a Hc Hi) |].
  split; [apply instance_transform_ok;
          [simpl; by rewrite count_item_set | exact Hi1] |].
  split; [exact Hi1 |].
  split; [reflexivity |]. split; [reflexivity |].
  split; [simpl; eapply item_at_item_set; exact Hi1 |].
  split; [reflexivity |]. split; [reflexivity |].
  split; [reflexivity |]. split; [reflexivity |].
  eexists. split.
  - apply instance_transform_ok; [simpl; by rewrite count_item_set | exact Hi1].
  - reflexivity.
Qed.

(** What [cr_instance_set_transform] does to a valid instance: nothing
    when the matrix is the forward matrix the instance has. *)
Lemma instance_set_transform_same (w : world) (idx : Z) (i : instance)
    (m : float4x4) :
  count (instances w) <= SIZE_MAX ->
  item_at (instances w) idx = Some i ->
  A (composite i) = m ->
  cr_instance_set_transform PTR idx m w = Ok w.
Proof.
  intros Hc Hi Hm. unfold cr_instance_set_transform, same_forward.
  rewrite (past_last_inside _ _ _ Hc Hi), Hi, mtx_convert_id.
  by rewrite bool_decide_eq_true_2.
Qed.

Lemma instance_set_transform_new (w : world) (idx : Z) (i : instance)
    (m : float4x4) :
  count (instances w) <= SIZE_MAX ->
  item_at (instances w) idx = Some i ->
  A (composite i) <> m ->
  cr_instance_set_transform PTR idx m w
  = Ok (set_top_level_dirty
          (set_instances w
             (item_set (instances w) idx
                (set_composite i {| A := m; Ainv := mat_invert m |})))
          true).
Proof.
  intros Hc Hi Hm. unfold cr_instance_set_transform, same_forward.
  rewrite (past_last_inside _ _ _ Hc Hi), Hi, mtx_convert_id.
  by rewrite bool_decide_eq_false_2.
Qed.

(** C7, as the code has it: the top-level dirty flag is set after
    [cr_instance_new] has created an instance, in any scene, one without
    instances included; after [cr_instance_transform] on a valid instance;
    and after [cr_instance_set_transform] on a valid instance with a
    matrix that differs from the forward matrix of the instance.  None of
    the three touches the top-level structure.
    [cr_instance_set_transform] with the matrix the instance already has
    returns early and changes nothing, the flag included; and
    [cr_instance_new] with an object type that is neither a mesh nor a
    sphere creates nothing and leaves the scene as it is. *)
Theorem instance_mutations_mark_dirty (w : world) :
  (forall (object : Z) (kind : cr_object_type),
     exists new_idx w',
       cr_instance_new PTR object
         (match kind with cr_object_mesh => 0 | cr_object_sphere => 1 end) w
       = Ok (new_idx, w')
       /\ new_idx = count (instances w)
       /\ count (instances w') = count (instances w) + 1
       /\ top_level_dirty w' = true
       /\ topLevel w' = topLevel w)
  /\ (forall (object type : Z),
        cr_object_type_of_Z type = None ->
        cr_instance_new PTR object type w = Ok (-1, w))
  /\ (forall (idx : Z) (i : instance) (m : float4x4),
        count (instances w) <= SIZE_MAX ->
        item_at (instances w) idx = Some i ->
        (exists w',
           cr_instance_transform PTR idx m w = Ok w'
           /\ top_level_dirty w' = true
           /\ topLevel w' = topLevel w)
        /\ (A (composite i) <> m ->
            exists w',
              cr_instance_set_transform PTR idx m w = Ok w'
              /\ top_level_dirty w' = true
              /\ topLevel w' = topLevel w)
        /\ (A (composite i) = m ->
            cr_instance_set_transform PTR idx m w = Ok w)).
Proof.
  split; [| split].
  - intros object kind. unfold cr_instance_new. destruct kind; simpl;
      eexists _, _; (split; [reflexivity |]); simpl;
      (split; [reflexivity |]);
      (split; [unfold count; rewrite length_app; simpl; lia |]);
      split; reflexivity.
  - intros object type Htype. unfold cr_instance_new. by rewrite Htype.
  - intros idx i m Hc Hi. split; [| split].
    + eexists. split; [apply (instance_transform_ok w idx i m Hc Hi) |].
      split; reflexivity.
    + intros Hm. eexists.
      split; [apply (instance_set_transform_new w idx i m Hc Hi Hm) |].
      split; reflexivity.
    + intros Hm. apply (instance_set_transform_same w idx i m Hc Hi Hm).
Qed.

(** ** Binding geometry *)

Lemma add_each_from {T : Type} (src : list T) (n k : nat) (dst : list T) :
  (k + n <= length src)%nat ->
  add_each src n (Z.of_nat k) dst = Ok (dst ++ take n (drop k src)).
Proof.
  revert k dst. induction n as [| n IH]; intros k dst Hlen; simpl.
  - by rewrite app_nil_r.
  - rewrite item_at_nat.
    destruct (src !! k) as [v |] eqn:Hv;
      [| apply lookup_ge_None in Hv; lia].
    replace (Z.of_nat k + 1) with (Z.of_nat (S k)) by lia.
    rewrite IH by lia.
    rewrite (drop_S src v k Hv). simpl. by rewrite <- app_assoc.
Qed.

Lemma add_each_all {T : Type} (src dst : list T) :
  add_each src (Z.to_nat (count src)) 0 dst = Ok (dst ++ src).
Proof.
  unfold count. rewrite Nat2Z.id. change 0 with (Z.of_nat 0).
  rewrite add_each_from by lia. rewrite drop_0. by rewrite take_ge by lia.
Qed.

Lemma fill_from_all {T : Type} (src : list T) :
  fill_from (Some src) (count src) = Ok src.
Proof.
  unfold fill_from. destruct (Z.eqb_spec (count src) 0) as [H0 | Hn].
  - destruct src; [reflexivity | unfold count in H0; simpl in H0; lia].
  - apply add_each_all.
Qed.

(** The half of the binding rule that the code keeps:
    [cr_mesh_bind_vertex_buf] builds a fresh vertex buffer from the arrays
    of the call and assigns it over the old one. *)
Lemma bind_vertex_buf_replaces (w : world) (idx : Z) (m : mesh)
    (vs ns : list vector) (ts : list coord) :
  count (meshes w) <= SIZE_MAX ->
  item_at (meshes w) idx = Some m ->
  cr_mesh_bind_vertex_buf PTR idx
    {| vertices_p := Some vs; vertex_count := count vs;
       normals_p := Some ns; normal_count := count ns;
       tex_coords_p := Some ts; tex_coord_count := count ts |} w
  = Ok (set_meshes w
          (item_set (meshes w) idx
             (set_vbuf m {| vertices := vs; normals := ns;
                            texture_coords := ts |}))).
Proof.
  intros Hc Hm. unfold cr_mesh_bind_vertex_buf.
  rewrite (past_last_inside _ _ _ Hc Hm), Hm.
  cbn [vertices_p vertex_count normals_p normal_count
       tex_coords_p tex_coord_count].
  by rewrite !fill_from_all.
Qed.

(** The other half: [cr_mesh_bind_faces] adds the faces of the call after
    the polygons the mesh has. *)
Lemma bind_faces_appends (w : world) (idx : Z) (m : mesh) (fs : list cr_face) :
  count (meshes w) <= SIZE_MAX ->
  item_at (meshes w) idx = Some m ->
  cr_mesh_bind_faces PTR idx (Some fs) (count fs) w
  = Ok (set_meshes w
          (item_set (meshes w) idx (set_polygons m (polygons m ++ fs)))).
Proof.
  intros Hc Hm. unfold cr_mesh_bind_faces.
  rewrite (past_last_inside _ _ _ Hc Hm), Hm.
  by rewrite add_each_all.
Qed.

(** ** Indices outside the array *)

(** With no element in the array, no index is stopped: the operation goes
    on to [items[idx]]. *)
Lemma instance_transform_no_instances (w : world) (idx : Z) (m : float4x4) :
  instances w = [] -> cr_instance_transform PTR idx m w = UB.
Proof.
  intros Hn. unfold cr_instance_transform.
  rewrite Hn, past_last_empty. unfold item_at.
  destruct (idx <? 0); [reflexivity | by rewrite lookup_nil].
Qed.

Lemma mesh_bind_vertex_buf_no_meshes (w : world) (idx : Z)
    (buf : cr_vertex_buf_param) :
  meshes w = [] -> cr_mesh_bind_vertex_buf PTR idx buf w = UB.
Proof.
  intros Hn. unfold cr_mesh_bind_vertex_buf.
  rewrite Hn, past_last_empty. unfold item_at.
  destruct (idx <? 0); [reflexivity | by rewrite lookup_nil].
Qed.

(** With an element in the array, an index outside it is stopped and the
    scene stays as it is. *)
Lemma mesh_bind_vertex_buf_outside (w : world) (idx : Z)
    (buf : cr_vertex_buf_param) :
  0 < count (meshes w) <= INT64_MAX -> is_int64 idx ->
  item_at (meshes w) idx = None ->
  cr_mesh_bind_vertex_buf PTR idx buf w = Ok w.
Proof.
  intros Hc Hi Hn. unfold cr_mesh_bind_vertex_buf.
  by rewrite (past_last_outside _ _ Hc Hi Hn).
Qed.

Lemma instance_transform_outside (w : world) (idx : Z) (m : float4x4) :
  0 < count (instances w) <= INT64_MAX -> is_int64 idx ->
  item_at (instances w) idx = None ->
  cr_instance_transform PTR idx m w = Ok w.
Proof.
  intros Hc Hi Hn. unfold cr_instance_transform.
  by rewrite (past_last_outside _ _ Hc Hi Hn).
Qed.

Lemma camera_set_num_pref_outside (w : world) (c p : Z) (num : double) :
  0 < count (cameras w) <= INT64_MAX -> is_int64 c ->
  item_at (cameras w) c = None ->
  cr_camera_set_num_pref PTR c p num w = Ok (false, w).
Proof.
  intros Hc Hi Hn. unfold cr_camera_set_num_pref.
  destruct (c <? 0); [reflexivity |].
  by rewrite (past_last_outside _ _ Hc Hi Hn).
Qed.

(** ** Null handles *)

(** C10: every operation of the API that takes a renderer or a scene
    handle, [cr_destroy_renderer] apart, answers a [NULL] handle with its
    failure value ([false], -1, 0, 0.0, [NULL], the all-zero totals) or
    returns at once, and the renderer or scene is as before, whatever it
    holds and whatever the other arguments are; [cr_destroy_renderer]
    fails its assertion. *)
Theorem null_handle_is_refused :
  (forall t cb ud r, cr_renderer_set_callback NULL t cb ud r = Ok (false, r))
  /\ (forall p num r, cr_renderer_set_num_pref NULL p num r = Ok (false, r))
  /\ (forall p str r, cr_renderer_set_str_pref NULL p str r = Ok (false, r))
  /\ (forall seen r, cr_renderer_stop NULL seen r = Ok r)
  /\ (forall r, cr_renderer_toggle_pause NULL r = Ok r)
  /\ (forall p r, cr_renderer_get_str_pref NULL p r = Ok (None, r))
  /\ (forall p r, cr_renderer_get_num_pref NULL p r = Ok (0, r))
  /\ (forall desc w, cr_scene_set_background NULL desc w = Ok (false, w))
  /\ (forall r, cr_renderer_scene_get NULL r = Ok (NULL, r))
  /\ (forall w, cr_get_scene_totals NULL w
                = Ok ({| total_meshes := 0; total_spheres := 0;
                         total_instances := 0; total_cameras := 0 |}, w))
  /\ (forall rad w, cr_scene_add_sphere NULL rad w = Ok (-1, w))
  /\ (forall idx buf w, cr_mesh_bind_vertex_buf NULL idx buf w = Ok w)
  /\ (forall idx fs n w, cr_mesh_bind_faces NULL idx fs n w = Ok w)
  /\ (forall idx w, cr_mesh_finalize NULL idx w = Ok w)
  /\ (forall nm w, cr_scene_mesh_new NULL nm w = Ok (-1, w))
  /\ (forall nm w, cr_scene_get_mesh NULL nm w = Ok (-1, w))
  /\ (forall object type w, cr_instance_new NULL object type w = Ok (-1, w))
  /\ (forall idx m w, cr_instance_set_transform NULL idx m w = Ok w)
  /\ (forall idx m w, cr_instance_transform NULL idx m w = Ok w)
  /\ (forall idx set w,
        cr_instance_bind_material_set NULL idx set w = Ok (false, w))
  /\ (forall w, cr_camera_new NULL w = Ok (-1, w))
  /\ (forall c p num w, cr_camera_set_num_pref NULL c p num w = Ok (false, w))
  /\ (forall c p w, cr_camera_get_num_pref NULL c p w = Ok (d_0, w))
  /\ (forall c w, cr_camera_update NULL c w = Ok (false, w))
  /\ (forall c w, cr_camera_remove NULL c w = Ok (false, w))
  /\ (forall w, cr_scene_new_material_set NULL w = Ok (-1, w))
  /\ (forall set desc w, cr_material_set_add NULL set desc w = Ok (-1, w))
  /\ (forall set mat desc w, cr_material_update NULL set mat desc w = Ok w)
  /\ (forall r, cr_renderer_render NULL r = Ok r)
  /\ (forall r, cr_renderer_start_interactive NULL r = Ok r)
  /\ (forall obs r, cr_renderer_restart_interactive NULL obs r = (Ok r, []))
  /\ (forall r, cr_renderer_get_result NULL r = Ok (None, r))
  /\ (forall path r, cr_load_json NULL path r = Ok (false, r))
  /\ (forall r, cr_debug_dump_state NULL r = Ok r)
  /\ (forall r, cr_destroy_renderer NULL r = Abort).
Proof.
  repeat split; intros; try reflexivity.
  - unfold cr_camera_set_num_pref. by destruct (c <? 0).
  - unfold cr_camera_get_num_pref. by destruct (c <? 0).
  - unfold cr_camera_update. by destruct (c <? 0).
Qed.

(** ** Interactive restart: what happens before what *)

(** The structural mutations of the result buffer and of the tile set:
    freeing either, and installing a new one. *)
Definition structural (e : event) : bool :=
  match e with
  | ev_tex_destroy | ev_tex_new _ _ | ev_tiles_free | ev_tiles_install => true
  | _ => false
  end.

(** Worker [i] has been seen in its pause loop. *)
Definition ack (i : Z) : event := ev_read_in_pause_loop i true.

(** In the trace [t], whatever precedes a structural mutation holds, for
    each of the [n] workers, a read of its acknowledgement flag that found
    it set. *)
Definition acked_before_mutation (n : Z) (t : list event) : Prop :=
  forall pre e post,
    t = pre ++ e :: post -> structural e = true ->
    forall i, 0 <= i < n -> In (ack i) pre.

Definition quiet (t : list event) : Prop :=
  Forall (fun e => structural e = false) t.

Lemma quiet_no_mutation (pre post : list event) (e : event) :
  quiet (pre ++ e :: post) -> structural e = true -> False.
Proof.
  unfold quiet. rewrite Forall_app, Forall_cons. intros [_ [He _]]. congruence.
Qed.

Lemma acked_quiet (n : Z) (t : list event) :
  quiet t -> acked_before_mutation n t.
Proof.
  intros Hq pre e post -> He. destruct (quiet_no_mutation _ _ _ Hq He).
Qed.

Lemma acked_app_tail (n : Z) (t1 t2 : list event) :
  acked_before_mutation n t1 -> quiet t2 -> acked_before_mutation n (t1 ++ t2).
Proof.
  intros H1 Hq pre e post Heq He.
  apply List.app_eq_app in Heq as [l [[-> Hl] | [-> Hl]]].
  - destruct l as [| e' l']; simpl in Hl.
    + subst t2. destruct (quiet_no_mutation [] _ _ Hq He).
    + injection Hl as <- _. by apply (H1 pre e l').
  - subst t2. destruct (quiet_no_mutation _ _ _ Hq He).
Qed.

Lemma acked_app_head (n : Z) (t1 t2 : list event) :
  quiet t1 -> acked_before_mutation n t2 -> acked_before_mutation n (t1 ++ t2).
Proof.
  intros Hq H2 pre e post Heq He i Hi.
  apply List.app_eq_app in Heq as [l [[-> Hl] | [-> Hl]]].
  - destruct l as [| e' l']; simpl in Hl.
    + destruct (H2 [] e post (eq_sym Hl) He i Hi).
    + injection Hl as <- _. destruct (quiet_no_mutation _ _ _ Hq He).
  - apply in_or_app. right. by apply (H2 l e post).
Qed.

Lemma acked_app_after (n : Z) (t1 t2 : list event) :
  quiet t1 -> (forall i, 0 <= i < n -> In (ack i) t1) ->
  acked_before_mutation n (t1 ++ t2).
Proof.
  intros Hq Hacks pre e post Heq He i Hi.
  apply List.app_eq_app in Heq as [l [[-> Hl] | [-> Hl]]].
  - destruct l as [| e' l']; simpl in Hl.
    + rewrite app_nil_r in Hacks. by apply Hacks.
    + injection Hl as <- _. destruct (quiet_no_mutation _ _ _ Hq He).
  - apply in_or_app. left. by apply Hacks.
Qed.

(** The trace of a sequence is the trace of its first part followed by the
    trace of what the first part's result leads to. *)
Lemma rbind_trace {T U : Type} (m : run T) (k : T -> run U) :
  snd (rbind m k)
  = snd m ++ match fst m with Ok a => snd (k a) | _ => [] end.
Proof.
  destruct m as [[a | | |] t]; simpl; try by rewrite app_nil_r.
  by destruct (k a).
Qed.

Lemma rbind_result {T U : Type} (m : run T) (k : T -> run U) :
  fst (rbind m k)
  = match fst m with
    | Ok a => fst (k a) | UB => UB | Abort => Abort | Spin => Spin
    end.
Proof. destruct m as [[a | | |] t]; simpl; try reflexivity. by destruct (k a). Qed.

Lemma quiet_rbind {T U : Type} (m : run T) (k : T -> run U) :
  quiet (snd m) -> (forall a, fst m = Ok a -> quiet (snd (k a))) ->
  quiet (snd (rbind m k)).
Proof.
  intros Hm Hk. rewrite rbind_trace. apply Forall_app. split; [exact Hm |].
  destruct (fst m) as [a | | |]; [by apply Hk | | |]; apply Forall_nil_2.
Qed.

Lemma acked_rbind {T U : Type} (n : Z) (m : run T) (k : T -> run U) :
  quiet (snd m) ->
  (forall a, fst m = Ok a ->
     (forall i, 0 <= i < n -> In (ack i) (snd m))
     \/ acked_before_mutation n (snd (k a))) ->
  acked_before_mutation n (snd (rbind m k)).
Proof.
  intros Hm Hk. rewrite rbind_trace.
  destruct (fst m) as [a | | |];
    try (rewrite app_nil_r; by apply acked_quiet).
  destruct (Hk a eq_refl) as [Hacks | Hrest].
  - by apply acked_app_after.
  - by apply acked_app_head.
Qed.

Lemma acked_rbind_tail {T U : Type} (n : Z) (m : run T) (k : T -> run U) :
  acked_before_mutation n (snd m) ->
  (forall a, fst m = Ok a -> quiet (snd (k a))) ->
  acked_before_mutation n (snd (rbind m k)).
Proof.
  intros Hm Hk. rewrite rbind_trace. apply acked_app_tail; [exact Hm |].
  destruct (fst m) as [a | | |]; [by apply Hk | | |]; apply Forall_nil_2.
Qed.

Lemma quiet_say (e : event) : structural e = false -> quiet (snd (say e)).
Proof. intros He. apply Forall_cons. split; [exact He | apply Forall_nil_2]. Qed.

Lemma quiet_quietly {T : Type} (o : outcome T) : quiet (snd (quietly o)).
Proof. apply Forall_nil_2. Qed.

Lemma quiet_toggle (r : renderer) : quiet (snd (toggle_pause_in_restart r)).
Proof.
  unfold toggle_pause_in_restart.
  apply quiet_rbind; [by apply quiet_say | intros; apply quiet_quietly].
Qed.

Lemma quiet_restart_pass (r : renderer) : quiet (snd (restart_pass r)).
Proof.
  unfold restart_pass.
  apply quiet_rbind; [by apply quiet_say | intros _ _].
  destruct (current_set _) as [set |]; [| apply Forall_nil_2].
  destruct (result_buf _) as [buf |]; [| apply Forall_nil_2].
  repeat (apply quiet_rbind;
          [first [by apply quiet_say | apply quiet_quietly] | intros ? _]).
  apply Forall_nil_2.
Qed.

Lemma await_pause_nil (i : Z) (r : renderer) :
  await_pause [] i r
  = if i <? count (workers (state r)) then (Spin, []) else (Ok (true, r), []).
Proof. reflexivity. Qed.

Lemma await_pause_cons (o : observation) (obs : list observation) (i : Z)
    (r : renderer) :
  await_pause (o :: obs) i r
  = if i <? count (workers (state r)) then
      match item_at (workers (state r)) i with
      | None => (UB, [])
      | Some wk =>
        let wk' := set_in_pause_loop wk (seen_in_pause_loop o) in
        let r1 := set_state r
                    (set_workers (state r) (item_set (workers (state r)) i wk')) in
        run* _ := say (ev_read_in_pause_loop i (seen_in_pause_loop o)) in
        if seen_in_pause_loop o then await_pause obs (i + 1) r1
        else
          run* _ := say ev_sleep in
          let r2 := set_state r1 (set_s (state r1) (seen_state o)) in
          run* _ := say (ev_read_state (seen_state o)) in
          if decide (seen_state o = r_rendering) then await_pause obs i r2
          else (Ok (false, r2), [])
      end
    else (Ok (true, r), []).
Proof. reflexivity. Qed.

Lemma quiet_await (obs : list observation) (i : Z) (r : renderer) :
  quiet (snd (await_pause obs i r)).
Proof.
  revert i r. induction obs as [| o obs IH]; intros i r.
  - rewrite await_pause_nil.
    destruct (i <? count (workers (state r))); apply Forall_nil_2.
  - rewrite await_pause_cons.
    destruct (i <? count (workers (state r))); [| apply Forall_nil_2].
    destruct (item_at (workers (state r)) i) as [wk |]; [| apply Forall_nil_2].
    cbv zeta.
    apply quiet_rbind; [by apply quiet_say | intros _ _].
    destruct (seen_in_pause_loop o); [apply IH |].
    apply quiet_rbind; [by apply quiet_say | intros _ _].
    apply quiet_rbind; [by apply quiet_say | intros _ _].
    destruct (decide (seen_state o = r_rendering));
      [apply IH | apply Forall_nil_2].
Qed.

(** When the two loops run to their end, every worker from [i] on has been
    seen in its pause loop. *)
Lemma await_acks (obs : list observation) (i : Z) (r r' : renderer) :
  0 <= i ->
  fst (await_pause obs i r) = Ok (true, r') ->
  forall j, i <= j < count (workers (state r)) ->
            In (ack j) (snd (await_pause obs i r)).
Proof.
  revert i r. induction obs as [| o obs IH]; intros i r Hi.
  - rewrite await_pause_nil.
    destruct (Z.ltb_spec i (count (workers (state r)))) as [Hlt | Hge];
      [discriminate | intros _ j Hj; lia].
  - rewrite await_pause_cons.
    destruct (Z.ltb_spec i (count (workers (state r)))) as [Hlt | Hge];
      [| intros _ j Hj; lia].
    destruct (item_at (workers (state r)) i) as [wk |]; [| discriminate].
    cbv zeta. rewrite rbind_result, rbind_trace.
    cbn [say fst snd].
    destruct (seen_in_pause_loop o) eqn:Hseen.
    + intros Hres j Hj. destruct (decide (j = i)) as [-> | Hne].
      * left. reflexivity.
      * right. apply IH; [lia | exact Hres |].
        cbn [state set_state workers set_workers].
        rewrite count_item_set. lia.
    + rewrite !rbind_result, !rbind_trace. cbn [say fst snd].
      destruct (decide (seen_state o = r_rendering)); [| discriminate].
      intros Hres j Hj. right. right. right.
      apply IH; [lia | exact Hres |].
      cbn [state set_state workers set_workers set_s].
      rewrite count_item_set. lia.
Qed.

Lemma toggle_keeps_count (r r' : renderer) :
  cr_renderer_toggle_pause PTR r = Ok r' ->
  count (workers (state r')) = count (workers (state r)).
Proof.
  unfold cr_renderer_toggle_pause.
  destruct (decide (Z.to_nat (threads (prefs r)) <= length (workers (state r)))%nat)
    as [Hle | Hgt].
  - rewrite for_workers_ok by exact Hle. simpl. intros [= <-]. simpl.
    unfold count. by rewrite on_first_length.
  - change 0 with (Z.of_nat 0). rewrite for_workers_short by lia. discriminate.
Qed.

Lemma acked_resize (obs : list observation) (r : renderer) (cam : camera) :
  acked_before_mutation (count (workers (state r)))
    (snd (resize_result_buf obs r cam)).
Proof.
  unfold resize_result_buf.
  apply acked_rbind; [by apply quiet_say | intros _ _; right].
  apply acked_rbind; [by apply quiet_say | intros _ _; right].
  apply acked_rbind; [apply quiet_toggle | intros r2 Hr2; right].
  assert (count (workers (state r2)) = count (workers (state r))) as Hcount.
  { unfold toggle_pause_in_restart in Hr2.
    rewrite rbind_result in Hr2. cbn [say quietly fst] in Hr2.
    apply toggle_keeps_count in Hr2. exact Hr2. }
  apply acked_rbind; [apply quiet_await | intros [acked r3] Hwait].
  cbv zeta. cbn [fst snd]. destruct acked.
  - left. intros i Hi. apply (await_acks obs 0 r2 r3); [lia | exact Hwait | lia].
  - right. apply acked_quiet.
    apply quiet_rbind; [apply quiet_toggle | intros; apply Forall_nil_2].
Qed.

(** C1: in every execution of [cr_renderer_restart_interactive] on an
    interactive renderer with workers, a result buffer and a tile set,
    whatever the other threads let it read and however far it gets, the
    mutations of the result buffer ([tex_destroy], the new [tex_new]
    buffer) and of the tile set (freeing the tiles, installing the new
    ones) come after a read, for every worker, that found the worker's
    acknowledgement flag [in_pause_loop] set. *)
Theorem restart_mutates_after_acks (obs : list observation) (r : renderer)
    (buf : texture) (set : tile_set) :
  iterative (prefs r) = true ->
  0 < count (workers (state r)) ->
  result_buf (state r) = Some buf ->
  current_set (state r) = Some set ->
  acked_before_mutation (count (workers (state r)))
    (snd (cr_renderer_restart_interactive PTR obs r)).
Proof.
  intros Hit Hws Hbuf Hset. unfold cr_renderer_restart_interactive.
  rewrite Hit, Hbuf, Hset. simpl.
  destruct (Z.eqb_spec (count (workers (state r))) 0) as [H0 | _]; [lia |].
  destruct (item_at _ _) as [cam |]; [| by apply acked_quiet, Forall_nil_2].
  destruct (resolution_differs buf cam).
  - apply acked_rbind_tail; [apply acked_resize |].
    intros [resized r'] _. cbn [fst snd].
    destruct resized; [apply quiet_restart_pass | apply Forall_nil_2].
  - apply acked_quiet, quiet_restart_pass.
Qed.

(** ** Interactive restart at an unchanged resolution *)

(** C4, as the code has it: on an interactive renderer with workers (one
    for each local thread at least), a result buffer and a tile set, whose
    selected camera has the resolution of the result buffer, the restart
    clears the result buffer, resets the completion counter of the tile set
    to zero, resets the sample counter of the worker of each local thread
    (those below [prefs.threads]) to zero, runs [update_toplevel_bvh] on the
    scene, and sets [finishedPasses] to 1; every other field of the
    renderer is as before, and the result buffer and the tile set are
    neither freed nor replaced. *)
Theorem restart_same_resolution (obs : list observation) (r : renderer)
    (buf : texture) (set : tile_set) (cam : camera) :
  iterative (prefs r) = true ->
  0 < count (workers (state r)) ->
  threads (prefs r) <= count (workers (state r)) ->
  result_buf (state r) = Some buf ->
  current_set (state r) = Some set ->
  item_at (cameras (scene r)) (selected_camera (prefs r)) = Some cam ->
  tex_width buf = to_size_t (cam_width cam) ->
  tex_height buf = to_size_t (cam_height cam) ->
  cr_renderer_restart_interactive PTR obs r
  = (Ok {| prefs := prefs r;
           state :=
             {| s := s (state r);
                callbacks := callbacks (state r);
                workers := on_first reset_samples
                             (Z.to_nat (threads (prefs r)))
                             (workers (state r));
                result_buf := Some (tex_clear buf);
                current_set := Some {| tiles := tiles set; finished := 0 |};
                finishedPasses := 1;
                clients := clients (state r) |};
           scene := update_toplevel_bvh (scene r) |},
     [ev_set_finishedPasses; ev_mutex_lock; ev_tex_clear; ev_reset_finished;
      ev_reset_samples; ev_update_toplevel_bvh; ev_thread_pool_wait;
      ev_mutex_release]).
Proof.
  intros Hit Hws Hth Hbuf Hset Hcam Hw Hh.
  unfold cr_renderer_restart_interactive.
  rewrite Hit, Hbuf, Hset, Hcam. cbn [negb].
  destruct (Z.eqb_spec (count (workers (state r))) 0) as [H0 | _]; [lia |].
  unfold resolution_differs. rewrite Hw, Hh, !Z.eqb_refl. cbn [negb orb].
  unfold restart_pass.
  cbn [state set_state current_set result_buf set_finishedPasses
       set_result_buf set_current_set workers prefs].
  rewrite Hbuf, Hset.
  unfold count in Hth. rewrite for_workers_ok by lia.
  reflexivity.
Qed.

(** * Further properties of the API layer *)

(** ** Callback slots *)

Lemma item_at_item_set_other {T : Type} (items : list T) (i j : Z) (v : T) :
  0 <= i -> i <> j -> item_at (item_set items i v) j = item_at items j.
Proof.
  intros Hi Hne. unfold item_at, item_set.
  destruct (Z.ltb_spec j 0); [reflexivity |].
  apply list_lookup_insert_ne. lia.
Qed.

(** X1: [cr_renderer_set_callback] on a renderer with its five callback
    slots refuses a callback type above
    [cr_cb_on_interactive_pass_finished] and leaves the renderer as it is;
    for a type from 0 to 4 it stores the function and the user pointer in
    the slot of that type and changes no other slot and no other field. *)
Theorem set_callback_slot (r : renderer) (t : Z) (cb ud : option Z) :
  length (callbacks (state r)) = 5%nat ->
  0 <= t ->
  (cr_cb_on_interactive_pass_finished < t ->
     cr_renderer_set_callback PTR t cb ud r = Ok (false, r))
  /\ (t <= cr_cb_on_interactive_pass_finished ->
      exists r',
        cr_renderer_set_callback PTR t cb ud r = Ok (true, r')
        /\ item_at (callbacks (state r')) t
           = Some {| fn := cb; user_data := ud |}
        /\ (forall u, u <> t ->
              item_at (callbacks (state r')) u = item_at (callbacks (state r)) u)
        /\ state r' = set_callbacks (state r) (callbacks (state r'))
        /\ prefs r' = prefs r
        /\ scene r' = scene r).
Proof.
  intros Hlen Ht. unfold cr_renderer_set_callback, cr_cb_on_interactive_pass_finished.
  destruct (Z.ltb_spec t 0) as [Hneg | _]; [lia |]. rewrite orb_false_l.
  split; intros Hcmp.
  - destruct (Z.gtb_spec t 4); [reflexivity | lia].
  - destruct (Z.gtb_spec t 4); [lia |].
    destruct (item_at (callbacks (state r)) t) as [old |] eqn:Hold.
    + eexists. split; [reflexivity |]. cbn [state set_state callbacks set_callbacks].
      split; [by eapply item_at_item_set |].
      split; [intros u Hu; apply item_at_item_set_other; [lia | congruence] |].
      repeat split; reflexivity.
    + apply item_at_None in Hold. unfold count in Hold. lia.
Qed.

(** ** Numeric preferences *)

(** The parameters [cr_renderer_get_num_pref] has a case for. *)
Definition readable (p : cr_renderer_param) : bool :=
  match p with
  | cr_renderer_threads | cr_renderer_samples | cr_renderer_bounces
  | cr_renderer_tile_width | cr_renderer_tile_height
  | cr_renderer_override_width | cr_renderer_override_height => true
  | _ => false
  end.

Definition num_pref_value (p : cr_renderer_param) (r : renderer) : Z :=
  match cr_renderer_get_num_pref PTR p r with
  | Ok (v, _) => v
  | _ => 0
  end.

(** The fields of [struct prefs] are declared in renderer.h, which is not
    among the sources; a number below [2 ^ 31] is stored unchanged by each
    of [int], [unsigned] and [size_t]. *)
Definition fits_any_field (num : Z) : Prop := 0 <= num < 2 ^ 31.

(** X2: for each of the seven parameters the getter knows, and a number
    that any integer field holds (the bounce count within its cap),
    [cr_renderer_set_num_pref] succeeds, [cr_renderer_get_num_pref] then
    returns the number that was set, the other six read as before, and
    neither the run state nor the scene is touched. *)
Theorem num_pref_round_trip (p : cr_renderer_param) (num : Z) (r : renderer) :
  readable p = true ->
  fits_any_field num ->
  (p = cr_renderer_bounces -> num <= 512) ->
  exists r',
    cr_renderer_set_num_pref PTR p num r = Ok (true, r')
    /\ cr_renderer_get_num_pref PTR p r' = Ok (num, r')
    /\ (forall q, q <> p -> num_pref_value q r' = num_pref_value q r)
    /\ state r' = state r
    /\ scene r' = scene r.
Proof.
  intros Hp _ Hb.
  destruct p; try discriminate Hp; simpl;
    try (destruct (Z.gtb_spec num 512) as [Hgt | _];
         [specialize (Hb eq_refl); lia |]);
    (eexists; split; [reflexivity |]; split; [reflexivity |];
     split; [| split; reflexivity];
     intros q Hq; destruct q; try reflexivity; congruence).
Qed.

(** X3: [cr_renderer_override_cam] is accepted exactly for the index of a
    camera of the scene, an empty scene included: an index below the camera
    count is stored and names a camera; any other index is refused and the
    renderer keeps the camera it had selected. *)
Theorem override_cam_selects_existing (num : Z) (r : renderer) :
  0 <= num ->
  (num < count (cameras (scene r)) ->
     exists r' cam,
       cr_renderer_set_num_pref PTR cr_renderer_override_cam num r = Ok (true, r')
       /\ selected_camera (prefs r') = num
       /\ item_at (cameras (scene r')) (selected_camera (prefs r')) = Some cam)
  /\ (count (cameras (scene r)) <= num ->
      cr_renderer_set_num_pref PTR cr_renderer_override_cam num r = Ok (false, r)).
Proof.
  intros Hnum. simpl. split; intros Hcmp.
  - destruct (Z.eqb_spec (count (cameras (scene r))) 0) as [H0 | _]; [lia |].
    destruct (Z.geb_spec num (count (cameras (scene r)))); [lia |].
    destruct (item_at (cameras (scene r)) num) as [cam |] eqn:Hcam.
    + exists (set_prefs r (set_selected_camera (prefs r) num)), cam.
      split; [reflexivity |]. split; [reflexivity | exact Hcam].
    + apply item_at_None in Hcam. lia.
  - destruct (Z.eqb_spec (count (cameras (scene r))) 0); [reflexivity |].
    destruct (Z.geb_spec num (count (cameras (scene r)))); [reflexivity | lia].
Qed.

(** ** Stopping *)

Lemma set_s_twice (r : renderer) (a b : render_state) :
  set_state (set_state r (set_s (state r) a))
    (set_s (state (set_state r (set_s (state r) a))) b)
  = set_state r (set_s (state r) b).
Proof. reflexivity. Qed.

Lemma stop_wait_exiting (k : nat) (rest : list render_state) (r : renderer) :
  iterative (prefs r) = true ->
  stop_wait (replicate k r_exiting ++ rest) r
  = match k with
    | O => stop_wait rest r
    | S _ => stop_wait rest (set_state r (set_s (state r) r_exiting))
    end.
Proof.
  intros Hit. revert r Hit. induction k as [| k IH]; intros r Hit; [reflexivity |].
  cbn [replicate app stop_wait]. rewrite Hit.
  destruct (decide (r_exiting = r_exiting)) as [_ | Hne]; [| congruence].
  rewrite IH by exact Hit. destruct k; reflexivity.
Qed.

(** X4: [cr_renderer_stop] sets the run state to [r_exiting].  On a
    renderer that is not iterative it returns after its one sleep, whatever
    the render thread does.  On an iterative renderer it returns at the
    first look that finds the run state changed, with that run state, and
    it stays in its loop as long as every look finds [r_exiting].  Nothing
    but the run state is written. *)
Theorem stop_waits_for_the_render_thread (r : renderer)
    (seen : list render_state) :
  (iterative (prefs r) = false ->
     cr_renderer_stop PTR seen r = Ok (set_state r (set_s (state r) r_exiting)))
  /\ (iterative (prefs r) = true ->
      forall k st rest,
        seen = replicate k r_exiting ++ st :: rest -> st <> r_exiting ->
        cr_renderer_stop PTR seen r = Ok (set_state r (set_s (state r) st)))
  /\ (iterative (prefs r) = true ->
      Forall (fun st => st = r_exiting) seen ->
      cr_renderer_stop PTR seen r = Spin).
Proof.
  unfold cr_renderer_stop. split; [| split].
  - intros Hit. destruct seen; simpl; by rewrite Hit.
  - intros Hit k st rest -> Hst.
    rewrite stop_wait_exiting by exact Hit.
    assert (forall r0 : renderer,
              iterative (prefs r0) = true ->
              stop_wait (st :: rest) r0 = Ok (set_state r0 (set_s (state r0) st)))
      as Hlast.
    { intros r0 H0. cbn [stop_wait]. rewrite H0.
      destruct (decide (st = r_exiting)); [contradiction | reflexivity]. }
    destruct k; rewrite Hlast by exact Hit; reflexivity.
  - intros Hit Hall.
    assert (seen = replicate (length seen) r_exiting) as ->.
    { symmetry. apply replicate_as_Forall. split; [reflexivity |].
      eapply Forall_impl; [exact Hall |]. intros st Hst. by symmetry. }
    rewrite <- (app_nil_r (replicate _ _)).
    rewrite stop_wait_exiting by exact Hit.
    destruct (length seen); simpl; by rewrite Hit.
Qed.

(** ** Growing the scene *)

Lemma item_at_arr_add_old {T : Type} (items : list T) (v x : T) (idx : Z) :
  item_at items idx = Some x -> item_at (snd (arr_add items v)) idx = Some x.
Proof.
  unfold item_at, arr_add. simpl.
  destruct (idx <? 0); [discriminate |].
  intros Hx. by apply lookup_app_l_Some.
Qed.

Lemma item_at_arr_add_new {T : Type} (items : list T) (v : T) :
  item_at (snd (arr_add items v)) (fst (arr_add items v)) = Some v.
Proof.
  unfold item_at, arr_add, count. simpl.
  destruct (Z.ltb_spec (Z.of_nat (length items)) 0); [lia |].
  rewrite Nat2Z.id. by apply list_lookup_middle.
Qed.

Lemma count_arr_add {T : Type} (items : list T) (v : T) :
  count (snd (arr_add items v)) = count items + 1.
Proof. unfold arr_add, count. simpl. rewrite length_app. simpl. lia. Qed.

Lemma count_snoc {T : Type} (items : list T) (v : T) :
  count (items ++ [v]) = count items + 1.
Proof. apply count_arr_add. Qed.

Definition totals_of (w : world) : cr_scene_totals :=
  {| total_meshes := count (meshes w);
     total_spheres := count (spheres w);
     total_instances := count (instances w);
     total_cameras := count (cameras w) |}.

(** X5: the five operations that add to the scene hand out the next free
    index of their array, the new element sits at that index, every
    element added before keeps its index (a handle stays valid), and
    [cr_get_scene_totals] counts one more of that kind and the same of the
    others. *)
Theorem adding_keeps_handles (w : world) :
  (forall rad, exists w',
     cr_scene_add_sphere PTR rad w = Ok (count (spheres w), w')
     /\ item_at (spheres w') (count (spheres w)) = Some {| radius := rad |}
     /\ (forall idx x, item_at (spheres w) idx = Some x ->
                       item_at (spheres w') idx = Some x)
     /\ cr_get_scene_totals PTR w'
        = Ok ({| total_meshes := count (meshes w);
                 total_spheres := count (spheres w) + 1;
                 total_instances := count (instances w);
                 total_cameras := count (cameras w) |}, w'))
  /\ (forall nm, exists w' m,
        cr_scene_mesh_new PTR nm w = Ok (count (meshes w), w')
        /\ item_at (meshes w') (count (meshes w)) = Some m
        /\ vbuf m = empty_vertex_buffer /\ polygons m = [] /\ mesh_bvh m = None
        /\ (forall idx x, item_at (meshes w) idx = Some x ->
                          item_at (meshes w') idx = Some x)
        /\ cr_get_scene_totals PTR w'
           = Ok ({| total_meshes := count (meshes w) + 1;
                    total_spheres := count (spheres w);
                    total_instances := count (instances w);
                    total_cameras := count (cameras w) |}, w'))
  /\ (exists w',
        cr_camera_new PTR w = Ok (count (cameras w), w')
        /\ item_at (cameras w') (count (cameras w)) = Some default_camera
        /\ (forall idx x, item_at (cameras w) idx = Some x ->
                          item_at (cameras w') idx = Some x)
        /\ cr_get_scene_totals PTR w'
           = Ok ({| total_meshes := count (meshes w);
                    total_spheres := count (spheres w);
                    total_instances := count (instances w);
                    total_cameras := count (cameras w) + 1 |}, w'))
  /\ (exists w',
        cr_scene_new_material_set PTR w = Ok (count (shader_buffers w), w')
        /\ item_at (shader_buffers w') (count (shader_buffers w))
           = Some {| descriptions := []; bsdfs := [] |}
        /\ (forall idx x, item_at (shader_buffers w) idx = Some x ->
                          item_at (shader_buffers w') idx = Some x)
        /\ cr_get_scene_totals PTR w' = Ok (totals_of w, w'))
  /\ (forall object kind, exists w',
        cr_instance_new PTR object
          (match kind with cr_object_mesh => 0 | cr_object_sphere => 1 end) w
        = Ok (count (instances w), w')
        /\ (forall idx x, item_at (instances w) idx = Some x ->
                          item_at (instances w') idx = Some x)
        /\ cr_get_scene_totals PTR w'
           = Ok ({| total_meshes := count (meshes w);
                    total_spheres := count (spheres w);
                    total_instances := count (instances w) + 1;
                    total_cameras := count (cameras w) |}, w')).
Proof.
  split; [| split; [| split; [| split]]].
  - intros rad. eexists. split; [reflexivity |].
    split; [apply (item_at_arr_add_new (spheres w)) |].
    split; [intros idx x; apply (item_at_arr_add_old (spheres w)) |].
    unfold cr_get_scene_totals. cbn [spheres set_spheres meshes instances cameras].
    by rewrite count_snoc.
  - intros nm. eexists _, _. split; [reflexivity |].
    split; [apply (item_at_arr_add_new (meshes w)) |].
    split; [reflexivity |]. split; [reflexivity |]. split; [reflexivity |].
    split; [intros idx x; apply (item_at_arr_add_old (meshes w)) |].
    unfold cr_get_scene_totals. cbn [spheres set_meshes meshes instances cameras].
    by rewrite count_snoc.
  - eexists. split; [reflexivity |].
    split; [apply (item_at_arr_add_new (cameras w)) |].
    split; [intros idx x; apply (item_at_arr_add_old (cameras w)) |].
    unfold cr_get_scene_totals. cbn [spheres set_cameras meshes instances cameras].
    by rewrite count_snoc.
  - eexists. split; [reflexivity |].
    split; [apply (item_at_arr_add_new (shader_buffers w)) |].
    split; [intros idx x; apply (item_at_arr_add_old (shader_buffers w)) |].
    reflexivity.
  - intros object kind. destruct kind; simpl; eexists;
      (split; [reflexivity |]);
      (split; [intros idx x; apply (item_at_arr_add_old (instances w)) |]);
      unfold cr_get_scene_totals;
      cbn [spheres set_instances meshes instances cameras set_top_level_dirty];
      by rewrite count_snoc.
Qed.

(** ** Looking a mesh up by name *)

Lemma find_mesh_first (ms : list mesh) (k : Z) (nm : option string) :
  (find_mesh ms k nm = -1
   /\ Forall (fun m => stringEquals (name m) nm = false) ms)
  \/ (exists (i : nat) (m : mesh),
        find_mesh ms k nm = k + Z.of_nat i
        /\ ms !! i = Some m
        /\ stringEquals (name m) nm = true
        /\ forall (j : nat) (m' : mesh),
             (j < i)%nat -> ms !! j = Some m' ->
             stringEquals (name m') nm = false).
Proof.
  revert k. induction ms as [| m ms IH]; intros k; simpl.
  - left. split; [reflexivity | apply Forall_nil_2].
  - destruct (stringEquals (name m) nm) eqn:Hm.
    + right. exists 0%nat, m. split; [lia |]. split; [reflexivity |].
      split; [exact Hm |]. intros j m' Hj. lia.
    + destruct (IH (k + 1)) as [[Hnone Hall] | (i & m1 & Hres & Hi & Hm1 & Hbefore)].
      * left. split; [exact Hnone | by apply Forall_cons].
      * right. exists (S i), m1. split; [lia |]. split; [exact Hi |].
        split; [exact Hm1 |]. intros [| j] m' Hj Hlook.
        -- simpl in Hlook. by injection Hlook as <-.
        -- apply (Hbefore j m'); [lia | exact Hlook].
Qed.

(** X6: [cr_scene_get_mesh] with a name returns the index of the first
    mesh whose name [stringEquals] accepts, so of two meshes of one name
    the one created first is found; it returns -1 exactly when
    [stringEquals] accepts no mesh of the scene.  The scene is only read. *)
Theorem get_mesh_finds_first (w : world) (nm : string) :
  exists idx,
    cr_scene_get_mesh PTR (Some nm) w = Ok (idx, w)
    /\ ((idx = -1
         /\ Forall (fun m => stringEquals (name m) (Some nm) = false) (meshes w))
        \/ (exists m,
              0 <= idx
              /\ item_at (meshes w) idx = Some m
              /\ stringEquals (name m) (Some nm) = true
              /\ forall j m', 0 <= j < idx -> item_at (meshes w) j = Some m' ->
                              stringEquals (name m') (Some nm) = false)).
Proof.
  eexists. split; [reflexivity |].
  destruct (find_mesh_first (meshes w) 0 (Some nm))
    as [[Hnone Hall] | (i & m & Hres & Hi & Hm & Hbefore)].
  - left. split; assumption.
  - right. exists m. rewrite Hres, Z.add_0_l. split; [lia |].
    split; [rewrite item_at_nat; exact Hi |].
    split; [exact Hm |]. intros j m' Hj Hlook.
    apply (Hbefore (Z.to_nat j) m'); [lia |].
    unfold item_at in Hlook. destruct (Z.ltb_spec j 0); [lia | exact Hlook].
Qed.

(** ** Finalizing a mesh *)

(** X7: [cr_mesh_finalize] on a valid mesh builds nothing itself: it
    queues a build that carries a copy of the mesh as it is at that moment
    and leaves the scene otherwise alone.  The queued build works from
    that copy: when the vertex buffer of the mesh is rebound before the
    build runs, the build still installs the BVH of the geometry that was
    finalized, on a mesh that now holds the new buffer. *)
Theorem finalize_builds_from_snapshot (w : world) (idx : Z) (m : mesh) :
  count (meshes w) <= SIZE_MAX ->
  item_at (meshes w) idx = Some m ->
  exists w1,
    cr_mesh_finalize PTR idx w = Ok w1
    /\ w1 = set_bg_worker w
              (bg_worker w ++ [{| bt_mesh := m; bt_mesh_idx := idx |}])
    /\ forall (vs ns : list vector) (ts : list coord) (b : bvh),
         build_mesh_bvh m = Some b ->
         exists w2 w3 m3,
           cr_mesh_bind_vertex_buf PTR idx
             {| vertices_p := Some vs; vertex_count := count vs;
                normals_p := Some ns; normal_count := count ns;
                tex_coords_p := Some ts; tex_coord_count := count ts |} w1
           = Ok w2
           /\ bg_worker w2 = bg_worker w1
           /\ bvh_build_task {| bt_mesh := m; bt_mesh_idx := idx |} w2 = Ok w3
           /\ item_at (meshes w3) idx = Some m3
           /\ vbuf m3 = {| vertices := vs; normals := ns; texture_coords := ts |}
           /\ mesh_bvh m3 = Some b.
Proof.
  intros Hc Hm. pose proof (item_at_Some _ _ _ Hm) as Hidx.
  eexists. split.
  { unfold cr_mesh_finalize.
    rewrite (past_last_inside _ _ _ Hc Hm), Hm.
    rewrite to_size_t_small by lia. reflexivity. }
  split; [reflexivity |].
  intros vs ns ts b Hb.
  pose (new := {| vertices := vs; normals := ns; texture_coords := ts |}).
  assert (item_at (item_set (meshes w) idx (set_vbuf m new)) idx
          = Some (set_vbuf m new)) as Hm2 by (by eapply item_at_item_set).
  eexists _, _, _. split.
  { apply (bind_vertex_buf_replaces _ idx m vs ns ts); [exact Hc | exact Hm]. }
  split; [reflexivity |]. split.
  { unfold bvh_build_task. cbn [bt_mesh bt_mesh_idx meshes set_meshes set_bg_worker].
    rewrite Hb. fold new. rewrite Hm2. reflexivity. }
  split; [cbn [meshes set_meshes]; by eapply item_at_item_set |].
  split; reflexivity.
Qed.

(** ** Binding a material set *)

(** X8: on a scene with instances and material sets,
    [cr_instance_bind_material_set] succeeds exactly when both indices are
    inside their arrays; it then stores the material-set index in that
    instance and changes nothing else of the instance or the scene.  When
    either index is outside, it returns [false] and the scene is as
    before. *)
Theorem bind_material_set_checks_both (w : world) (idx set : Z) :
  0 < count (instances w) <= INT64_MAX ->
  0 < count (shader_buffers w) <= INT64_MAX ->
  is_int64 idx -> is_int64 set ->
  (forall i buf,
     item_at (instances w) idx = Some i ->
     item_at (shader_buffers w) set = Some buf ->
     cr_instance_bind_material_set PTR idx set w
     = Ok (true,
           set_instances w
             (item_set (instances w) idx
                {| object_idx := object_idx i; object_kind := object_kind i;
                   composite := composite i; bbuf_idx := set |})))
  /\ (item_at (instances w) idx = None \/ item_at (shader_buffers w) set = None ->
      cr_instance_bind_material_set PTR idx set w = Ok (false, w)).
Proof.
  intros Hci Hcb Hidx Hset. unfold cr_instance_bind_material_set. split.
  - intros i buf Hi Hbuf.
    rewrite (past_last_inside _ _ i) by (unfold_limits; lia || exact Hi).
    rewrite (past_last_inside _ _ buf) by (unfold_limits; lia || exact Hbuf).
    by rewrite Hi.
  - intros [Hi | Hbuf].
    + by rewrite (past_last_outside _ _ Hci Hidx Hi).
    + rewrite (past_last_outside _ _ Hcb Hset Hbuf).
      by destruct (past_last idx (instances w)).
Qed.

(** ** Setting a transform *)

(** X9: after [cr_instance_set_transform] on a valid instance the forward
    matrix of the instance is the matrix of the call, whatever was
    composed into it before, and the object and material-set binding of
    the instance are kept; a second call with the same matrix changes
    nothing at all. *)
Theorem set_transform_is_idempotent (w : world) (idx : Z) (i : instance)
    (m : float4x4) :
  count (instances w) <= SIZE_MAX ->
  item_at (instances w) idx = Some i ->
  exists w1 i1,
    cr_instance_set_transform PTR idx m w = Ok w1
    /\ item_at (instances w1) idx = Some i1
    /\ A (composite i1) = m
    /\ object_idx i1 = object_idx i
    /\ object_kind i1 = object_kind i
    /\ bbuf_idx i1 = bbuf_idx i
    /\ cr_instance_set_transform PTR idx m w1 = Ok w1.
Proof.
  intros Hc Hi. destruct (decide (A (composite i) = m)) as [Hsame | Hnew].
  - exists w, i. rewrite (instance_set_transform_same w idx i m Hc Hi Hsame).
    repeat split; try reflexivity; assumption.
  - eexists _, _.
    split; [apply (instance_set_transform_new w idx i m Hc Hi Hnew) |].
    assert (item_at
              (item_set (instances w) idx
                 (set_composite i {| A := m; Ainv := mat_invert m |})) idx
            = Some (set_composite i {| A := m; Ainv := mat_invert m |}))
      as Hi1 by (by eapply item_at_item_set).
    split; [exact Hi1 |].
    split; [reflexivity |]. split; [reflexivity |]. split; [reflexivity |].
    split; [reflexivity |].
    eapply instance_set_transform_same;
      [cbn [instances set_instances set_top_level_dirty];
       by rewrite count_item_set
      | exact Hi1 | reflexivity].
Qed.

(** ** Indices outside a non-empty array *)

(** X10: once an array of the scene holds an element, every operation that
    takes an index into it stops an index outside it: the scene is
    returned as it is, with [false], -1 or 0.0 where the operation has a
    result. *)
Theorem out_of_range_is_refused (w : world) (idx : Z) :
  is_int64 idx ->
  (0 < count (meshes w) <= INT64_MAX ->
   item_at (meshes w) idx = None ->
   (forall buf, cr_mesh_bind_vertex_buf PTR idx buf w = Ok w)
   /\ (forall fs n, cr_mesh_bind_faces PTR idx fs n w = Ok w)
   /\ cr_mesh_finalize PTR idx w = Ok w)
  /\ (0 < count (instances w) <= INT64_MAX ->
      item_at (instances w) idx = None ->
      (forall m, cr_instance_set_transform PTR idx m w = Ok w)
      /\ (forall m, cr_instance_transform PTR idx m w = Ok w)
      /\ (forall set, cr_instance_bind_material_set PTR idx set w = Ok (false, w)))
  /\ (0 < count (cameras w) <= INT64_MAX ->
      item_at (cameras w) idx = None ->
      (forall p num, cr_camera_set_num_pref PTR idx p num w = Ok (false, w))
      /\ (forall p, cr_camera_get_num_pref PTR idx p w = Ok (d_0, w))
      /\ cr_camera_update PTR idx w = Ok (false, w))
  /\ (0 < count (shader_buffers w) <= INT64_MAX ->
      item_at (shader_buffers w) idx = None ->
      (forall desc, cr_material_set_add PTR idx desc w = Ok (-1, w))
      /\ (forall mat desc, cr_material_update PTR idx mat desc w = Ok w)).
Proof.
  intros Hidx. split; [| split; [| split]]; intros Hc Hnone;
    pose proof (past_last_outside _ _ Hc Hidx Hnone) as Hguard.
  - unfold cr_mesh_bind_vertex_buf, cr_mesh_bind_faces, cr_mesh_finalize.
    rewrite Hguard. split; [reflexivity |]. split; [| reflexivity].
    intros [fs |] n; reflexivity.
  - unfold cr_instance_set_transform, cr_instance_transform,
      cr_instance_bind_material_set.
    rewrite Hguard. repeat split; reflexivity.
  - unfold cr_camera_set_num_pref, cr_camera_get_num_pref, cr_camera_update.
    rewrite Hguard. destruct (idx <? 0); repeat split; reflexivity.
  - unfold cr_material_set_add, cr_material_update.
    rewrite Hguard. repeat split; reflexivity.
Qed.

(** ** A worker for every thread *)

(** X11: the loops over [prefs.threads] assume a worker for each local
    thread.  On a renderer with fewer workers than threads, as it is
    before the first render has created them, [cr_renderer_toggle_pause]
    indexes outside the worker array; so does an interactive restart,
    whether or not the resolution changed, before it has replaced the
    result buffer or the tile set. *)
Theorem fewer_workers_than_threads (obs : list observation) (r : renderer)
    (buf : texture) (set : tile_set) :
  count (workers (state r)) < threads (prefs r) ->
  cr_renderer_toggle_pause PTR r = UB
  /\ (iterative (prefs r) = true ->
      0 < count (workers (state r)) ->
      result_buf (state r) = Some buf ->
      current_set (state r) = Some set ->
      is_Some (item_at (cameras (scene r)) (selected_camera (prefs r))) ->
      fst (cr_renderer_restart_interactive PTR obs r) = UB
      /\ quiet (snd (cr_renderer_restart_interactive PTR obs r))).
Proof.
  intros Hfew. split; [by apply toggle_pause_too_few_workers |].
  intros Hit Hws Hbuf Hset [cam Hcam].
  unfold cr_renderer_restart_interactive.
  rewrite Hit, Hbuf, Hset, Hcam. cbn [negb].
  destruct (Z.eqb_spec (count (workers (state r))) 0) as [H0 | _]; [lia |].
  destruct (resolution_differs buf cam).
  - unfold resize_result_buf.
    rewrite !rbind_result, !rbind_trace. cbn [say fst snd].
    unfold toggle_pause_in_restart.
    rewrite !rbind_result, !rbind_trace. cbn [say quietly fst snd].
    rewrite toggle_pause_too_few_workers by exact Hfew.
    split; [reflexivity |].
    repeat (apply Forall_cons; split; [reflexivity |]). apply Forall_nil_2.
  - unfold restart_pass.
    cbn [state set_state current_set result_buf set_finishedPasses].
    rewrite Hbuf, Hset.
    rewrite !rbind_result, !rbind_trace. cbn [say quietly fst snd].
    cbn [state set_state workers set_result_buf set_current_set
         set_finishedPasses prefs].
    assert (for_workers reset_samples (Z.to_nat (threads (prefs r))) 0
              (workers (state r)) = UB) as Hub.
    { unfold count in Hfew. change 0 with (Z.of_nat 0).
      apply for_workers_short; lia. }
    rewrite Hub. simpl.
    split; [reflexivity |].
    repeat (apply Forall_cons; split; [reflexivity |]). apply Forall_nil_2.
Qed.

(** ** Camera parameters *)

(** What [cr_camera_get_num_pref] returns for a parameter after
    [cr_camera_set_num_pref] stored [num] in it: the number as narrowed to
    the [float] or [int] field and widened again, and 1.0 for the
    coordinate-convention switch. *)
Definition camera_stored (p : cr_camera_param) (num : double) : double :=
  match p with
  | cr_camera_res_x | cr_camera_res_y => int_to_double (double_to_int num)
  | cr_camera_blender_coord => d_1
  | _ => float_to_double (double_to_float num)
  end.

Lemma camera_read_assign (cam : camera) (p : cr_camera_param) (num : double) :
  camera_read (camera_assign cam p num) p = camera_stored p num.
Proof. destruct p; reflexivity. Qed.

Lemma camera_read_assign_other (cam : camera) (p q : cr_camera_param)
    (num : double) :
  p <> q -> camera_read (camera_assign cam p num) q = camera_read cam q.
Proof. intros Hpq. destruct p, q; try reflexivity; congruence. Qed.

Lemma camera_set_ok (w : world) (c p : Z) (cam : camera)
    (param : cr_camera_param) (num : double) :
  count (cameras w) <= SIZE_MAX ->
  item_at (cameras w) c = Some cam ->
  cr_camera_param_of_Z p = Some param ->
  cr_camera_set_num_pref PTR c p num w
  = Ok (true, set_cameras w (item_set (cameras w) c (camera_assign cam param num))).
Proof.
  intros Hc Hcam Hp. pose proof (item_at_Some _ _ _ Hcam) as Hr.
  unfold cr_camera_set_num_pref.
  destruct (Z.ltb_spec c 0); [lia |].
  by rewrite (past_last_inside _ _ _ Hc Hcam), Hcam, Hp.
Qed.

Lemma camera_get_ok (w : world) (c p : Z) (cam : camera)
    (param : cr_camera_param) :
  count (cameras w) <= SIZE_MAX ->
  item_at (cameras w) c = Some cam ->
  cr_camera_param_of_Z p = Some param ->
  cr_camera_get_num_pref PTR c p w = Ok (camera_read cam param, w).
Proof.
  intros Hc Hcam Hp. pose proof (item_at_Some _ _ _ Hcam) as Hr.
  unfold cr_camera_get_num_pref.
  destruct (Z.ltb_spec c 0); [lia |].
  by rewrite (past_last_inside _ _ _ Hc Hcam), Hcam, Hp.
Qed.

(** X12: every one of the thirteen camera parameters reads back what was
    written: after [cr_camera_set_num_pref] on a valid camera,
    [cr_camera_get_num_pref] for the same parameter returns the number
    through the conversion to the field's type ([float], or [int] for the
    resolution), and 1.0 for [cr_camera_blender_coord]. *)
Theorem camera_pref_round_trip (w : world) (c p : Z) (cam : camera)
    (param : cr_camera_param) (num : double) :
  count (cameras w) <= SIZE_MAX ->
  item_at (cameras w) c = Some cam ->
  cr_camera_param_of_Z p = Some param ->
  exists w',
    cr_camera_set_num_pref PTR c p num w = Ok (true, w')
    /\ cr_camera_get_num_pref PTR c p w' = Ok (camera_stored param num, w').
Proof.
  intros Hc Hcam Hp. eexists.
  split; [apply (camera_set_ok w c p cam param num Hc Hcam Hp) |].
  rewrite (camera_get_ok _ c p (camera_assign cam param num) param);
    [ by rewrite camera_read_assign
    | cbn [cameras set_cameras]; by rewrite count_item_set
    | cbn [cameras set_cameras]; by eapply item_at_item_set
    | exact Hp ].
Qed.

(** X13: setting one camera parameter disturbs no other: the other twelve
    parameters of that camera read as before, every other camera is the
    camera it was, and nothing of the scene but the camera array is
    written. *)
Theorem camera_pref_is_independent (w : world) (c p : Z) (cam : camera)
    (param : cr_camera_param) (num : double) :
  count (cameras w) <= SIZE_MAX ->
  item_at (cameras w) c = Some cam ->
  cr_camera_param_of_Z p = Some param ->
  exists w',
    cr_camera_set_num_pref PTR c p num w = Ok (true, w')
    /\ (forall q other,
          cr_camera_param_of_Z q = Some other -> other <> param ->
          exists v,
            cr_camera_get_num_pref PTR c q w = Ok (v, w)
            /\ cr_camera_get_num_pref PTR c q w' = Ok (v, w'))
    /\ (forall c', c' <> c -> item_at (cameras w') c' = item_at (cameras w) c')
    /\ w' = set_cameras w (cameras w').
Proof.
  intros Hc Hcam Hp. pose proof (item_at_Some _ _ _ Hcam) as Hr. eexists.
  split; [apply (camera_set_ok w c p cam param num Hc Hcam Hp) |].
  split; [| split; [| reflexivity]].
  - intros q other Hq Hne. exists (camera_read cam other).
    split; [apply (camera_get_ok w c q cam other Hc Hcam Hq) |].
    rewrite (camera_get_ok _ c q (camera_assign cam param num) other);
      [ by rewrite camera_read_assign_other by congruence
      | cbn [cameras set_cameras]; by rewrite count_item_set
      | cbn [cameras set_cameras]; by eapply item_at_item_set
      | exact Hq ].
  - intros c' Hc'. cbn [cameras set_cameras].
    apply item_at_item_set_other; [lia | congruence].
Qed.

(** ** Material sets *)






(** ** Rendering without workers *)

(** [cr_renderer_render] on a renderer with no local threads and no
    network client does not start a render: without a node list the
    renderer is returned as it is, and with a node list that yields no
    client only the (empty) client list is stored.  With a thread to
    render on, the renderer is handed to [renderer_render]. *)
Lemma render_needs_a_worker (r : renderer) :
  (threads (prefs r) = 0 -> node_list (prefs r) = None ->
   clients (state r) = [] ->
   cr_renderer_render PTR r = Ok r)
  /\ (forall nodes,
        threads (prefs r) = 0 -> node_list (prefs r) = Some nodes ->
        clients_sync r = [] ->
        cr_renderer_render PTR r = Ok (set_state r (set_clients (state r) [])))
  /\ (threads (prefs r) <> 0 -> node_list (prefs r) = None ->
      cr_renderer_render PTR r = Ok (renderer_render r)).
Proof.
  unfold cr_renderer_render. split; [| split].
  - intros Ht Hn Hc. by rewrite Hn, Hc, Ht.
  - intros nodes Ht Hn Hc. rewrite Hn, Hc. simpl. by rewrite Ht.
  - intros Ht Hn. rewrite Hn.
    destruct (Z.eqb_spec (threads (prefs r)) 0) as [H0 | _]; [contradiction |].
    by rewrite andb_false_r.
Qed.

(** ** Restarting a renderer that cannot be restarted *)

(** X15: [cr_renderer_restart_interactive] does nothing at all, to the
    renderer or to the memory it shares with the render threads, when the
    renderer is not iterative, has no worker, has no result buffer or has
    no tile set. *)
Theorem restart_misuse_is_a_no_op (obs : list observation) (r : renderer) :
  iterative (prefs r) = false
  \/ workers (state r) = []
  \/ result_buf (state r) = None
  \/ current_set (state r) = None ->
  cr_renderer_restart_interactive PTR obs r = (Ok r, []).
Proof.
  unfold cr_renderer_restart_interactive.
  intros [Hit | [Hws | [Hbuf | Hset]]].
  - by rewrite Hit.
  - rewrite Hws. by destruct (negb (iterative (prefs r))).
  - rewrite Hbuf. destruct (negb (iterative (prefs r))); [reflexivity |].
    by destruct (count (workers (state r)) =? 0).
  - rewrite Hset. destruct (negb (iterative (prefs r))); [reflexivity |].
    destruct (count (workers (state r)) =? 0); [reflexivity |].
    by destruct (result_buf (state r)).
Qed.

(** ** What the waiting loops leave alone *)

(** [r'] is [r] but for the two cells the render threads write: the run
    state and the [in_pause_loop] flags. *)
Definition same_but_observed (r r' : renderer) : Prop :=
  prefs r' = prefs r
  /\ scene r' = scene r
  /\ callbacks (state r') = callbacks (state r)
  /\ result_buf (state r') = result_buf (state r)
  /\ current_set (state r') = current_set (state r)
  /\ finishedPasses (state r') = finishedPasses (state r)
  /\ clients (state r') = clients (state r)
  /\ paused <$> workers (state r') = paused <$> workers (state r)
  /\ totalSamples <$> workers (state r') = totalSamples <$> workers (state r).

Lemma same_but_observed_refl (r : renderer) : same_but_observed r r.
Proof. repeat split; reflexivity. Qed.

Lemma same_but_observed_trans (r1 r2 r3 : renderer) :
  same_but_observed r1 r2 -> same_but_observed r2 r3 -> same_but_observed r1 r3.
Proof.
  intros (?&?&?&?&?&?&?&?&?) (?&?&?&?&?&?&?&?&?).
  repeat split; congruence.
Qed.

Lemma fmap_item_set_same {T U : Type} (f : T -> U) (items : list T) (i : Z)
    (x x' : T) :
  item_at items i = Some x -> f x' = f x ->
  f <$> item_set items i x' = f <$> items.
Proof.
  intros Hx Hf. unfold item_at in Hx. destruct (i <? 0); [discriminate |].
  unfold item_set. rewrite list_fmap_insert, Hf.
  apply list_insert_id. by rewrite list_lookup_fmap, Hx.
Qed.

Lemma await_preserves (obs : list observation) (i : Z) (r r' : renderer)
    (b : bool) :
  fst (await_pause obs i r) = Ok (b, r') -> same_but_observed r r'.
Proof.
  revert i r. induction obs as [| o obs IH]; intros i r.
  - rewrite await_pause_nil.
    destruct (i <? count (workers (state r))); [discriminate |].
    intros [= _ <-]. apply same_but_observed_refl.
  - rewrite await_pause_cons.
    destruct (i <? count (workers (state r)));
      [| intros [= _ <-]; apply same_but_observed_refl ].
    destruct (item_at (workers (state r)) i) as [wk |] eqn:Hwk; [| discriminate].
    cbv zeta. rewrite rbind_result. cbn [say fst].
    assert (same_but_observed r
              (set_state r
                 (set_workers (state r)
                    (item_set (workers (state r)) i
                       (set_in_pause_loop wk (seen_in_pause_loop o))))))
      as Hstep.
    { repeat split; cbn [state set_state workers set_workers];
        by apply (fmap_item_set_same _ _ _ wk). }
    destruct (seen_in_pause_loop o).
    + intros Hres. eapply same_but_observed_trans; [exact Hstep |].
      by eapply IH.
    + rewrite !rbind_result. cbn [say fst].
      destruct (decide (seen_state o = r_rendering)).
      * intros Hres. eapply same_but_observed_trans; [exact Hstep |].
        eapply same_but_observed_trans; [| by eapply IH].
        repeat split; reflexivity.
      * intros [= _ <-]. eapply same_but_observed_trans; [exact Hstep |].
        repeat split; reflexivity.
Qed.

(** The loops give up only on a look that found the renderer no longer
    rendering. *)
Lemma await_bails_when_stopped (obs : list observation) (i : Z)
    (r r' : renderer) :
  fst (await_pause obs i r) = Ok (false, r') -> s (state r') <> r_rendering.
Proof.
  revert i r. induction obs as [| o obs IH]; intros i r.
  - rewrite await_pause_nil.
    destruct (i <? count (workers (state r))); discriminate.
  - rewrite await_pause_cons.
    destruct (i <? count (workers (state r))); [| discriminate].
    destruct (item_at (workers (state r)) i) as [wk |]; [| discriminate].
    cbv zeta. rewrite rbind_result. cbn [say fst].
    destruct (seen_in_pause_loop o); [apply IH |].
    rewrite !rbind_result. cbn [say fst].
    destruct (decide (seen_state o = r_rendering)); [apply IH |].
    intros [= <-]. exact n.
Qed.

Lemma toggle_pause_inv (r r2 : renderer) :
  cr_renderer_toggle_pause PTR r = Ok r2 ->
  threads (prefs r) <= count (workers (state r))
  /\ r2 = set_state r
            (set_workers (state r)
               (on_first flip_paused (Z.to_nat (threads (prefs r)))
                  (workers (state r)))).
Proof.
  intros Hok.
  destruct (Z_le_gt_dec (threads (prefs r)) (count (workers (state r))))
    as [Hle | Hgt].
  - split; [exact Hle |]. rewrite toggle_pause_ok in Hok by exact Hle. congruence.
  - rewrite toggle_pause_too_few_workers in Hok by lia. discriminate.
Qed.

Lemma paused_toggle_back (n : nat) (ws ws' : list worker) :
  paused <$> ws' = paused <$> on_first flip_paused n ws ->
  paused <$> on_first flip_paused n ws' = paused <$> ws.
Proof.
  intros Heq. apply list_eq. intros i.
  apply (f_equal (fun l => l !! i)) in Heq.
  rewrite !list_lookup_fmap, !on_first_lookup in *.
  destruct (decide (i < n)%nat); [| exact Heq].
  destruct (ws !! i) as [w |], (ws' !! i) as [w' |];
    simpl in *; try congruence.
  injection Heq as Heq. unfold flip_paused in *. simpl in *.
  rewrite Heq. by rewrite negb_involutive.
Qed.

Lemma samples_on_first_flip (n : nat) (ws : list worker) :
  totalSamples <$> on_first flip_paused n ws = totalSamples <$> ws.
Proof.
  apply list_eq. intros i. rewrite !list_lookup_fmap, on_first_lookup.
  destruct (decide (i < n)%nat); [| reflexivity]. by destruct (ws !! i).
Qed.

(** ** A restart that bails out *)

Lemma rbind_Ok_inv {T U : Type} (m : run T) (k : T -> run U) (b : U)
    (t : list event) :
  rbind m k = (Ok b, t) ->
  exists a t1 t2, m = (Ok a, t1) /\ k a = (Ok b, t2) /\ t = t1 ++ t2.
Proof.
  destruct m as [[a | | |] t1]; simpl; try discriminate.
  destruct (k a) as [o t2] eqn:Hk. intros [= -> <-]. by exists a, t1, t2.
Qed.

Lemma rbind_say_inv {U : Type} (e : event) (k : unit -> run U) (b : U)
    (t : list event) :
  rbind (say e) k = (Ok b, t) ->
  exists t2, k tt = (Ok b, t2) /\ t = e :: t2.
Proof.
  intros H. apply rbind_Ok_inv in H as (a & t1 & t2 & Hsay & Hk & ->).
  unfold say in Hsay. injection Hsay as <- <-. by exists t2.
Qed.

Lemma toggle_in_restart_inv (r r2 : renderer) (t : list event) :
  toggle_pause_in_restart r = (Ok r2, t) ->
  cr_renderer_toggle_pause PTR r = Ok r2 /\ t = [ev_toggle_pause].
Proof.
  unfold toggle_pause_in_restart. intros H.
  apply rbind_say_inv in H as (t2 & Hq & ->).
  unfold quietly in Hq. apply pair_equal_spec in Hq as [Hq <-]. by split.
Qed.

(** The renderer with the optics of its selected camera recomputed: the
    first thing the resize does. *)
Definition recomputed (r : renderer) (cam : camera) : renderer :=
  set_scene r
    (set_cameras (scene r)
       (item_set (cameras (scene r)) (selected_camera (prefs r))
          (cam_recompute_optics cam))).

(** X16: a restart at a changed resolution that returns without a
    structural mutation in its trace has bailed out of the wait, and it did
    so on seeing the renderer no longer rendering.  It has then given every
    worker its pause flag back and left the result buffer, the tile set,
    the pass and sample counters and the preferences as they were; of the
    scene it has only recomputed the optics of the selected camera. *)
Theorem restart_bail_out_restores (obs : list observation) (r r' : renderer)
    (buf : texture) (set : tile_set) (cam : camera) (t : list event) :
  iterative (prefs r) = true ->
  0 < count (workers (state r)) ->
  result_buf (state r) = Some buf ->
  current_set (state r) = Some set ->
  item_at (cameras (scene r)) (selected_camera (prefs r)) = Some cam ->
  resolution_differs buf cam = true ->
  cr_renderer_restart_interactive PTR obs r = (Ok r', t) ->
  quiet t ->
  s (state r') <> r_rendering
  /\ paused <$> workers (state r') = paused <$> workers (state r)
  /\ totalSamples <$> workers (state r') = totalSamples <$> workers (state r)
  /\ result_buf (state r') = Some buf
  /\ current_set (state r') = Some set
  /\ finishedPasses (state r') = finishedPasses (state r)
  /\ prefs r' = prefs r
  /\ scene r' = scene (recomputed r cam).
Proof.
  intros Hit Hws Hbuf Hset Hcam Hdiff Hrun Hq.
  unfold cr_renderer_restart_interactive in Hrun.
  rewrite Hit, Hbuf, Hset, Hcam, Hdiff in Hrun. cbn [negb] in Hrun.
  destruct (Z.eqb_spec (count (workers (state r))) 0) as [H0 | _]; [lia |].
  apply rbind_Ok_inv in Hrun as ([b r6] & t1 & t2 & Hresize & Hrest & ->).
  unfold resize_result_buf in Hresize. fold (recomputed r cam) in Hresize.
  apply rbind_say_inv in Hresize as (ta & Hresize & ->).
  apply rbind_say_inv in Hresize as (tb & Hresize & ->).
  apply rbind_Ok_inv in Hresize as (r2 & tc & td & Htoggle1 & Hresize & ->).
  apply rbind_Ok_inv in Hresize as ([acked r3] & te & tf & Hwait & Hresize & ->).
  apply toggle_in_restart_inv in Htoggle1 as [Htoggle1 ->].
  cbv zeta in Hresize. cbn [fst snd] in Hresize.
  destruct acked.
  { (* the wait ran to its end: the buffer is destroyed next *)
    apply rbind_say_inv in Hresize as (th & _ & ->).
    exfalso.
    unfold quiet in Hq.
    repeat (rewrite Forall_app in Hq || rewrite Forall_cons in Hq).
    cbn [structural] in Hq.
    repeat match type of Hq with
           | _ /\ _ => let H := fresh "Hq" in destruct Hq as [H Hq]
           end;
    repeat match goal with
           | H : _ /\ _ |- _ => destruct H
           end;
    discriminate. }
  apply rbind_Ok_inv in Hresize as (r4 & th & ti & Htoggle2 & Hret & ->).
  injection Hret as <- <- <-.
  apply toggle_in_restart_inv in Htoggle2 as [Htoggle2 ->].
  cbn [fst snd] in Hrest. injection Hrest as <- <-.
  apply toggle_pause_inv in Htoggle1 as [Hle1 ->].
  apply toggle_pause_inv in Htoggle2 as [Hle2 ->].
  pose proof (await_bails_when_stopped obs 0 _ r3 (f_equal fst Hwait)) as Hstopped.
  pose proof (await_preserves obs 0 _ r3 false (f_equal fst Hwait))
    as (Hp & Hsc & _ & Hrb & Hcs & Hfp & _ & Hpa & Hts).
  cbn [prefs state scene set_state set_workers workers result_buf current_set
       finishedPasses recomputed set_scene s]
    in Hstopped, Hp, Hsc, Hrb, Hcs, Hfp, Hpa, Hts, Hle1, Hle2 |- *.
  split; [exact Hstopped |].
  split; [rewrite Hp; by apply paused_toggle_back |].
  split; [by rewrite samples_on_first_flip, Hts, samples_on_first_flip |].
  split; [congruence |]. split; [congruence |]. split; [exact Hfp |].
  split; [exact Hp | exact Hsc].
Qed.

(** ** A restart that completes *)

(** What the controlling thread reads of one worker that parks after [k]
    looks that found it running and the renderer rendering. *)
Definition looks (k : nat) : list observation :=
  replicate k {| seen_in_pause_loop := false; seen_state := r_rendering |}
  ++ [ {| seen_in_pause_loop := true; seen_state := r_rendering |} ].

Lemma await_pause_done (obs : list observation) (i : Z) (r : renderer) :
  count (workers (state r)) <= i ->
  await_pause obs i r = (Ok (true, r), []).
Proof.
  intros Hge. destruct obs; [rewrite await_pause_nil | rewrite await_pause_cons];
    by destruct (Z.ltb_spec i (count (workers (state r)))); [lia |].
Qed.

Lemma await_looks (k : nat) (rest : list observation) (i : Z) (r : renderer) :
  0 <= i < count (workers (state r)) ->
  exists r1,
    count (workers (state r1)) = count (workers (state r))
    /\ fst (await_pause (looks k ++ rest) i r)
       = fst (await_pause rest (i + 1) r1).
Proof.
  revert r. induction k as [| k IH]; intros r Hi; unfold looks;
    cbn [replicate app]; rewrite await_pause_cons;
    (destruct (Z.ltb_spec i (count (workers (state r)))); [| lia]);
    (destruct (item_at (workers (state r)) i) as [wk |] eqn:Hwk;
       [| apply item_at_None in Hwk; lia]);
    cbv zeta; cbn [seen_in_pause_loop seen_state];
    rewrite !rbind_result; cbn [say fst].
  - eexists. split; [| reflexivity].
    cbn [state set_state workers set_workers]. apply count_item_set.
  - destruct (decide (r_rendering = r_rendering)) as [_ | Hne]; [| congruence].
    edestruct IH as (r1 & Hcount & Hfst); [| exists r1; split; [| exact Hfst]].
    + cbn [state set_state workers set_workers set_s].
      rewrite count_item_set. exact Hi.
    + rewrite Hcount. cbn [state set_state workers set_workers set_s].
      apply count_item_set.
Qed.

Lemma await_completes (ks : list nat) (rest : list observation) (i : Z)
    (r : renderer) :
  0 <= i ->
  i + Z.of_nat (length ks) = count (workers (state r)) ->
  exists r', fst (await_pause (concat (looks <$> ks) ++ rest) i r) = Ok (true, r').
Proof.
  revert i r. induction ks as [| k ks IH]; intros i r Hi Hlen; simpl in Hlen.
  - exists r. simpl. rewrite await_pause_done by lia. reflexivity.
  - cbn [fmap list_fmap concat]. rewrite <- app_assoc.
    destruct (await_looks k (concat (looks <$> ks) ++ rest) i r)
      as (r1 & Hcount & ->); [lia |].
    apply IH; lia.
Qed.

(** X17: when every worker is seen parked, each after any number of looks
    during which the renderer kept rendering, a restart at a changed
    resolution returns.  Afterwards the result buffer is a fresh buffer of
    the camera's resolution, cleared; the tile set holds the tiles
    [tile_quantize] makes for that resolution, none of them finished; the
    pass counter is 1; the workers have their pause flags back, and those
    of the local threads a sample counter of zero. *)
Theorem restart_resize_completes (ks : list nat) (rest : list observation)
    (r : renderer) (buf : texture) (set : tile_set) (cam : camera) :
  iterative (prefs r) = true ->
  0 < count (workers (state r)) ->
  threads (prefs r) <= count (workers (state r)) ->
  result_buf (state r) = Some buf ->
  current_set (state r) = Some set ->
  item_at (cameras (scene r)) (selected_camera (prefs r)) = Some cam ->
  resolution_differs buf cam = true ->
  length ks = length (workers (state r)) ->
  exists r',
    fst (cr_renderer_restart_interactive PTR (concat (looks <$> ks) ++ rest) r)
    = Ok r'
    /\ result_buf (state r')
       = Some (tex_clear
                 (tex_new float_p (cam_width (cam_recompute_optics cam))
                    (cam_height (cam_recompute_optics cam)) 4))
    /\ current_set (state r')
       = Some {| tiles := tile_quantize (cam_width (cam_recompute_optics cam))
                            (cam_height (cam_recompute_optics cam))
                            (tileWidth (prefs r)) (tileHeight (prefs r))
                            (tileOrder (prefs r));
                 finished := 0 |}
    /\ finishedPasses (state r') = 1
    /\ paused <$> workers (state r') = paused <$> workers (state r)
    /\ totalSamples <$> workers (state r')
       = totalSamples
           <$> on_first reset_samples (Z.to_nat (threads (prefs r)))
                 (workers (state r))
    /\ prefs r' = prefs r
    /\ scene r' = update_toplevel_bvh (scene (recomputed r cam)).
Proof.
  intros Hit Hws Hth Hbuf Hset Hcam Hdiff Hks.
  set (obs := concat (looks <$> ks) ++ rest).
  set (n := Z.to_nat (threads (prefs r))).
  (* the first toggle *)
  pose proof (toggle_pause_ok (recomputed r cam) Hth) as Ht1.
  cbn [recomputed prefs state set_scene] in Ht1. fold (recomputed r cam) in Ht1.
  fold n in Ht1.
  set (r2 := set_state (recomputed r cam)
               (set_workers (state r) (on_first flip_paused n (workers (state r)))))
    in *.
  (* the wait *)
  destruct (await_completes ks rest 0 r2) as (r3 & Hwait); [lia | |].
  { cbn [r2 state set_state workers set_workers]. unfold count in *.
    rewrite on_first_length. lia. }
  fold obs in Hwait.
  pose proof (await_preserves obs 0 r2 r3 true Hwait)
    as (Hp & Hsc & _ & _ & Hcs & Hfp & _ & Hpa & Hts).
  cbn [r2 prefs state scene set_state set_workers workers current_set
       finishedPasses recomputed set_scene] in Hp, Hsc, Hcs, Hfp, Hpa, Hts.
  assert (length (workers (state r3)) = length (workers (state r))) as Hlen3.
  { apply (f_equal length) in Hpa.
    by rewrite !length_fmap, on_first_length in Hpa. }
  (* the second toggle *)
  set (new_buf := tex_new float_p (cam_width (cam_recompute_optics cam))
                    (cam_height (cam_recompute_optics cam)) 4).
  set (new_set := {| tiles := tile_quantize (cam_width (cam_recompute_optics cam))
                                (cam_height (cam_recompute_optics cam))
                                (tileWidth (prefs r)) (tileHeight (prefs r))
                                (tileOrder (prefs r));
                     finished := 0 |}).
  set (r5 := set_state (set_state r3 (set_result_buf (state r3) (Some new_buf)))
               (set_current_set (set_result_buf (state r3) (Some new_buf))
                  (Some new_set))).
  assert (cr_renderer_toggle_pause PTR r5
          = Ok (set_state r5
                  (set_workers (state r5)
                     (on_first flip_paused n (workers (state r3))))))
    as Ht2.
  { rewrite toggle_pause_ok;
      cbn [r5 prefs state set_state workers set_result_buf set_current_set];
      rewrite Hp; [reflexivity | unfold count in *; lia]. }
  set (r6 := set_state r5
               (set_workers (state r5)
                  (on_first flip_paused n (workers (state r3))))) in *.
  (* the resize as a whole *)
  assert (fst (resize_result_buf obs r cam) = Ok (true, r6)) as Hresize.
  { unfold resize_result_buf. fold (recomputed r cam).
    rewrite !rbind_result. cbn [say fst].
    unfold toggle_pause_in_restart at 1.
    rewrite !rbind_result. cbn [say quietly fst]. rewrite Ht1.
    rewrite rbind_result, Hwait. cbv zeta. cbn [fst snd].
    rewrite !rbind_result. cbn [say fst].
    cbn [state set_state current_set set_result_buf prefs].
    rewrite Hcs, Hset, Hp.
    rewrite !rbind_result. cbn [say fst].
    unfold toggle_pause_in_restart.
    rewrite !rbind_result. cbn [say quietly fst].
    fold new_buf. unfold set_tiles, set_finished. cbn [tiles finished].
    fold new_set. fold r5. by rewrite Ht2. }
  (* the pass after it *)
  unfold cr_renderer_restart_interactive.
  rewrite Hit, Hbuf, Hset, Hcam, Hdiff. cbn [negb].
  destruct (Z.eqb_spec (count (workers (state r))) 0) as [H0 | _]; [lia |].
  rewrite rbind_result, Hresize. cbn [fst snd].
  unfold restart_pass.
  rewrite !rbind_result. cbn [say fst].
  cbn [r6 r5 state set_state current_set result_buf set_finishedPasses
       set_result_buf set_current_set set_workers].
  rewrite !rbind_result. cbn [say quietly fst].
  cbn [state set_state workers set_workers set_result_buf set_current_set
       set_finishedPasses prefs].
  cbn [r6 r5 prefs set_state]. rewrite Hp. fold n.
  rewrite for_workers_ok by (rewrite on_first_length; unfold n, count in *; lia).
  rewrite !rbind_result. cbn [say fst].
  eexists. split; [reflexivity |].
  cbn [state set_state set_scene result_buf current_set finishedPasses workers
       set_workers set_result_buf set_current_set set_finishedPasses prefs
       scene].
  split; [reflexivity |]. split; [reflexivity |]. split; [reflexivity |].
  assert (paused <$> on_first flip_paused n (workers (state r3))
          = paused <$> workers (state r)) as Hback
    by (by apply paused_toggle_back).
  assert (totalSamples <$> on_first flip_paused n (workers (state r3))
          = totalSamples <$> workers (state r)) as Hsame
    by (by rewrite samples_on_first_flip, Hts, samples_on_first_flip).
  cbn [r6 r5 prefs scene set_state].
  split; [| split; [| split; [exact Hp | by rewrite Hsc]]].
  - rewrite <- Hback.
    generalize (on_first flip_paused n (workers (state r3))). intros ws.
    apply list_eq. intros i.
    rewrite !list_lookup_fmap, on_first_lookup.
    destruct (decide (i < n)%nat); [| reflexivity].
    by destruct (ws !! i).
  - revert Hsame.
    generalize (on_first flip_paused n (workers (state r3))). intros ws Hsame.
    apply list_eq. intros i.
    apply (f_equal (fun l => l !! i)) in Hsame.
    rewrite !list_lookup_fmap in Hsame.
    rewrite !list_lookup_fmap, !on_first_lookup.
    destruct (decide (i < n)%nat); [| exact Hsame].
    destruct (ws !! i), (workers (state r) !! i); simpl in *; congruence.
Qed.

(** ** String preferences *)

(** X18: the asset path is the one string preference that can be read
    back: after [cr_renderer_set_str_pref] with [cr_renderer_asset_path]
    the getter returns the copy [stringCopy] made of the string, and only
    the asset path of the scene has changed.  The tile order and the node
    list are accepted and stored in the preferences, yet
    [cr_renderer_get_str_pref] answers [NULL] for them. *)
Theorem asset_path_round_trip (str : option string) (r : renderer) :
  (exists r',
     cr_renderer_set_str_pref PTR cr_renderer_asset_path str r = Ok (true, r')
     /\ cr_renderer_get_str_pref PTR cr_renderer_asset_path r'
        = Ok (stringCopy str, r')
     /\ r' = set_scene r (set_asset_path (scene r) (stringCopy str)))
  /\ (forall p, p = cr_renderer_tile_order \/ p = cr_renderer_node_list ->
      exists r',
        cr_renderer_set_str_pref PTR p str r = Ok (true, r')
        /\ cr_renderer_get_str_pref PTR p r' = Ok (None, r')
        /\ scene r' = scene r /\ state r' = state r).
Proof.
  split.
  - eexists. repeat split; reflexivity.
  - intros p [-> | ->]; eexists; repeat split; reflexivity.
Qed.

(** ** The coordinate convention *)

(** X19: the Blender coordinate convention of a scene can be switched on
    and not off again: [cr_renderer_scene_get] sets the flag of the scene
    when the [cr_renderer_blender_mode] preference is non-zero, and after
    the preference is set back to zero another [cr_renderer_scene_get]
    leaves the flag set. *)
Theorem blender_coordinates_stay_on (r : renderer) (num : Z) :
  num <> 0 ->
  exists r1 r2 r3 r4,
    cr_renderer_set_num_pref PTR cr_renderer_blender_mode num r = Ok (true, r1)
    /\ cr_renderer_scene_get PTR r1 = Ok (PTR, r2)
    /\ use_blender_coordinates (scene r2) = true
    /\ cr_renderer_set_num_pref PTR cr_renderer_blender_mode 0 r2 = Ok (true, r3)
    /\ blender_mode (prefs r3) = false
    /\ cr_renderer_scene_get PTR r3 = Ok (PTR, r4)
    /\ use_blender_coordinates (scene r4) = true.
Proof.
  intros Hnum. eexists _, _, _, _.
  split; [reflexivity |].
  split.
  { unfold cr_renderer_scene_get.
    cbn [prefs set_prefs blender_mode set_blender_mode].
    destruct (Z.eqb_spec num 0) as [H0 | _]; [contradiction | reflexivity]. }
  split; [reflexivity |]. split; [reflexivity |]. split; [reflexivity |].
  split; reflexivity.
Qed.

(** ** Binding geometry, in general *)

Lemma fill_from_prefix {T : Type} (src : list T) (n : Z) :
  0 <= n <= count src ->
  fill_from (Some src) n = Ok (take (Z.to_nat n) src).
Proof.
  intros Hn. unfold fill_from, count in *.
  destruct (Z.eqb_spec n 0) as [-> | Hne]; [reflexivity |].
  change 0 with (Z.of_nat 0). rewrite add_each_from by lia.
  by rewrite drop_0.
Qed.

(** The elements [fill_from] reads of an array argument. *)
Definition bound {T : Type} (p : option (list T)) (n : Z) : list T :=
  match p with
  | Some src => take (Z.to_nat n) src
  | None => []
  end.

Definition holds {T : Type} (p : option (list T)) (n : Z) : Prop :=
  match p with
  | Some src => 0 <= n <= count src
  | None => True
  end.

Lemma fill_from_bound {T : Type} (p : option (list T)) (n : Z) :
  holds p n -> fill_from p n = Ok (bound p n).
Proof.
  destruct p as [src |]; [| reflexivity]. apply fill_from_prefix.
Qed.

(** X20: [cr_mesh_bind_vertex_buf] on a valid mesh makes the vertex buffer
    out of the call alone: of each array its first [count] elements, and
    nothing for an array that is [NULL] or counted zero, so a call with
    [NULL] arrays empties the buffer.  What the buffer held before has no
    part in the result, and the mesh keeps its name, polygons and BVH. *)
Theorem bind_vertex_buf_is_replacement (w : world) (idx : Z) (m : mesh)
    (buf : cr_vertex_buf_param) :
  count (meshes w) <= SIZE_MAX ->
  item_at (meshes w) idx = Some m ->
  holds (vertices_p buf) (vertex_count buf) ->
  holds (normals_p buf) (normal_count buf) ->
  holds (tex_coords_p buf) (tex_coord_count buf) ->
  cr_mesh_bind_vertex_buf PTR idx buf w
  = Ok (set_meshes w
          (item_set (meshes w) idx
             {| name := name m;
                vbuf := {| vertices := bound (vertices_p buf) (vertex_count buf);
                           normals := bound (normals_p buf) (normal_count buf);
                           texture_coords :=
                             bound (tex_coords_p buf) (tex_coord_count buf) |};
                polygons := polygons m;
                mesh_bvh := mesh_bvh m |})).
Proof.
  intros Hc Hm Hv Hn Ht. unfold cr_mesh_bind_vertex_buf.
  rewrite (past_last_inside _ _ _ Hc Hm), Hm.
  by rewrite !fill_from_bound.
Qed.

(** X21: [cr_mesh_bind_faces] accumulates: binding one array of faces and
    then another leaves the mesh with the polygons that one call with the
    two arrays joined leaves it with, after the polygons it had. *)
Theorem bind_faces_accumulates (w : world) (idx : Z) (m : mesh)
    (fs1 fs2 : list cr_face) :
  count (meshes w) <= SIZE_MAX ->
  item_at (meshes w) idx = Some m ->
  exists w1 w2 m2,
    cr_mesh_bind_faces PTR idx (Some fs1) (count fs1) w = Ok w1
    /\ cr_mesh_bind_faces PTR idx (Some fs2) (count fs2) w1 = Ok w2
    /\ cr_mesh_bind_faces PTR idx (Some (fs1 ++ fs2)) (count (fs1 ++ fs2)) w
       = Ok w2
    /\ item_at (meshes w2) idx = Some m2
    /\ polygons m2 = polygons m ++ fs1 ++ fs2.
Proof.
  intros Hc Hm.
  assert (item_at (item_set (meshes w) idx (set_polygons m (polygons m ++ fs1))) idx
          = Some (set_polygons m (polygons m ++ fs1))) as Hm1
    by (by eapply item_at_item_set).
  eexists _, _, _.
  split; [apply (bind_faces_appends w idx m fs1 Hc Hm) |].
  split.
  { apply bind_faces_appends;
      [cbn [meshes set_meshes]; by rewrite count_item_set | exact Hm1]. }
  split.
  { rewrite (bind_faces_appends w idx m (fs1 ++ fs2) Hc Hm).
    cbn [meshes set_meshes polygons set_polygons].
    unfold set_meshes, set_polygons, item_set. cbn.
    rewrite list_insert_insert_eq. by rewrite app_assoc. }
  split; [cbn [meshes set_meshes]; by eapply item_at_item_set |].
  cbn. by rewrite app_assoc.
Qed.

(** ** An interactive start without threads *)

(** X22: [cr_renderer_start_interactive] on a renderer with no local
    thread makes the renderer iterative and starts nothing.  A restart is
    then a no-op unless workers exist, and [cr_renderer_stop] waits for a
    render thread to take the run state off [r_exiting]: as long as every
    look finds the state it wrote itself, it does not return. *)
Theorem interactive_start_without_threads (r : renderer) :
  threads (prefs r) = 0 ->
  exists r1,
    cr_renderer_start_interactive PTR r = Ok r1
    /\ r1 = set_prefs r (set_iterative (prefs r) true)
    /\ (workers (state r) = [] ->
        forall obs, cr_renderer_restart_interactive PTR obs r1 = (Ok r1, []))
    /\ (forall k, cr_renderer_stop PTR (replicate k r_exiting) r1 = Spin).
Proof.
  intros Ht. eexists. split.
  { unfold cr_renderer_start_interactive.
    cbn [prefs set_prefs threads set_iterative]. rewrite Ht. reflexivity. }
  split; [reflexivity |]. split.
  - intros Hws obs. unfold cr_renderer_restart_interactive.
    cbn [prefs set_prefs iterative set_iterative negb state]. by rewrite Hws.
  - intros k. unfold cr_renderer_stop.
    rewrite <- (app_nil_r (replicate k r_exiting)).
    rewrite stop_wait_exiting by reflexivity.
    by destruct k.
Qed.

End Renderer.

(** * A concrete renderer

    Stand-ins for the collaborators, and a small renderer: two local render
    threads and one network worker, a 2x2 result buffer, one mesh without
    geometry, one instance. *)

Module Sample.

Definition build_mesh_bvh (m : @mesh Z) : option Z :=
  match polygons m with
  | [] => None
  | _ :: _ => Some (count (polygons m))
  end.

Definition row_mul (x : row4) (m : matrix4x4) : row4 :=
  {| c0 := c0 x * c0 (r0 m) + c1 x * c0 (r1 m) + c2 x * c0 (r2 m) + c3 x * c0 (r3 m);
     c1 := c0 x * c1 (r0 m) + c1 x * c1 (r1 m) + c2 x * c1 (r2 m) + c3 x * c1 (r3 m);
     c2 := c0 x * c2 (r0 m) + c1 x * c2 (r1 m) + c2 x * c2 (r2 m) + c3 x * c2 (r3 m);
     c3 := c0 x * c3 (r0 m) + c1 x * c3 (r1 m) + c2 x * c3 (r2 m) + c3 x * c3 (r3 m) |}.

(** Product and transpose of integer matrices stand in for [mat_mul] and
    [mat_invert]. *)
Definition mat_mul (a b : matrix4x4) : matrix4x4 :=
  {| r0 := row_mul (r0 a) b; r1 := row_mul (r1 a) b;
     r2 := row_mul (r2 a) b; r3 := row_mul (r3 a) b |}.

Definition mat_invert (a : matrix4x4) : matrix4x4 :=
  {| r0 := {| c0 := c0 (r0 a); c1 := c0 (r1 a); c2 := c0 (r2 a); c3 := c0 (r3 a) |};
     r1 := {| c0 := c1 (r0 a); c1 := c1 (r1 a); c2 := c1 (r2 a); c3 := c1 (r3 a) |};
     r2 := {| c0 := c2 (r0 a); c1 := c2 (r1 a); c2 := c2 (r2 a); c3 := c2 (r3 a) |};
     r3 := {| c0 := c3 (r0 a); c1 := c3 (r1 a); c2 := c3 (r2 a); c3 := c3 (r3 a) |} |}.

Definition row (a b c d : Z) : row4 := {| c0 := a; c1 := b; c2 := c; c3 := d |}.

Definition identity : matrix4x4 :=
  {| r0 := row 1 0 0 0; r1 := row 0 1 0 0; r2 := row 0 0 1 0; r3 := row 0 0 0 1 |}.

Definition shear : matrix4x4 :=
  {| r0 := row 1 2 0 0; r1 := row 0 1 0 0; r2 := row 0 0 1 0; r3 := row 0 0 0 1 |}.

Definition scale : matrix4x4 :=
  {| r0 := row 3 0 0 0; r1 := row 0 1 0 0; r2 := row 0 0 1 0; r3 := row 0 0 0 1 |}.

Definition new_mesh_instance (ms : list (@mesh Z)) (object : Z) : instance :=
  {| object_idx := object; object_kind := cr_object_mesh;
     composite := {| A := identity; Ainv := identity |}; bbuf_idx := 0 |}.

Definition new_sphere_instance (ss : list sphere) (object : Z) : instance :=
  {| object_idx := object; object_kind := cr_object_sphere;
     composite := {| A := identity; Ainv := identity |}; bbuf_idx := 0 |}.

Definition tex_new (p : precision) (w h c : Z) : texture :=
  {| tex_width := w; tex_height := h; tex_channels := c;
     tex_data := replicate (Z.to_nat (w * h * c)) 0 |}.

Definition tex_clear (t : texture) : texture :=
  {| tex_width := tex_width t; tex_height := tex_height t;
     tex_channels := tex_channels t;
     tex_data := replicate (length (tex_data t)) 0 |}.

(** One tile for the whole frame. *)
Definition tile_quantize (w h tw th : Z) (order : render_order)
    : list render_tile :=
  [ {| tile_w := w; tile_h := h; start_x := 0; start_y := 0;
       end_x := w; end_y := h; tile_state := cr_tile_ready_to_render;
       network_renderer := false; tile_index := 0;
       total_samples := 0; completed_samples := 0 |} ].

(** Modelled from the spec: [update_toplevel_bvh] (datatypes/scene.c is not
    among the sources): the top-level structure is rebuilt, not patched,
    when the scene is marked dirty. *)
Definition update_toplevel_bvh (w : @world Z unit unit unit) : world :=
  if top_level_dirty w
  then
    {| meshes := meshes w; spheres := spheres w; instances := instances w;
       cameras := cameras w; shader_buffers := shader_buffers w;
       top_level_dirty := false; topLevel := Some (count (instances w));
       background := background w; bg_desc := bg_desc w;
       asset_path := asset_path w;
       use_blender_coordinates := use_blender_coordinates w;
       storage := storage w; bg_worker := bg_worker w |}
  else w.

Definition cam_recompute_optics (c : camera) : camera := c.

Definition old_face : cr_face :=
  {| vertex_idx := [0; 1; 2]; normal_idx := [0; 0; 0];
     texture_idx := [0; 0; 0]; mat_idx := 0; has_normals := false |}.

Definition new_face : cr_face :=
  {| vertex_idx := [2; 1; 3]; normal_idx := [0; 0; 0];
     texture_idx := [0; 0; 0]; mat_idx := 1; has_normals := false |}.

Definition bare_mesh : @mesh Z :=
  {| name := Some "floor"%string; vbuf := empty_vertex_buffer;
     polygons := []; mesh_bvh := None |}.

Definition bound_mesh : @mesh Z :=
  {| name := Some "floor"%string; vbuf := empty_vertex_buffer;
     polygons := [old_face]; mesh_bvh := None |}.

Definition camera_2x2 : camera :=
  set_cam_height (set_cam_width default_camera 2) 2.

Definition empty_scene : @world Z unit unit unit :=
  {| meshes := []; spheres := []; instances := []; cameras := [];
     shader_buffers := []; top_level_dirty := false; topLevel := None;
     background := None; bg_desc := None; asset_path := None;
     use_blender_coordinates := false; storage := tt; bg_worker := [] |}.

(** A scene between two passes: the top-level structure is fresh. *)
Definition floor_scene : @world Z unit unit unit :=
  {| meshes := [bound_mesh]; spheres := [];
     instances := [new_mesh_instance [bound_mesh] 0];
     cameras := [camera_2x2];
     shader_buffers := []; top_level_dirty := false; topLevel := Some 1;
     background := None; bg_desc := None; asset_path := None;
     use_blender_coordinates := false; storage := tt; bg_worker := [] |}.

Definition local_worker : worker :=
  {| paused := false; in_pause_loop := false; totalSamples := 40 |}.
Definition network_worker : worker :=
  {| paused := false; in_pause_loop := false; totalSamples := 5 |}.

Definition no_callback : callback := {| fn := None; user_data := None |}.

Definition two_threads : prefs_t :=
  {| threads := 2; sampleCount := 16; bounces := 30;
     tileWidth := 32; tileHeight := 32; tileOrder := ro_normal;
     override_width := 0; override_height := 0; selected_camera := 0;
     iterative := true; blender_mode := false; node_list := None |}.

Definition buffer_2x2 : texture :=
  {| tex_width := 2; tex_height := 2; tex_channels := 4;
     tex_data := replicate 16 1 |}.

Definition buffer_4x2 : texture :=
  {| tex_width := 4; tex_height := 2; tex_channels := 4;
     tex_data := replicate 32 1 |}.

Definition state_with (buf : texture) : @state_t unit :=
  {| s := r_rendering;
     callbacks := replicate 5 no_callback;
     workers := [local_worker; local_worker; network_worker];
     result_buf := Some buf;
     current_set := Some {| tiles := tile_quantize (tex_width buf) (tex_height buf)
                                       32 32 ro_normal;
                            finished := 1 |};
     finishedPasses := 7;
     clients := [tt] |}.

(** The camera and the result buffer agree on 2x2. *)
Definition steady : @renderer Z unit unit unit unit :=
  {| prefs := two_threads; state := state_with buffer_2x2;
     scene := floor_scene |}.

(** [steady] before a render has created its workers. *)
Definition not_started : @renderer Z unit unit unit unit :=
  {| prefs := two_threads;
     state := {| s := r_idle; callbacks := replicate 5 no_callback;
                 workers := []; result_buf := None; current_set := None;
                 finishedPasses := 0; clients := [] |};
     scene := floor_scene |}.

(** The result buffer was allocated at 4x2 and the camera is now 2x2. *)
Definition resized : @renderer Z unit unit unit unit :=
  {| prefs := two_threads; state := state_with buffer_4x2;
     scene := floor_scene |}.

(** What the controlling thread reads while it waits: the first worker is
    seen parked at the second look, the other two at the first. *)
Definition observations : list observation :=
  [ {| seen_in_pause_loop := false; seen_state := r_rendering |};
    {| seen_in_pause_loop := true; seen_state := r_rendering |};
    {| seen_in_pause_loop := true; seen_state := r_rendering |};
    {| seen_in_pause_loop := true; seen_state := r_rendering |} ].

Definition restart (obs : list observation)
    (r : @renderer Z unit unit unit unit) :=
  cr_renderer_restart_interactive cam_recompute_optics tex_new tex_clear
    tile_quantize update_toplevel_bvh PTR obs r.

End Sample.

(** * The properties on the concrete renderer *)

(** ** Runs of the interactive restart *)

(** A restart after the camera went from 4x2 to 2x2: the three workers are
    seen parked, then the buffer and the tiles are replaced. *)
Example resize_trace :
  snd (Sample.restart Sample.observations Sample.resized)
  = [ev_cam_recompute_optics; ev_log_resize; ev_toggle_pause;
     ev_read_in_pause_loop 0 false; ev_sleep; ev_read_state r_rendering;
     ev_read_in_pause_loop 0 true; ev_read_in_pause_loop 1 true;
     ev_read_in_pause_loop 2 true;
     ev_tex_destroy; ev_tex_new 2 2; ev_tile_quantize; ev_mutex_lock;
     ev_tiles_free; ev_tiles_install; ev_reset_finished; ev_mutex_release;
     ev_toggle_pause;
     ev_set_finishedPasses; ev_mutex_lock; ev_tex_clear; ev_reset_finished;
     ev_reset_samples; ev_update_toplevel_bvh; ev_thread_pool_wait;
     ev_mutex_release].
Proof. vm_compute. reflexivity. Qed.

(** The same restart when the first worker never parks and the renderer
    stops: the call bails out and has replaced nothing. *)
Example resize_bail_out_trace :
  Sample.restart
    [ {| seen_in_pause_loop := false; seen_state := r_exiting |} ]
    Sample.resized
  = (Ok (set_state Sample.resized
           (set_s (state Sample.resized) r_exiting)),
     [ev_cam_recompute_optics; ev_log_resize; ev_toggle_pause;
      ev_read_in_pause_loop 0 false; ev_sleep; ev_read_state r_exiting;
      ev_toggle_pause]).
Proof. vm_compute. reflexivity. Qed.

(** While a worker is not parked and the renderer keeps rendering, the call
    is still in its loop. *)
Example resize_still_waiting :
  fst (Sample.restart (take 1 Sample.observations) Sample.resized) = Spin.
Proof. vm_compute. reflexivity. Qed.

Lemma restart_mutates_after_acks_witness :
  In ev_tex_destroy (snd (Sample.restart Sample.observations Sample.resized))
  /\ acked_before_mutation (count (workers (state Sample.resized)))
       (snd (Sample.restart Sample.observations Sample.resized)).
Proof.
  split.
  - rewrite resize_trace. simpl. tauto.
  - unfold Sample.restart.
    eapply (restart_mutates_after_acks Sample.cam_recompute_optics
              Sample.tex_new Sample.tex_clear Sample.tile_quantize
              Sample.update_toplevel_bvh Sample.observations Sample.resized);
      reflexivity.
Defined.

Lemma restart_same_resolution_witness :
  exists r',
    Sample.restart [] Sample.steady
    = (Ok r',
       [ev_set_finishedPasses; ev_mutex_lock; ev_tex_clear; ev_reset_finished;
        ev_reset_samples; ev_update_toplevel_bvh; ev_thread_pool_wait;
        ev_mutex_release])
    /\ prefs r' = prefs Sample.steady
    /\ scene r' = Sample.update_toplevel_bvh (scene Sample.steady)
    /\ finishedPasses (state r') = 1
    /\ totalSamples <$> workers (state r') = [0; 0; 5].
Proof.
  eexists. split.
  - unfold Sample.restart.
    apply (restart_same_resolution Sample.cam_recompute_optics
             Sample.tex_new Sample.tex_clear Sample.tile_quantize
             Sample.update_toplevel_bvh [] Sample.steady
             Sample.buffer_2x2
             {| tiles := Sample.tile_quantize 2 2 32 32 ro_normal;
                finished := 1 |}
             Sample.camera_2x2);
      first [reflexivity | vm_compute; discriminate].
  - repeat split; reflexivity.
Defined.

(** The claim C4 as it stands fails on [Sample.steady], whose camera and
    result buffer agree: the restart overwrites [finishedPasses], a field
    that is none of the four the claim lists (7 before, 1 after), and it
    leaves the sample counter of the network worker at 5. *)
Lemma restart_overwrites_finished_passes :
  iterative (prefs Sample.steady) = true
  /\ count (workers (state Sample.steady)) = 3
  /\ result_buf (state Sample.steady) = Some Sample.buffer_2x2
  /\ item_at (cameras (scene Sample.steady))
       (selected_camera (prefs Sample.steady)) = Some Sample.camera_2x2
  /\ resolution_differs Sample.buffer_2x2 Sample.camera_2x2 = false
  /\ finishedPasses (state Sample.steady) = 7
  /\ exists r',
       fst (Sample.restart [] Sample.steady) = Ok r'
       /\ finishedPasses (state r') = 1
       /\ totalSamples <$> workers (state Sample.steady) = [40; 40; 5]
       /\ totalSamples <$> workers (state r') = [0; 0; 5].
Proof.
  do 6 (split; [reflexivity |]).
  eexists. split; [vm_compute; reflexivity |].
  repeat split; reflexivity.
Qed.

(** ** Pause *)

Lemma toggle_pause_twice_witness :
  exists r1,
    cr_renderer_toggle_pause PTR Sample.steady = Ok r1
    /\ cr_renderer_toggle_pause PTR r1 = Ok Sample.steady
    /\ paused <$> workers (state r1) = [true; true; false].
Proof.
  destruct (toggle_pause_twice Sample.steady) as (r1 & H1 & H2 & _).
  - vm_compute. discriminate.
  - exists r1. split; [exact H1 |]. split; [exact H2 |].
    vm_compute in H1. injection H1 as <-. reflexivity.
Defined.

(** The claim C9 as it stands fails on [Sample.not_started], a renderer of
    two local threads whose workers do not exist yet: the first call
    already indexes [workers.items] outside the (empty) array, and no
    second call gives the renderer back. *)
Lemma toggle_pause_before_workers_exist :
  threads (prefs Sample.not_started) = 2
  /\ workers (state Sample.not_started) = []
  /\ cr_renderer_toggle_pause PTR Sample.not_started = UB
  /\ (let* r1 := cr_renderer_toggle_pause PTR Sample.not_started in
      cr_renderer_toggle_pause PTR r1) = UB.
Proof. repeat split; reflexivity. Qed.

(** ** BVH builds *)

Lemma bvh_build_failure_keeps_scene_witness :
  Sample.build_mesh_bvh Sample.bare_mesh = None
  /\ bvh_build_task Sample.build_mesh_bvh
       {| bt_mesh := Sample.bare_mesh; bt_mesh_idx := 0 |} Sample.floor_scene
     = Ok Sample.floor_scene
  /\ background_build Sample.build_mesh_bvh
       {| bt_mesh := Sample.bare_mesh; bt_mesh_idx := 0 |} Sample.steady
     = Ok Sample.steady.
Proof.
  split; [reflexivity |].
  destruct (bvh_build_failure_keeps_scene (render_client := unit)
              Sample.build_mesh_bvh
              {| bt_mesh := Sample.bare_mesh; bt_mesh_idx := 0 |}
              Sample.floor_scene)
    as [(w' & Hrun & -> & _) Hrender]; [reflexivity |].
  split; [exact Hrun | apply Hrender; reflexivity].
Defined.

(** A build that succeeds, for contrast: the mesh gets its BVH. *)
Example bvh_build_success_sample :
  exists w',
    bvh_build_task Sample.build_mesh_bvh
      {| bt_mesh := Sample.bound_mesh; bt_mesh_idx := 0 |} Sample.floor_scene
    = Ok w'
    /\ (mesh_bvh <$> item_at (meshes w') 0) = Some (Some 1).
Proof. eexists. split; [vm_compute; reflexivity | reflexivity]. Qed.

(** ** Instances *)

Lemma instance_transform_twice_witness :
  exists w1 w2 i2,
    cr_instance_transform Sample.mat_mul Sample.mat_invert PTR 0
      Sample.shear Sample.floor_scene = Ok w1
    /\ cr_instance_transform Sample.mat_mul Sample.mat_invert PTR 0
         Sample.scale w1 = Ok w2
    /\ item_at (instances w2) 0 = Some i2
    /\ A (composite i2)
       = Sample.mat_mul (Sample.mat_mul Sample.identity Sample.shear)
           Sample.scale
    /\ top_level_dirty w1 = true
    /\ top_level_dirty w2 = true.
Proof.
  destruct (instance_transform_twice Sample.mat_mul Sample.mat_invert
              Sample.floor_scene 0
              (Sample.new_mesh_instance [Sample.bound_mesh] 0)
              Sample.shear Sample.scale)
    as (w1 & w2 & i1 & i2 & H1 & H2 & _ & _ & _ & Hi2 & HA & _ & Hd1 & Hd2 & _).
  - vm_compute. discriminate.
  - reflexivity.
  - exists w1, w2, i2. repeat split; assumption.
Defined.

(** The composition is not the second matrix alone. *)
Example shear_then_scale :
  Sample.mat_mul (Sample.mat_mul Sample.identity Sample.shear) Sample.scale
  = {| r0 := Sample.row 3 2 0 0; r1 := Sample.row 0 1 0 0;
       r2 := Sample.row 0 0 1 0; r3 := Sample.row 0 0 0 1 |}.
Proof. reflexivity. Qed.

Lemma instance_mutations_mark_dirty_witness :
  (exists w',
     cr_instance_new Sample.new_mesh_instance Sample.new_sphere_instance
       PTR 0 1 Sample.empty_scene = Ok (0, w')
     /\ top_level_dirty w' = true /\ topLevel w' = None)
  /\ (exists new_idx w',
        cr_instance_new Sample.new_mesh_instance Sample.new_sphere_instance
          PTR 0 1 Sample.floor_scene = Ok (new_idx, w')
        /\ top_level_dirty w' = true /\ topLevel w' = Some 1)
  /\ (exists w',
        cr_instance_set_transform Sample.mat_invert PTR 0 Sample.shear
          Sample.floor_scene = Ok w'
        /\ top_level_dirty w' = true /\ topLevel w' = Some 1).
Proof.
  destruct (instance_mutations_mark_dirty Sample.new_mesh_instance
              Sample.new_sphere_instance Sample.mat_mul Sample.mat_invert
              Sample.empty_scene) as (Hfirst & _ & _).
  destruct (instance_mutations_mark_dirty Sample.new_mesh_instance
              Sample.new_sphere_instance Sample.mat_mul Sample.mat_invert
              Sample.floor_scene) as (Hnew & _ & Hvalid).
  split; [| split].
  - destruct (Hfirst 0 cr_object_sphere) as (n & w0 & H0 & -> & _ & Hd0 & Ht0).
    exists w0. repeat split; assumption.
  - destruct (Hnew 0 cr_object_sphere) as (n & w1 & H1 & _ & _ & Hd1 & Ht1).
    exists n, w1. repeat split; assumption.
  - destruct (Hvalid 0 (Sample.new_mesh_instance [Sample.bound_mesh] 0)
                Sample.shear) as (_ & Hset & _);
      [vm_compute; discriminate | reflexivity |].
    destruct Hset as (w2 & H2 & Hd2 & Ht2); [vm_compute; discriminate |].
    exists w2. repeat split; assumption.
Defined.

(** The claim C7 as it stands fails for [cr_instance_set_transform] on the
    valid instance 0 of [Sample.floor_scene]: called with the forward
    matrix the instance has, it returns before it reaches the flag, which
    stays clear. *)
Lemma set_transform_same_matrix_leaves_flag :
  top_level_dirty Sample.floor_scene = false
  /\ (A <$> (composite <$> item_at (instances Sample.floor_scene) 0))
     = Some Sample.identity
  /\ exists w',
       cr_instance_set_transform Sample.mat_invert PTR 0 Sample.identity
         Sample.floor_scene = Ok w'
       /\ top_level_dirty w' = false.
Proof.
  split; [reflexivity |]. split; [reflexivity |].
  eexists. split; [vm_compute; reflexivity | reflexivity].
Qed.

(** ** Geometry *)

(** C2 at a mesh that has a polygon: [cr_mesh_bind_faces] with a one-face
    array leaves the mesh with two polygons, the old one first, where the
    replace-whole-buffer rule asks for the one face of the call. *)
Theorem bind_faces_keeps_old_polygons :
  (polygons <$> item_at (meshes Sample.floor_scene) 0)
  = Some [Sample.old_face]
  /\ exists w',
       cr_mesh_bind_faces PTR 0 (Some [Sample.new_face]) 1 Sample.floor_scene
       = Ok w'
       /\ (polygons <$> item_at (meshes w') 0)
          = Some [Sample.old_face; Sample.new_face].
Proof.
  split; [reflexivity |].
  eexists. split; [vm_compute; reflexivity | reflexivity].
Qed.

(** The sibling call does replace: *)
Example bind_vertex_buf_replaces_sample :
  exists w',
    cr_mesh_bind_vertex_buf PTR 0
      {| vertices_p := Some [vec 1 2 3]; vertex_count := 1;
         normals_p := None; normal_count := 0;
         tex_coords_p := None; tex_coord_count := 0 |}
      Sample.floor_scene = Ok w'
    /\ (vbuf <$> item_at (meshes w') 0)
       = Some {| vertices := [vec 1 2 3]; normals := [];
                 texture_coords := [] |}.
Proof. eexists. split; [vm_compute; reflexivity | reflexivity]. Qed.

(** C3 on a scene with no mesh, no instance, no camera and no material
    set: the guard [(size_t)idx > count - 1] compares with [SIZE_MAX] and
    stops no index, and each operation goes on to an element of an empty
    array instead of returning. *)
Theorem empty_scene_index_is_not_refused :
  past_last (-1) (meshes Sample.empty_scene) = false
  /\ cr_mesh_bind_vertex_buf PTR (-1)
       {| vertices_p := None; vertex_count := 0;
          normals_p := None; normal_count := 0;
          tex_coords_p := None; tex_coord_count := 0 |}
       Sample.empty_scene = UB
  /\ cr_mesh_bind_faces PTR 0 (Some [Sample.new_face]) 1 Sample.empty_scene = UB
  /\ cr_mesh_finalize PTR 0 Sample.empty_scene = UB
  /\ cr_instance_set_transform Sample.mat_invert PTR 0 Sample.identity
       Sample.empty_scene = UB
  /\ cr_instance_transform Sample.mat_mul Sample.mat_invert PTR (-1)
       Sample.identity Sample.empty_scene = UB
  /\ cr_camera_set_num_pref (fun d => d) (fun d => d) (fun v => v)
       (fun c => c) PTR 0 0 d_1 Sample.empty_scene = UB
  /\ cr_camera_update (fun c => c) (fun c => c) PTR 0 Sample.empty_scene = UB.
Proof. vm_compute. repeat split; reflexivity. Qed.

(** With one mesh in the scene the same call is stopped. *)
Example one_mesh_index_is_refused :
  cr_mesh_bind_faces PTR (-1) (Some [Sample.new_face]) 1 Sample.floor_scene
  = Ok Sample.floor_scene
  /\ cr_mesh_bind_faces PTR 1 (Some [Sample.new_face]) 1 Sample.floor_scene
     = Ok Sample.floor_scene.
Proof. vm_compute. split; reflexivity. Qed.

(** * Node descriptions and their deep copies

    [value_deepcopy], [color_deepcopy], [vector_deepcopy] and
    [shader_deepcopy] of [c-ray.c].  A value of one of the four types below
    is a pointer to a node description: [NULL], or a node with its type tag
    and the member of the [arg] union that goes with the tag.  The tags
    and members are those the sources use (node.h is not among them);
    scalars and enumerators are the [Z] of their bits, copied by
    assignment.  A copy is a fresh [calloc]ed node: what the function does
    not assign stays zero. *)

Record cr_color : Set := {
  color_r : float; color_g : float; color_b : float; color_a : float
}.

Section Nodes.

(** An element of a color ramp, copied by assignment. *)
Context {ramp_element : Type}.

Variable stringCopy : option string -> option string.

Inductive cr_value_node : Type :=
| value_NULL
| cr_vn_constant (constant : double)
| cr_vn_fresnel (IOR : cr_value_node) (normal : cr_vector_node)
| cr_vn_map_range (input_value from_max from_min to_max to_min : cr_value_node)
| cr_vn_light_path (query : Z)
| cr_vn_alpha (color : cr_color_node)
| cr_vn_vec_to_value (comp : Z) (vec : cr_vector_node)
| cr_vn_math (A B : cr_value_node) (op : Z)
| cr_vn_grayscale (color : cr_color_node)
with cr_color_node : Type :=
| color_NULL
| cr_cn_constant (constant : cr_color)
| cr_cn_image (full_path : option string) (options : Z)
| cr_cn_checkerboard (a b : cr_color_node) (scale : cr_value_node)
| cr_cn_blackbody (degrees : cr_value_node)
| cr_cn_split (node : cr_value_node)
| cr_cn_rgb (red green blue : cr_value_node)
| cr_cn_hsl (H S L : cr_value_node)
| cr_cn_hsv (H S V : cr_value_node)
| cr_cn_hsv_tform (tex : cr_color_node) (H S V f : cr_value_node)
| cr_cn_vec_to_color (vec : cr_vector_node)
| cr_cn_gradient (a b : cr_color_node)
| cr_cn_color_mix (a b : cr_color_node) (factor : cr_value_node)
| cr_cn_color_ramp (factor : cr_value_node) (color_mode interpolation : Z)
    (element_count : Z) (elements : list ramp_element)
with cr_vector_node : Type :=
| vector_NULL
| cr_vec_constant (constant : vector)
| cr_vec_normal
| cr_vec_uv
| cr_vec_vecmath (A B C : cr_vector_node) (f : cr_value_node) (op : Z)
| cr_vec_mix (A B : cr_vector_node) (factor : cr_value_node)
| cr_vec_from_color (C : cr_color_node).

Inductive cr_shader_node : Type :=
| shader_NULL
| cr_bsdf_diffuse (color : cr_color_node)
| cr_bsdf_metal (color : cr_color_node) (roughness : cr_value_node)
| cr_bsdf_glass (color : cr_color_node) (roughness IOR : cr_value_node)
| cr_bsdf_plastic (color : cr_color_node) (roughness IOR : cr_value_node)
| cr_bsdf_mix (A B : cr_shader_node) (factor : cr_value_node)
| cr_bsdf_add (A B : cr_shader_node)
| cr_bsdf_transparent (color : cr_color_node)
| cr_bsdf_emissive (color : cr_color_node) (strength : cr_value_node)
| cr_bsdf_translucent (color : cr_color_node)
| cr_bsdf_background (color : cr_color_node) (pose : cr_vector_node)
    (strength : cr_value_node).

(** [for (int i = 0; i < ct; ++i) out->elements[i] = in->elements[i];]
    into the [calloc(ct, ...)]ed array. *)
Definition copy_elements (ct : Z) (elements : list ramp_element)
    : outcome (list ramp_element) :=
  add_each elements (Z.to_nat ct) 0 [].

Fixpoint value_deepcopy (v : cr_value_node) : outcome cr_value_node :=
  match v with
  | value_NULL => Ok value_NULL
  | cr_vn_constant c => Ok (cr_vn_constant c)
  | cr_vn_fresnel IOR normal =>
    let* IOR' := value_deepcopy IOR in
    let* normal' := vector_deepcopy normal in
    Ok (cr_vn_fresnel IOR' normal')
  | cr_vn_map_range input_value from_max from_min to_max to_min =>
    let* input_value' := value_deepcopy input_value in
    let* from_max' := value_deepcopy from_max in
    let* from_min' := value_deepcopy from_min in
    let* to_max' := value_deepcopy to_max in
    let* to_min' := value_deepcopy to_min in
    Ok (cr_vn_map_range input_value' from_max' from_min' to_max' to_min')
  | cr_vn_light_path query => Ok (cr_vn_light_path query)
  | cr_vn_alpha color =>
    let* color' := color_deepcopy color in
    Ok (cr_vn_alpha color')
  | cr_vn_vec_to_value comp vec =>
    let* vec' := vector_deepcopy vec in
    Ok (cr_vn_vec_to_value comp vec')
  | cr_vn_math A B op =>
    let* A' := value_deepcopy A in
    let* B' := value_deepcopy B in
    Ok (cr_vn_math A' B' op)
  | cr_vn_grayscale color =>
    let* color' := color_deepcopy color in
    Ok (cr_vn_grayscale color')
  end
with color_deepcopy (c : cr_color_node) : outcome cr_color_node :=
  match c with
  | color_NULL => Ok color_NULL
  | cr_cn_constant k => Ok (cr_cn_constant k)
  | cr_cn_image full_path options =>
    Ok (cr_cn_image (stringCopy full_path) options)
  | cr_cn_checkerboard a b scale =>
    let* a' := color_deepcopy a in
    let* b' := color_deepcopy b in
    let* scale' := value_deepcopy scale in
    Ok (cr_cn_checkerboard a' b' scale')
  | cr_cn_blackbody degrees =>
    let* degrees' := value_deepcopy degrees in
    Ok (cr_cn_blackbody degrees')
  | cr_cn_split node =>
    let* node' := value_deepcopy node in
    Ok (cr_cn_split node')
  | cr_cn_rgb red green blue =>
    let* red' := value_deepcopy red in
    let* green' := value_deepcopy green in
    let* blue' := value_deepcopy blue in
    Ok (cr_cn_rgb red' green' blue')
  | cr_cn_hsl h s l =>
    let* h' := value_deepcopy h in
    let* s' := value_deepcopy s in
    let* l' := value_deepcopy l in
    Ok (cr_cn_hsl h' s' l')
  | cr_cn_hsv h s v =>
    let* h' := value_deepcopy h in
    let* s' := value_deepcopy s in
    let* v' := value_deepcopy v in
    Ok (cr_cn_hsv h' s' v')
  | cr_cn_hsv_tform tex h s v f =>
    let* tex' := color_deepcopy tex in
    let* h' := value_deepcopy h in
    let* s' := value_deepcopy s in
    let* v' := value_deepcopy v in
    let* f' := value_deepcopy f in
    Ok (cr_cn_hsv_tform tex' h' s' v' f')
  | cr_cn_vec_to_color vec =>
    let* vec' := vector_deepcopy vec in
    Ok (cr_cn_vec_to_color vec')
  | cr_cn_gradient a b =>
    let* a' := color_deepcopy a in
    let* b' := color_deepcopy b in
    Ok (cr_cn_gradient a' b')
  | cr_cn_color_mix a b factor =>
    let* a' := color_deepcopy a in
    let* b' := color_deepcopy b in
    let* factor' := value_deepcopy factor in
    Ok (cr_cn_color_mix a' b' factor')
  | cr_cn_color_ramp factor color_mode interpolation element_count elements =>
    let* factor' := value_deepcopy factor in
    let* elements' := copy_elements element_count elements in
    Ok (cr_cn_color_ramp factor' color_mode interpolation element_count
          elements')
  end
with vector_deepcopy (v : cr_vector_node) : outcome cr_vector_node :=
  match v with
  | vector_NULL => Ok vector_NULL
  | cr_vec_constant k => Ok (cr_vec_constant k)
  | cr_vec_normal => Ok cr_vec_normal
  | cr_vec_uv => Ok cr_vec_uv
  | cr_vec_vecmath A B C f op =>
    let* A' := vector_deepcopy A in
    let* B' := vector_deepcopy B in
    let* C' := vector_deepcopy C in
    let* f' := value_deepcopy f in
    Ok (cr_vec_vecmath A' B' C' f' op)
  | cr_vec_mix A B factor =>
    let* A' := vector_deepcopy A in
    let* B' := vector_deepcopy B in
    let* factor' := value_deepcopy factor in
    Ok (cr_vec_mix A' B' factor')
  | cr_vec_from_color _ =>
    (* no case for this tag: [default: break;] *)
    Ok (cr_vec_from_color color_NULL)
  end.

Fixpoint shader_deepcopy (n : cr_shader_node) : outcome cr_shader_node :=
  match n with
  | shader_NULL => Ok shader_NULL
  | cr_bsdf_diffuse color =>
    let* color' := color_deepcopy color in
    Ok (cr_bsdf_diffuse color')
  | cr_bsdf_metal color roughness =>
    let* color' := color_deepcopy color in
    let* roughness' := value_deepcopy roughness in
    Ok (cr_bsdf_metal color' roughness')
  | cr_bsdf_glass color roughness IOR =>
    let* color' := color_deepcopy color in
    let* roughness' := value_deepcopy roughness in
    let* IOR' := value_deepcopy IOR in
    Ok (cr_bsdf_glass color' roughness' IOR')
  | cr_bsdf_plastic color roughness IOR =>
    let* color' := color_deepcopy color in
    let* roughness' := value_deepcopy roughness in
    let* IOR' := value_deepcopy IOR in
    Ok (cr_bsdf_plastic color' roughness' IOR')
  | cr_bsdf_mix A B factor =>
    let* A' := shader_deepcopy A in
    let* B' := shader_deepcopy B in
    let* factor' := value_deepcopy factor in
    Ok (cr_bsdf_mix A' B' factor')
  | cr_bsdf_add A B =>
    let* A' := shader_deepcopy A in
    let* B' := shader_deepcopy B in
    Ok (cr_bsdf_add A' B')
  | cr_bsdf_transparent color =>
    let* color' := color_deepcopy color in
    Ok (cr_bsdf_transparent color')
  | cr_bsdf_emissive color strength =>
    let* color' := color_deepcopy color in
    let* strength' := value_deepcopy strength in
    Ok (cr_bsdf_emissive color' strength')
  | cr_bsdf_translucent color =>
    let* color' := color_deepcopy color in
    Ok (cr_bsdf_translucent color')
  | cr_bsdf_background color pose strength =>
    let* color' := color_deepcopy color in
    let* pose' := vector_deepcopy pose in
    let* strength' := value_deepcopy strength in
    Ok (cr_bsdf_background color' pose' strength')
  end.

(** ** When a copy is equal to the original *)

Scheme value_node_ind := Induction for cr_value_node Sort Prop
  with color_node_ind := Induction for cr_color_node Sort Prop
  with vector_node_ind := Induction for cr_vector_node Sort Prop.

Combined Scheme node_ind from value_node_ind, color_node_ind, vector_node_ind.

(** A description is whole when each color ramp in it holds as many
    elements as it counts, and no vector node in it is a
    [cr_vec_from_color] with a color. *)
Fixpoint value_whole (v : cr_value_node) : Prop :=
  match v with
  | value_NULL | cr_vn_constant _ | cr_vn_light_path _ => True
  | cr_vn_fresnel IOR normal => value_whole IOR /\ vector_whole normal
  | cr_vn_map_range input_value from_max from_min to_max to_min =>
    value_whole input_value /\ value_whole from_max /\ value_whole from_min
    /\ value_whole to_max /\ value_whole to_min
  | cr_vn_alpha color => color_whole color
  | cr_vn_vec_to_value _ vec => vector_whole vec
  | cr_vn_math A B _ => value_whole A /\ value_whole B
  | cr_vn_grayscale color => color_whole color
  end
with color_whole (c : cr_color_node) : Prop :=
  match c with
  | color_NULL | cr_cn_constant _ | cr_cn_image _ _ => True
  | cr_cn_checkerboard a b scale =>
    color_whole a /\ color_whole b /\ value_whole scale
  | cr_cn_blackbody degrees => value_whole degrees
  | cr_cn_split node => value_whole node
  | cr_cn_rgb x y z => value_whole x /\ value_whole y /\ value_whole z
  | cr_cn_hsl x y z => value_whole x /\ value_whole y /\ value_whole z
  | cr_cn_hsv x y z => value_whole x /\ value_whole y /\ value_whole z
  | cr_cn_hsv_tform tex x y z f =>
    color_whole tex /\ value_whole x /\ value_whole y /\ value_whole z
    /\ value_whole f
  | cr_cn_vec_to_color vec => vector_whole vec
  | cr_cn_gradient a b => color_whole a /\ color_whole b
  | cr_cn_color_mix a b factor =>
    color_whole a /\ color_whole b /\ value_whole factor
  | cr_cn_color_ramp factor _ _ element_count elements =>
    value_whole factor /\ Z.to_nat element_count = length elements
  end
with vector_whole (v : cr_vector_node) : Prop :=
  match v with
  | vector_NULL | cr_vec_constant _ | cr_vec_normal | cr_vec_uv => True
  | cr_vec_vecmath A B C f _ =>
    vector_whole A /\ vector_whole B /\ vector_whole C /\ value_whole f
  | cr_vec_mix A B factor =>
    vector_whole A /\ vector_whole B /\ value_whole factor
  | cr_vec_from_color C => C = color_NULL
  end.

Fixpoint shader_whole (n : cr_shader_node) : Prop :=
  match n with
  | shader_NULL => True
  | cr_bsdf_diffuse color | cr_bsdf_transparent color
  | cr_bsdf_translucent color => color_whole color
  | cr_bsdf_metal color roughness => color_whole color /\ value_whole roughness
  | cr_bsdf_glass color roughness IOR | cr_bsdf_plastic color roughness IOR =>
    color_whole color /\ value_whole roughness /\ value_whole IOR
  | cr_bsdf_mix A B factor =>
    shader_whole A /\ shader_whole B /\ value_whole factor
  | cr_bsdf_add A B => shader_whole A /\ shader_whole B
  | cr_bsdf_emissive color strength => color_whole color /\ value_whole strength
  | cr_bsdf_background color pose strength =>
    color_whole color /\ vector_whole pose /\ value_whole strength
  end.

Lemma add_each_short {T : Type} (src : list T) (n k : nat) (dst : list T) :
  (length src < k + n)%nat -> (0 < n)%nat ->
  add_each src n (Z.of_nat k) dst = UB.
Proof.
  revert k dst. induction n as [| n IH]; intros k dst Hlen Hn; [lia |].
  simpl. rewrite item_at_nat.
  destruct (src !! k) as [v |] eqn:Hv; [| reflexivity].
  apply lookup_lt_Some in Hv.
  replace (Z.of_nat k + 1) with (Z.of_nat (S k)) by lia.
  apply IH; lia.
Qed.

Lemma copy_elements_same (ct : Z) (elements : list ramp_element) :
  copy_elements ct elements = Ok elements
  <-> Z.to_nat ct = length elements.
Proof.
  unfold copy_elements. change 0 with (Z.of_nat 0).
  destruct (decide (Z.to_nat ct <= length elements)%nat) as [Hle | Hgt].
  - rewrite add_each_from by lia. rewrite drop_0, app_nil_l. split.
    + intros [= Htake]. apply (f_equal length) in Htake.
      rewrite length_take in Htake. lia.
    + intros ->. by rewrite take_ge by lia.
  - rewrite add_each_short by lia. split; [discriminate | lia].
Qed.

Ltac copy_cases :=
  repeat match goal with
         | |- context [obind ?m _] =>
           let o := fresh "o" in
           destruct m as [o | | |] eqn:?; cbn [obind]
         end.

Lemma Ok_inj {T : Type} (x y : T) : Ok x = Ok y <-> x = y.
Proof. split; [by intros [= ->] | by intros ->]. Qed.

Lemma node_copies_whole :
  (forall s, stringCopy s = s) ->
  (forall v, value_deepcopy v = Ok v <-> value_whole v)
  /\ (forall c, color_deepcopy c = Ok c <-> color_whole c)
  /\ (forall v, vector_deepcopy v = Ok v <-> vector_whole v).
Proof.
  intros Hstr. apply node_ind; intros;
    cbn [value_deepcopy color_deepcopy vector_deepcopy
         value_whole color_whole vector_whole];
    try (split; [done | done]);
    try rewrite Hstr;
    repeat match goal with
           | IH : _ <-> _ |- _ => rewrite <- IH; clear IH
           end;
    try rewrite <- copy_elements_same;
    copy_cases; rewrite ?Ok_inj;
    try (split; [intros [= ] | intros ?]; intuition congruence);
    try (split; [intros [= ] | intros ?]; [intuition congruence | intuition discriminate]).
Qed.

Lemma shader_copies_whole :
  (forall s, stringCopy s = s) ->
  forall n, shader_deepcopy n = Ok n <-> shader_whole n.
Proof.
  intros Hstr.
  destruct (node_copies_whole Hstr) as (Hvalue & Hcolor & Hvector).
  induction n; cbn [shader_deepcopy shader_whole];
    try (split; [done | done]);
    repeat match goal with
           | IH : _ <-> _ |- _ => rewrite <- IH; clear IH
           end;
    rewrite <- ?Hvalue, <- ?Hcolor, <- ?Hvector;
    copy_cases; rewrite ?Ok_inj;
    try (split; [intros [= ] | intros ?]; intuition congruence);
    try (split; [intros [= ] | intros ?];
         [intuition congruence | intuition discriminate]).
Qed.

(** X23: given that [stringCopy] returns a string of the same characters,
    the deep copy of a value, color, vector or shader description is equal
    to the description exactly when the description is whole: each color
    ramp in it holds as many elements as it counts, and it has no
    [cr_vec_from_color] node with a color.  [vector_deepcopy] has no case
    for that tag, so the copy of such a node has lost its color; a ramp
    that counts more elements than it holds is read past its end. *)
Theorem deepcopy_equal_iff_whole :
  (forall s, stringCopy s = s) ->
  (forall v, value_deepcopy v = Ok v <-> value_whole v)
  /\ (forall c, color_deepcopy c = Ok c <-> color_whole c)
  /\ (forall v, vector_deepcopy v = Ok v <-> vector_whole v)
  /\ (forall n, shader_deepcopy n = Ok n <-> shader_whole n).
Proof.
  intros Hstr.
  destruct (node_copies_whole Hstr) as (Hvalue & Hcolor & Hvector).
  split; [exact Hvalue |]. split; [exact Hcolor |]. split; [exact Hvector |].
  by apply shader_copies_whole.
Qed.

(** The copy of a vector node that takes its value from a color: the tag
    is kept and the color is gone, whatever it was. *)
Lemma vector_deepcopy_from_color (C : cr_color_node) :
  vector_deepcopy (cr_vec_from_color C) = Ok (cr_vec_from_color color_NULL).
Proof. reflexivity. Qed.

(** X24: a copy that was made can be copied again without further loss:
    whatever [shader_deepcopy] returns is whole, and its own copy is equal
    to it. *)
Theorem deepcopy_of_a_copy :
  (forall s, stringCopy s = s) ->
  (forall v v', value_deepcopy v = Ok v' -> value_deepcopy v' = Ok v')
  /\ (forall c c', color_deepcopy c = Ok c' -> color_deepcopy c' = Ok c')
  /\ (forall v v', vector_deepcopy v = Ok v' -> vector_deepcopy v' = Ok v')
  /\ (forall n n', shader_deepcopy n = Ok n' -> shader_deepcopy n' = Ok n').
Proof.
  intros Hstr.
  destruct (node_copies_whole Hstr) as (Hvalue & Hcolor & Hvector).
  pose proof (shader_copies_whole Hstr) as Hshader.
  assert ((forall v v', value_deepcopy v = Ok v' -> value_whole v')
          /\ (forall c c', color_deepcopy c = Ok c' -> color_whole c')
          /\ (forall v v', vector_deepcopy v = Ok v' -> vector_whole v'))
    as (Wvalue & Wcolor & Wvector).
  { apply node_ind; intros;
      match goal with H : _ = Ok _ |- _ => revert H end;
      cbn [value_deepcopy color_deepcopy vector_deepcopy];
      copy_cases; try discriminate; intros [= <-];
      cbn [value_whole color_whole vector_whole];
      repeat split; eauto.
    match goal with H : copy_elements _ _ = Ok _ |- _ => rename H into Hcopy end.
    unfold copy_elements in Hcopy. change 0 with (Z.of_nat 0) in Hcopy.
    destruct (decide (Z.to_nat element_count <= length elements)%nat).
    - rewrite add_each_from in Hcopy by lia. injection Hcopy as <-.
      rewrite ?app_nil_l, ?drop_0, length_take. lia.
    - rewrite add_each_short in Hcopy by lia. discriminate. }
  split; [intros v v' H; by apply Hvalue, (Wvalue v) |].
  split; [intros c c' H; by apply Hcolor, (Wcolor c) |].
  split; [intros v v' H; by apply Hvector, (Wvector v) |].
  intros n n' H. apply Hshader. revert n' H.
  induction n; intros n'; cbn [shader_deepcopy];
    copy_cases; try discriminate; intros [= <-];
    cbn [shader_whole]; repeat split; eauto.
Qed.

End Nodes.

(** * The further properties on concrete inputs *)

Module More.

(** [Sample.floor_scene] with one empty material set. *)
Definition shaded_scene : @world Z unit unit unit :=
  set_shader_buffers Sample.floor_scene [ {| descriptions := []; bsdfs := [] |} ].

(** [Sample.steady] before its second render thread has a worker. *)
Definition short_of_workers : @renderer Z unit unit unit unit :=
  set_state Sample.steady
    (set_workers (state Sample.steady) [Sample.local_worker]).

Definition not_iterative : @renderer Z unit unit unit unit :=
  set_prefs Sample.steady (set_iterative (prefs Sample.steady) false).

Definition no_threads : @renderer Z unit unit unit unit :=
  set_state
    (set_prefs Sample.steady
       (set_iterative (set_threads (prefs Sample.steady) 0) false))
    (set_workers (state Sample.steady) []).

Definition build_bsdf_node (w : @world Z unit unit unit) (desc : option unit)
    : option unit * unit :=
  (desc, tt).

Definition keep_description (desc : option unit) : outcome (option unit) :=
  Ok desc.

Definition same_string (s : option string) : option string := s.

Definition same_bits (x : Z) : Z := x.

Definition same_camera (c : camera) : camera := c.

Definition same_vector (v : vector) : vector := v.

Definition same_renderer (r : @renderer Z unit unit unit unit) := r.

(** A glass-like mix over a checkerboard and a two-element ramp. *)
Definition ramp : @cr_color_node Z :=
  cr_cn_color_ramp (cr_vn_constant 7) 0 1 2 [10; 20].

Definition plain_shader : @cr_shader_node Z :=
  cr_bsdf_mix
    (cr_bsdf_diffuse
       (cr_cn_checkerboard ramp (cr_cn_image (Some "wood.png"%string) 0)
          (cr_vn_constant 3)))
    (cr_bsdf_glass color_NULL (cr_vn_constant 1)
       (cr_vn_fresnel (cr_vn_constant 2) cr_vec_normal))
    (cr_vn_constant 5).

(** A background whose pose takes its value from a color. *)
Definition posed_background : @cr_shader_node Z :=
  cr_bsdf_background ramp (cr_vec_from_color ramp) (cr_vn_constant 1).

(** What [shader_deepcopy] makes of [posed_background]. *)
Definition copied_background : @cr_shader_node Z :=
  cr_bsdf_background ramp (cr_vec_from_color color_NULL) (cr_vn_constant 1).





End More.

Ltac evaluated :=
  vm_compute; repeat split; first [reflexivity | discriminate | exact I].

Lemma set_callback_slot_witness :
  exists r',
    cr_renderer_set_callback PTR 2 (Some 4096) (Some 8192) Sample.steady
    = Ok (true, r')
    /\ item_at (callbacks (state r')) 2
       = Some {| fn := Some 4096; user_data := Some 8192 |}
    /\ item_at (callbacks (state r')) 3 = Some Sample.no_callback.
Proof.
  destruct (set_callback_slot Sample.steady 2 (Some 4096) (Some 8192))
    as [_ Hin]; [reflexivity | lia |].
  destruct Hin as (r' & Hset & Hslot & Hother & _); [evaluated |].
  exists r'. split; [exact Hset |]. split; [exact Hslot |].
  rewrite (Hother 3) by lia. reflexivity.
Defined.

Lemma num_pref_round_trip_witness :
  exists r',
    cr_renderer_set_num_pref PTR cr_renderer_samples 64 Sample.steady
    = Ok (true, r')
    /\ cr_renderer_get_num_pref PTR cr_renderer_samples r' = Ok (64, r')
    /\ num_pref_value cr_renderer_bounces r' = 30.
Proof.
  destruct (num_pref_round_trip cr_renderer_samples 64 Sample.steady)
    as (r' & Hset & Hget & Hother & _);
    [reflexivity | evaluated | discriminate |].
  exists r'. split; [exact Hset |]. split; [exact Hget |].
  rewrite (Hother cr_renderer_bounces) by discriminate. reflexivity.
Defined.

Lemma override_cam_selects_existing_witness :
  (exists r' cam,
     cr_renderer_set_num_pref PTR cr_renderer_override_cam 0 Sample.steady
     = Ok (true, r')
     /\ item_at (cameras (scene r')) (selected_camera (prefs r')) = Some cam)
  /\ cr_renderer_set_num_pref PTR cr_renderer_override_cam 1 Sample.steady
     = Ok (false, Sample.steady).
Proof.
  split.
  - destruct (override_cam_selects_existing 0 Sample.steady) as [Hin _]; [lia |].
    destruct Hin as (r' & cam & Hset & _ & Hcam); [reflexivity |].
    by exists r', cam.
  - destruct (override_cam_selects_existing 1 Sample.steady) as [_ Hout]; [lia |].
    apply Hout. vm_compute. discriminate.
Defined.

Lemma finalize_builds_from_snapshot_witness :
  exists w1,
    cr_mesh_finalize PTR 0 Sample.floor_scene = Ok w1
    /\ meshes w1 = meshes Sample.floor_scene
    /\ bg_worker w1 = [ {| bt_mesh := Sample.bound_mesh; bt_mesh_idx := 0 |} ].
Proof.
  destruct (finalize_builds_from_snapshot Sample.build_mesh_bvh
              Sample.floor_scene 0 Sample.bound_mesh)
    as (w1 & Hfin & -> & _); [evaluated | reflexivity |].
  exists (set_bg_worker Sample.floor_scene
            (bg_worker Sample.floor_scene
             ++ [ {| bt_mesh := Sample.bound_mesh; bt_mesh_idx := 0 |} ])).
  split; [exact Hfin |]. split; reflexivity.
Defined.

Lemma bind_material_set_checks_both_witness :
  (exists w',
     cr_instance_bind_material_set PTR 0 0 More.shaded_scene = Ok (true, w'))
  /\ cr_instance_bind_material_set PTR 0 1 More.shaded_scene
     = Ok (false, More.shaded_scene).
Proof.
  destruct (bind_material_set_checks_both More.shaded_scene 0 0)
    as [Hin _]; [evaluated | evaluated | evaluated | evaluated |].
  destruct (bind_material_set_checks_both More.shaded_scene 0 1)
    as [_ Hout]; [evaluated | evaluated | evaluated | evaluated |].
  split.
  - eexists. eapply Hin; reflexivity.
  - apply Hout. right. reflexivity.
Defined.

Lemma set_transform_is_idempotent_witness :
  exists w1 i1,
    cr_instance_set_transform Sample.mat_invert PTR 0 Sample.shear
      Sample.floor_scene = Ok w1
    /\ item_at (instances w1) 0 = Some i1
    /\ A (composite i1) = Sample.shear
    /\ cr_instance_set_transform Sample.mat_invert PTR 0 Sample.shear w1 = Ok w1.
Proof.
  destruct (set_transform_is_idempotent Sample.mat_invert Sample.floor_scene 0
              (Sample.new_mesh_instance [Sample.bound_mesh] 0) Sample.shear)
    as (w1 & i1 & H1 & Hi & HA & _ & _ & _ & H2);
    [evaluated | reflexivity |].
  by exists w1, i1.
Defined.

Lemma out_of_range_is_refused_witness :
  cr_mesh_finalize PTR 5 Sample.floor_scene = Ok Sample.floor_scene
  /\ cr_instance_transform Sample.mat_mul Sample.mat_invert PTR 5
       Sample.identity Sample.floor_scene = Ok Sample.floor_scene
  /\ cr_camera_update More.same_camera More.same_camera PTR 5
       Sample.floor_scene = Ok (false, Sample.floor_scene).
Proof.
  destruct (out_of_range_is_refused More.build_bsdf_node More.keep_description
              Sample.mat_mul Sample.mat_invert More.same_vector
              More.same_bits More.same_bits More.same_bits More.same_bits
              More.same_camera More.same_camera Sample.floor_scene 5)
    as (Hmesh & Hinst & Hcam & _); [evaluated |].
  destruct Hmesh as (_ & _ & Hfin); [evaluated | reflexivity |].
  destruct Hinst as (_ & Htr & _); [evaluated | reflexivity |].
  destruct Hcam as (_ & _ & Hup); [evaluated | reflexivity |].
  split; [exact Hfin |]. split; [apply Htr | exact Hup].
Defined.

Lemma fewer_workers_than_threads_witness :
  cr_renderer_toggle_pause PTR More.short_of_workers = UB
  /\ fst (Sample.restart [] More.short_of_workers) = UB.
Proof.
  destruct (fewer_workers_than_threads Sample.cam_recompute_optics
              Sample.tex_new Sample.tex_clear Sample.tile_quantize
              Sample.update_toplevel_bvh [] More.short_of_workers
              Sample.buffer_2x2
              {| tiles := Sample.tile_quantize 2 2 32 32 ro_normal;
                 finished := 1 |})
    as [Htoggle Hrestart]; [reflexivity |].
  split; [exact Htoggle |].
  apply Hrestart; try reflexivity. by eexists.
Defined.

Lemma camera_pref_round_trip_witness :
  exists w',
    cr_camera_set_num_pref More.same_vector More.same_bits More.same_bits
      More.same_camera PTR 0 10 1920 Sample.floor_scene = Ok (true, w')
    /\ cr_camera_get_num_pref More.same_bits More.same_bits PTR 0 10 w'
       = Ok (1920, w').
Proof.
  apply (camera_pref_round_trip More.same_vector More.same_bits More.same_bits
           More.same_bits More.same_bits More.same_camera
           Sample.floor_scene 0 10 Sample.camera_2x2 cr_camera_res_x 1920);
    [evaluated | reflexivity | reflexivity].
Defined.

Lemma camera_pref_is_independent_witness :
  exists w',
    cr_camera_set_num_pref More.same_vector More.same_bits More.same_bits
      More.same_camera PTR 0 10 1920 Sample.floor_scene = Ok (true, w')
    /\ cr_camera_get_num_pref More.same_bits More.same_bits PTR 0 11 w'
       = Ok (2, w').
Proof.
  destruct (camera_pref_is_independent More.same_vector More.same_bits
              More.same_bits More.same_bits More.same_bits More.same_camera
              Sample.floor_scene 0 10 Sample.camera_2x2 cr_camera_res_x 1920)
    as (w' & Hset & Hother & _);
    [evaluated | reflexivity | reflexivity |].
  exists w'. split; [exact Hset |].
  destruct (Hother 11 cr_camera_res_y) as (v & Hbefore & Hafter);
    [reflexivity | discriminate |].
  vm_compute in Hbefore. injection Hbefore as <-. exact Hafter.
Defined.


Lemma restart_misuse_is_a_no_op_witness :
  Sample.restart Sample.observations More.not_iterative
  = (Ok More.not_iterative, []).
Proof.
  apply (restart_misuse_is_a_no_op Sample.cam_recompute_optics Sample.tex_new
           Sample.tex_clear Sample.tile_quantize Sample.update_toplevel_bvh).
  left. reflexivity.
Defined.

Lemma restart_bail_out_restores_witness :
  exists r',
    fst (Sample.restart
           [ {| seen_in_pause_loop := false; seen_state := r_exiting |} ]
           Sample.resized) = Ok r'
    /\ s (state r') <> r_rendering
    /\ paused <$> workers (state r') = [false; false; false]
    /\ result_buf (state r') = Some Sample.buffer_4x2.
Proof.
  eexists. split; [vm_compute; reflexivity |].
  edestruct (restart_bail_out_restores Sample.cam_recompute_optics
               Sample.tex_new Sample.tex_clear Sample.tile_quantize
               Sample.update_toplevel_bvh
               [ {| seen_in_pause_loop := false; seen_state := r_exiting |} ]
               Sample.resized)
    as (Hs & Hp & _ & Hb & _);
    [ reflexivity | reflexivity | reflexivity | reflexivity | reflexivity
    | reflexivity | vm_compute; reflexivity
    | repeat (apply Forall_cons; split; [reflexivity |]); apply Forall_nil_2
    | ].
  split; [exact Hs |]. split; [exact Hp | exact Hb].
Defined.

Lemma restart_resize_completes_witness :
  exists r',
    fst (Sample.restart Sample.observations Sample.resized) = Ok r'
    /\ result_buf (state r')
       = Some (Sample.tex_clear (Sample.tex_new float_p 2 2 4))
    /\ finishedPasses (state r') = 1
    /\ paused <$> workers (state r') = [false; false; false].
Proof.
  destruct (restart_resize_completes Sample.cam_recompute_optics
              Sample.tex_new Sample.tex_clear Sample.tile_quantize
              Sample.update_toplevel_bvh [1%nat; 0%nat; 0%nat] []
              Sample.resized Sample.buffer_4x2
              {| tiles := Sample.tile_quantize 4 2 32 32 ro_normal;
                 finished := 1 |}
              Sample.camera_2x2)
    as (r' & Hrun & Hbuf & _ & Hfp & Hp & _);
    try reflexivity; try (evaluated).
  exists r'. split; [exact Hrun |]. split; [exact Hbuf |].
  split; [exact Hfp | exact Hp].
Defined.

Lemma bind_vertex_buf_is_replacement_witness :
  exists w' m',
    cr_mesh_bind_vertex_buf PTR 0
      {| vertices_p := Some [vec 1 2 3; vec 4 5 6]; vertex_count := 1;
         normals_p := None; normal_count := 7;
         tex_coords_p := Some []; tex_coord_count := 0 |}
      Sample.floor_scene = Ok w'
    /\ item_at (meshes w') 0 = Some m'
    /\ vbuf m' = {| vertices := [vec 1 2 3]; normals := [];
                    texture_coords := [] |}
    /\ polygons m' = [Sample.old_face].
Proof.
  eexists _, _. split.
  - apply (bind_vertex_buf_is_replacement Sample.floor_scene 0
             Sample.bound_mesh);
      [evaluated | reflexivity
      | evaluated | exact I
      | evaluated].
  - split; [reflexivity |]. split; reflexivity.
Defined.

Lemma bind_faces_accumulates_witness :
  exists w1 w2,
    cr_mesh_bind_faces PTR 0 (Some [Sample.new_face]) 1 Sample.floor_scene
    = Ok w1
    /\ cr_mesh_bind_faces PTR 0 (Some [Sample.old_face]) 1 w1 = Ok w2
    /\ cr_mesh_bind_faces PTR 0 (Some [Sample.new_face; Sample.old_face]) 2
         Sample.floor_scene = Ok w2.
Proof.
  destruct (bind_faces_accumulates Sample.floor_scene 0 Sample.bound_mesh
              [Sample.new_face] [Sample.old_face])
    as (w1 & w2 & m2 & H1 & H2 & H12 & _);
    [evaluated | reflexivity |].
  by exists w1, w2.
Defined.

Lemma interactive_start_without_threads_witness :
  exists r1,
    cr_renderer_start_interactive More.same_renderer PTR More.no_threads = Ok r1
    /\ iterative (prefs r1) = true
    /\ Sample.restart Sample.observations r1 = (Ok r1, [])
    /\ cr_renderer_stop PTR [r_exiting; r_exiting] r1 = Spin.
Proof.
  destruct (interactive_start_without_threads Sample.cam_recompute_optics
              Sample.tex_new Sample.tex_clear Sample.tile_quantize
              Sample.update_toplevel_bvh More.same_renderer More.no_threads)
    as (r1 & Hstart & -> & Hrestart & Hstop); [reflexivity |].
  eexists. split; [exact Hstart |]. split; [reflexivity |].
  split; [apply Hrestart; reflexivity | apply (Hstop 2%nat)].
Defined.

Lemma blender_coordinates_stay_on_witness :
  exists r1 r2 r3 r4,
    cr_renderer_set_num_pref PTR cr_renderer_blender_mode 1 Sample.steady
    = Ok (true, r1)
    /\ cr_renderer_scene_get PTR r1 = Ok (PTR, r2)
    /\ cr_renderer_set_num_pref PTR cr_renderer_blender_mode 0 r2 = Ok (true, r3)
    /\ cr_renderer_scene_get PTR r3 = Ok (PTR, r4)
    /\ use_blender_coordinates (scene r4) = true.
Proof.
  destruct (blender_coordinates_stay_on Sample.steady 1)
    as (r1 & r2 & r3 & r4 & H1 & H2 & _ & H3 & _ & H4 & H5); [discriminate |].
  by exists r1, r2, r3, r4.
Defined.

Lemma deepcopy_equal_iff_whole_witness :
  shader_deepcopy More.same_string More.plain_shader = Ok More.plain_shader
  /\ shader_deepcopy More.same_string More.posed_background
     = Ok More.copied_background.
Proof.
  destruct (deepcopy_equal_iff_whole (ramp_element := Z) More.same_string)
    as (_ & _ & _ & Hshader); [reflexivity |].
  split; [| reflexivity].
  apply Hshader. vm_compute. tauto.
Defined.

Lemma deepcopy_of_a_copy_witness :
  shader_deepcopy More.same_string More.posed_background
  = Ok More.copied_background
  /\ shader_deepcopy More.same_string More.copied_background
     = Ok More.copied_background.
Proof.
  destruct (deepcopy_of_a_copy (ramp_element := Z) More.same_string)
    as (_ & _ & _ & Hshader); [reflexivity |].
  split; [reflexivity |].
  apply (Hshader More.posed_background). reflexivity.
Defined.
